(** * meta_finder: type classification, extraction backends and report rendering

    A shallow embedding of the Python sources

      - [utils/file_detection.py]   ([detect_type], [get_file_category])
      - [utils/normalize.py]        ([normalize_metadata], [format_nested_dict])
      - [extractors/generic_extractor.py]
      - [extractors/archive_extractor.py]
      - [extractors/document_extractor.py]

    Modelling conventions.

    - A Python [str] is a [string]: a sequence of 8-bit characters.  Case
      mapping ([lower], [title]) acts on the ASCII letters and leaves every
      other character alone; text outside ASCII is carried as its UTF-8 bytes.
    - A Python [bytes] object is a [list byte].
    - A Python [int] is a [Z]; a [float] is the exact rational it stands for.
    - A Python [dict] is an insertion-ordered association list with unique
      keys ([pydict]); [d[k] = v] overwrites in place or appends.
    - An exception is a value of [exn]; a call that may raise returns a
      [result].  A function that builds its dictionary inside [try] runs in the
      monad [M], which keeps the dictionary as it was when the exception was
      raised, exactly as the mutated Python object survives into the handler.
    - Everything outside the repository (file system, libmagic, mimetypes,
      hashlib, zipfile, tarfile, hachoir, PyPDF2, python-docx) is a field of
      the record [world] or a variable of a section. *)

From Stdlib Require Import ZArith QArith Qround Lia.
From Stdlib.Strings Require Import Ascii Byte.
From Stdlib Require Import DecimalString.
From stdpp Require Import base list strings sorting.
From Equations Require Import Equations.

Local Open Scope Z_scope.
Set Warnings "-register-all".

(** ** Python strings *)

Module PyStr.

Definition code (c : ascii) : N := N_of_ascii c.

Definition chr (n : N) : ascii := ascii_of_N n.

(** The line feed character, ['\n']. *)
Definition LF : ascii := chr 10.

Definition SPACE : ascii := chr 32.

Definition is_upper (c : ascii) : bool :=
  ((65 <=? code c) && (code c <=? 90))%N.

Definition is_lower (c : ascii) : bool :=
  ((97 <=? code c) && (code c <=? 122))%N.

Definition is_cased (c : ascii) : bool := is_upper c || is_lower c.

Definition lower_char (c : ascii) : ascii :=
  if is_upper c then chr (code c + 32) else c.

Definition upper_char (c : ascii) : ascii :=
  if is_lower c then chr (code c - 32) else c.

(** [str.isspace] on one character of code below 256. *)
Definition is_space (c : ascii) : bool :=
  let n := code c in
  (((9 <=? n) && (n <=? 13)) || ((28 <=? n) && (n <=? 32))
   || (n =? 133) || (n =? 160))%N.

(** [s.lower()] *)
Fixpoint lower (s : string) : string :=
  match s with
  | EmptyString => EmptyString
  | String c s' => String (lower_char c) (lower s')
  end.

(** [s.upper()] *)
Fixpoint upper (s : string) : string :=
  match s with
  | EmptyString => EmptyString
  | String c s' => String (upper_char c) (upper s')
  end.

(** [s.startswith(p)] *)
Fixpoint startswith (s p : string) {struct p} : bool :=
  match p, s with
  | EmptyString, _ => true
  | String a p', String b s' => if decide (a = b) then startswith s' p' else false
  | String _ _, EmptyString => false
  end.

(** [x in s]: [x] occurs in [s] as a contiguous substring. *)
Fixpoint contains (x s : string) : bool :=
  startswith s x ||
  match s with
  | EmptyString => false
  | String _ s' => contains x s'
  end.

(** Truth value of a string: [bool(s)]. *)
Definition truthy (s : string) : bool :=
  match s with EmptyString => false | String _ _ => true end.

(** [s.replace(a, b)] for one-character [a] and [b]. *)
Fixpoint replace_char (a b : ascii) (s : string) : string :=
  match s with
  | EmptyString => EmptyString
  | String c s' =>
      String (if decide (c = a) then b else c) (replace_char a b s')
  end.

(** [s.count(a)] for a one-character [a]. *)
Fixpoint count_char (a : ascii) (s : string) : Z :=
  match s with
  | EmptyString => 0
  | String c s' => (if decide (c = a) then 1 else 0) + count_char a s'
  end.

(** [s[:n]] *)
Fixpoint str_take (n : nat) (s : string) : string :=
  match n, s with
  | O, _ => EmptyString
  | S _, EmptyString => EmptyString
  | S n', String c s' => String c (str_take n' s')
  end.

(** [len(s)] *)
Definition len (s : string) : Z := Z.of_nat (String.length s).

(** [s.title()]: a cased character is upper-cased when the character
    before it is not cased, and lower-cased otherwise. *)
Fixpoint title_from (previous_is_cased : bool) (s : string) : string :=
  match s with
  | EmptyString => EmptyString
  | String c s' =>
      String (if previous_is_cased then lower_char c else upper_char c)
             (title_from (is_cased c) s')
  end.

Definition title (s : string) : string := title_from false s.

(** [len(s.split())]: the number of maximal runs of non-blank characters. *)
Fixpoint count_words_from (in_word : bool) (s : string) : Z :=
  match s with
  | EmptyString => 0
  | String c s' =>
      if is_space c then count_words_from false s'
      else (if in_word then 0 else 1) + count_words_from true s'
  end.

Definition count_words (s : string) : Z := count_words_from false s.

(** [sep.join(l)] *)
Fixpoint join (sep : string) (l : list string) : string :=
  match l with
  | [] => ""
  | [x] => x
  | x :: l' => x +:+ sep +:+ join sep l'
  end.

(** [c * n] for a one-character string [c]. *)
Fixpoint repeat_char (c : ascii) (n : nat) : string :=
  match n with
  | O => EmptyString
  | S n' => String c (repeat_char c n')
  end.

(** [s.endswith(p)] *)
Definition endswith (s p : string) : bool :=
  startswith (String.rev s) (String.rev p).

(** [str(z)] for an [int]. *)
Definition str_int (z : Z) : string := NilZero.string_of_int (Z.to_int z).

End PyStr.

Import PyStr.

(** ** [utils/file_detection.py]: categories *)

Definition document_tokens : list string :=
  ["pdf"; "word"; "document"; "text"; "officedocument"].

Definition archive_tokens : list string :=
  ["zip"; "rar"; "7z"; "tar"; "gzip"; "compress"].

Definition get_file_category (mime_type : string) : string :=
  if negb (truthy mime_type) then "other"
  else
    let mime_lower := lower mime_type in
    if startswith mime_lower "image/" then "image"
    else if startswith mime_lower "audio/" then "audio"
    else if startswith mime_lower "video/" then "video"
    else if existsb (fun x => contains x mime_lower) document_tokens then "document"
    else if existsb (fun x => contains x mime_lower) archive_tokens then "archive"
    else "other".

Definition categories : list string :=
  ["image"; "audio"; "video"; "document"; "archive"; "other"].

(** ** Python values, dictionaries and exceptions *)

Inductive value : Type :=
| VNone
| VBool (b : bool)
| VInt (z : Z)
| VFloat (q : Q)
| VStr (s : string)
| VBytes (b : list byte)
| VList (l : list value)
| VDict (d : list (string * value)).

(** A [dict] with [str] keys, in insertion order. *)
Definition pydict : Type := list (string * value).

(** The exceptions the modelled calls raise.  All of them are instances of
    Python's [Exception], so [except Exception] catches each of them. *)
Inductive exn : Type :=
| OSError (msg : string)
| ZeroDivisionError
| KeyError (key : string)
| LibraryError (msg : string).

(** [str(e)] *)
Definition str_exn (e : exn) : string :=
  match e with
  | OSError msg => msg
  | ZeroDivisionError => "division by zero"
  | KeyError key => "'" +:+ key +:+ "'"
  | LibraryError msg => msg
  end.

Inductive result (A : Type) : Type :=
| Ok (a : A)
| Raise (e : exn).

Arguments Ok {A} a.
Arguments Raise {A} e.

Module PyDict.

Definition keys (d : pydict) : list string := d.*1.

(** [d.get(k)] *)
Fixpoint get (d : pydict) (k : string) : option value :=
  match d with
  | [] => None
  | (k', v) :: d' => if decide (k' = k) then Some v else get d' k
  end.

(** [d[k] = v]: an existing key keeps its place, a new one goes last. *)
Fixpoint setitem (k : string) (v : value) (d : pydict) : pydict :=
  match d with
  | [] => [(k, v)]
  | (k', v') :: d' =>
      if decide (k' = k) then (k, v) :: d' else (k', v') :: setitem k v d'
  end.

(** [d.update(other)] *)
Definition update (d other : pydict) : pydict :=
  fold_left (fun acc kv => setitem kv.1 kv.2 acc) other d.

(** [d[k]] *)
Definition getitem (d : pydict) (k : string) : result value :=
  match get d k with
  | Some v => Ok v
  | None => Raise (KeyError k)
  end.

(** [k in d] *)
Definition mem (k : string) (d : pydict) : bool :=
  match get d k with Some _ => true | None => false end.

(** [len(d)] *)
Definition len (d : pydict) : Z := Z.of_nat (length d).

End PyDict.

Definition rbind {A B} (r : result A) (k : A -> result B) : result B :=
  match r with
  | Ok a => k a
  | Raise e => Raise e
  end.

(** Code that fills the dictionary [metadata] and may raise half way. *)
Definition M (A : Type) : Type := pydict -> pydict * result A.

Definition ret {A} (a : A) : M A := fun d => (d, Ok a).

Definition bind {A B} (m : M A) (k : A -> M B) : M B :=
  fun d =>
    match m d with
    | (d', Ok a) => k a d'
    | (d', Raise e) => (d', Raise e)
    end.

(** A call into the outside world, made from inside the block. *)
Definition call {A} (r : result A) : M A := fun d => (d, r).

(** [metadata[k] = v] *)
Definition assign (k : string) (v : value) : M unit :=
  fun d => (PyDict.setitem k v d, Ok tt).

(** [try: body  except Exception as e: handler(e)] *)
Definition try_except (body : M unit) (handler : exn -> M unit) : M unit :=
  fun d =>
    match body d with
    | (d', Ok _) => (d', Ok tt)
    | (d', Raise e) => handler e d'
    end.

(** [metadata = {}; <block>; return metadata]: the dictionary the block
    leaves behind, or the exception that escapes it. *)
Definition returns_or_raises (block : M unit) : result pydict :=
  match block [] with
  | (d, Ok _) => Ok d
  | (_, Raise e) => Raise e
  end.

#[global] Instance result_ret : MRet result := fun A a => Ok a.
#[global] Instance result_bind : MBind result := fun A B k r => rbind r k.
#[global] Instance M_ret : MRet M := fun A a => ret a.
#[global] Instance M_bind : MBind M := fun A B k m => bind m k.

(** True division [a / b] of two [int]s. *)
Definition truediv (a b : Z) : result Q :=
  if b =? 0 then Raise ZeroDivisionError
  else Ok (Qdiv (inject_Z a) (inject_Z b)).

(** [round(x, 2)], on the exact rational: to the nearest hundredth, ties to
    the even neighbour. *)
Definition round2 (q : Q) : Q :=
  let scaled := Qmult q (inject_Z 100) in
  let fl := Qfloor scaled in
  let twice := Qminus (Qmult (inject_Z 2) scaled) (inject_Z (2 * fl)) in
  let n :=
    match Qcompare twice (inject_Z 1) with
    | Lt => fl
    | Gt => fl + 1
    | Eq => if Z.even fl then fl else fl + 1
    end in
  Qmake n 100.

(** ** The world outside the repository *)

(** [os.stat_result], the fields the code reads. *)
Record stat_result : Type := {
  st_size : Z;
  st_ctime : Q;
  st_mtime : Q;
  st_atime : Q
}.

(** A hachoir parser object: what [extractMetadata(parser)] gives (the lines
    of [exportPlaintext()], or [None]) and what closing its input does. *)
Record hachoir_parser : Type := {
  hachoir_extractMetadata : result (option (list string));
  hachoir_close : result unit
}.

(** [zipfile.ZipInfo] *)
Record ZipInfo : Type := {
  filename : string;
  file_size : Z
}.

(** [tarfile.TarInfo] *)
Record TarInfo : Type := {
  tarinfo_name : string;
  tarinfo_size : Z
}.

(** A page of a PDF: [page.extract_text()]. *)
Record pdf_page : Type := {
  extract_text : result (option string)
}.

(** [PyPDF2.PdfReader] *)
Record pdf_reader : Type := {
  pages : list pdf_page;
  pdf_metadata : option (list (string * string));
  is_encrypted : bool
}.

(** [docx.Document], with its [core_properties] flattened. *)
Record docx_document : Type := {
  core_title : option string;
  core_author : option string;
  core_subject : option string;
  core_keywords : option string;
  core_comments : option string;
  core_category : option string;
  core_created : option string;
  core_modified : option string;
  core_last_modified_by : option string;
  core_revision : Z;
  paragraphs : list string;
  num_tables : Z;
  num_sections : Z
}.

Record world : Type := {
  (** [os], [os.path] *)
  os_stat : string -> result stat_result;
  os_path_exists : string -> bool;
  os_path_basename : string -> string;
  os_path_splitext : string -> string * string;
  (** [open(path, 'rb')]: the bytes the handle will deliver. *)
  open_rb : string -> result (list byte);
  (** [open(path, 'r', encoding='utf-8', errors='ignore')] and [f.read()]. *)
  open_text : string -> result string;
  (** [str(x)] for a [float]; [str(x)] for a list, a dict or a bytes object. *)
  float_str : Q -> string;
  container_str : value -> string;
  (** python-magic *)
  MAGIC_AVAILABLE : bool;
  magic_from_file : string -> result string;
  (** [mimetypes.guess_type(path)[0]] *)
  mimetypes_guess_type : string -> option string;
  (** [hashlib]: the hex digest of a byte string. *)
  md5_hexdigest : list byte -> string;
  sha256_hexdigest : list byte -> string;
  (** hachoir *)
  HACHOIR_AVAILABLE : bool;
  createParser : string -> result (option hachoir_parser);
  (** [zipfile.ZipFile(path, 'r').infolist()] *)
  zipfile_infolist : string -> result (list ZipInfo);
  (** [tarfile.open(path, mode).getmembers()] *)
  tarfile_getmembers : string -> string -> result (list TarInfo);
  (** [py7zr.SevenZipFile(path, 'r').getnames()] *)
  PY7ZR_AVAILABLE : bool;
  py7zr_getnames : string -> result (list string);
  (** PyPDF2, python-docx *)
  PYPDF2_AVAILABLE : bool;
  PdfReader : string -> result pdf_reader;
  DOCX_AVAILABLE : bool;
  Document : string -> result docx_document
}.

(** [os.path.getsize] is [os.stat(path).st_size]. *)
Definition os_path_getsize (w : world) (path : string) : result Z :=
  st ← os_stat w path; Ok (st_size st).

(** [for x in l: body(x)] inside a block. *)
Fixpoint for_each {A} (l : list A) (body : A -> M unit) : M unit :=
  match l with
  | [] => mret tt
  | x :: l' => body x ;; for_each l' body
  end.

(** ** [utils/file_detection.py]: MIME detection *)

Section FileDetection.

Variable w : world.

(** The [try] around python-magic: [Some mime] when it returned, [None]
    when it raised (the message printed on the way is not modelled). *)
Definition magic_attempt (file_path : string) : option string :=
  match magic_from_file w file_path with
  | Ok mime => Some mime
  | Raise _ => None
  end.

Definition mimetypes_fallback (file_path : string) : result string :=
  match mimetypes_guess_type w file_path with
  | Some mime_type =>
      if truthy mime_type then Ok mime_type
      else Ok "application/octet-stream"
  | None => Ok "application/octet-stream"
  end.

Definition detect_type (file_path : string) : result string :=
  if negb (os_path_exists w file_path) then Ok "unknown/unknown"
  else if MAGIC_AVAILABLE w then
    match magic_attempt file_path with
    | Some mime => Ok mime
    | None => mimetypes_fallback file_path
    end
  else mimetypes_fallback file_path.

End FileDetection.

(** ** [extractors/generic_extractor.py] *)

Module GenericExtractor.

(** [f'{b:02x}'] *)
Definition hex_digit (n : N) : ascii :=
  if (n <? 10)%N then chr (48 + n) else chr (87 + n).

Definition hex02 (b : byte) : string :=
  let n := Byte.to_N b in
  String (hex_digit (n / 16)) (String (hex_digit (n mod 16)) EmptyString).

(** [chr(b) if 32 <= b < 127 else '.'] *)
Definition printable (b : byte) : ascii :=
  let n := Byte.to_N b in
  if ((32 <=? n) && (n <? 127))%N then chr n else "."%char.

Fixpoint string_of_chars (l : list ascii) : string :=
  match l with
  | [] => EmptyString
  | c :: l' => String c (string_of_chars l')
  end.

(** [header.startswith(signature)] on bytes. *)
Fixpoint bytes_startswith (header signature : list byte) {struct signature} : bool :=
  match signature, header with
  | [], _ => true
  | a :: signature', b :: header' =>
      if Byte.eqb a b then bytes_startswith header' signature' else false
  | _ :: _, [] => false
  end.

(** The literal [magic_signatures], in the order it is written. *)
Definition magic_signatures : list (list byte * string) :=
  [ ([xff; xd8; xff], "JPEG image");
    ([x89; x50; x4e; x47], "PNG image");
    ([x47; x49; x46; x38], "GIF image");
    ([x25; x50; x44; x46], "PDF document");
    ([x50; x4b; x03; x04], "ZIP archive");
    ([x1f; x8b], "GZIP compressed");
    ([x52; x61; x72; x21], "RAR archive");
    ([x37; x7a; xbc; xaf], "7-Zip archive");
    ([x49; x44; x33], "MP3 audio");
    ([x00; x00; x00; x18; x66; x74; x79; x70; x6d; x70; x34; x32], "MP4 video") ].

(** The loop over the table: assign at the first hit and [break]. *)
Fixpoint identify (header : list byte) (table : list (list byte * string)) : M unit :=
  match table with
  | [] => mret tt
  | (signature, description) :: table' =>
      if bytes_startswith header signature
      then assign "identified_format" (VStr description)
      else identify header table'
  end.

(** The two running digests; a [hashlib] object is the bytes fed so far. *)
Record digests : Type := {
  md5_hash : list byte;
  sha256_hash : list byte
}.

Definition digests_update (h : digests) (chunk : list byte) : digests :=
  {| md5_hash := md5_hash h ++ chunk; sha256_hash := sha256_hash h ++ chunk |}.

Definition inspect {A : Type} (x : A) : {y : A | x = y} := exist _ x eq_refl.

(** [for chunk in iter(lambda: f.read(4096), b''): ...] on a handle with
    [f] left to read. *)
Equations? read_chunks (f : list byte) (h : digests) : digests
  by wf (length f) lt :=
  read_chunks f h with inspect (take 4096 f) := {
    | exist _ [] _ => h
    | exist _ (b :: chunk) E =>
        read_chunks (drop 4096 f) (digests_update h (b :: chunk)) }.
Proof.
  destruct f as [|b0 f]; [discriminate|].
  rewrite length_drop. simpl. lia.
Qed.

(** [str.strip] *)
Fixpoint lstrip (s : string) : string :=
  match s with
  | EmptyString => EmptyString
  | String c s' => if is_space c then lstrip s' else s
  end.

Definition strip (s : string) : string :=
  String.rev (lstrip (String.rev (lstrip s))).

(** [line.split(': ', 1)] for a line that contains [': ']. *)
Fixpoint split_colon (line : string) : option (string * string) :=
  match line with
  | EmptyString => None
  | String c line' =>
      if startswith line ": " then
        Some (EmptyString, match line' with String _ r => r | EmptyString => EmptyString end)
      else
        match split_colon line' with
        | Some (key, value) => Some (String c key, value)
        | None => None
        end
  end.

Section Backend.

Variable w : world.

Definition max_size : Z := 100 * 1024 * 1024.

Definition get_basic_info (file_path : string) : result pydict :=
  stat ← os_stat w file_path;
  kb ← truediv (st_size stat) 1024;
  mb ← truediv (st_size stat) (1024 * 1024);
  Ok [ ("file_name", VStr (os_path_basename w file_path));
       ("file_extension", VStr (os_path_splitext w file_path).2);
       ("file_size_bytes", VInt (st_size stat));
       ("file_size_kb", VFloat (round2 kb));
       ("file_size_mb", VFloat (round2 mb));
       ("creation_time", VStr (float_str w (st_ctime stat)));
       ("modification_time", VStr (float_str w (st_mtime stat)));
       ("access_time", VStr (float_str w (st_atime stat))) ].

Definition calculate_hashes_block (file_path : string) : M unit :=
  try_except
    (file_size ← call (os_path_getsize w file_path);
     if file_size >? max_size then
       assign "hash_note"
         (VStr ("File too large (" +:+ str_int file_size
                +:+ " bytes), skipping hash calculation"))
     else
       f ← call (open_rb w file_path);
       let h := read_chunks f {| md5_hash := []; sha256_hash := [] |} in
       assign "md5_hash" (VStr (md5_hexdigest w (md5_hash h)));;
       assign "sha256_hash" (VStr (sha256_hexdigest w (sha256_hash h))))
    (fun e => assign "hash_error" (VStr (str_exn e))).

Definition calculate_hashes (file_path : string) : result pydict :=
  returns_or_raises (calculate_hashes_block file_path).

Definition hachoir_line (line : string) : M unit :=
  if contains ": " line then
    match split_colon line with
    | Some (key, value) =>
        assign ("hachoir_" +:+ strip key) (VStr (strip value))
    | None => mret tt
    end
  else mret tt.

Definition extract_with_hachoir_block (file_path : string) : M unit :=
  try_except
    (parser ← call (createParser w file_path);
     match parser with
     | Some parser =>
         meta ← call (hachoir_extractMetadata parser);
         match meta with
         | Some lines => for_each lines hachoir_line
         | None => mret tt
         end;;
         call (hachoir_close parser)
     | None => mret tt
     end)
    (fun e => assign "hachoir_error" (VStr (str_exn e))).

Definition extract_with_hachoir (file_path : string) : result pydict :=
  returns_or_raises (extract_with_hachoir_block file_path).

Definition header_size : nat := 16.

Definition inspect_header_block (file_path : string) : M unit :=
  try_except
    (f ← call (open_rb w file_path);
     let header := take header_size f in
     let hex_header := join " " (map hex02 header) in
     assign "file_header_hex" (VStr hex_header);;
     let ascii_header := string_of_chars (map printable header) in
     assign "file_header_ascii" (VStr ascii_header);;
     identify header magic_signatures)
    (fun e => assign "header_error" (VStr (str_exn e))).

Definition inspect_header (file_path : string) : result pydict :=
  returns_or_raises (inspect_header_block file_path).

Definition extract (file_path : string) : result pydict :=
  let metadata := [] in
  basic ← get_basic_info file_path;
  let metadata := PyDict.update metadata basic in
  hashes ← calculate_hashes file_path;
  let metadata := PyDict.update metadata hashes in
  found ← (if HACHOIR_AVAILABLE w then extract_with_hachoir file_path else Ok []);
  let metadata := PyDict.update metadata found in
  header ← inspect_header file_path;
  let metadata := PyDict.update metadata header in
  Ok metadata.

End Backend.

End GenericExtractor.

(** ** [extractors/archive_extractor.py] *)

Module ArchiveExtractor.

Fixpoint sum (l : list Z) : Z :=
  match l with
  | [] => 0
  | x :: l' => x + sum l'
  end.

Definition len {A} (l : list A) : Z := Z.of_nat (length l).

Section Backend.

Variable w : world.

Definition get_basic_info (file_path : string) : result pydict :=
  stat ← os_stat w file_path;
  mb ← truediv (st_size stat) (1024 * 1024);
  Ok [ ("file_name", VStr (os_path_basename w file_path));
       ("file_size_bytes", VInt (st_size stat));
       ("file_size_mb", VFloat (round2 mb)) ].

Definition extract_zip_block (file_path : string) : M unit :=
  try_except
    (info_list ← call (zipfile_infolist w file_path);
     assign "num_files" (VInt (len info_list));;
     assign "compression_type" (VStr "ZIP");;
     let total_uncompressed := sum (file_size <$> info_list) in
     mb ← call (truediv total_uncompressed (1024 * 1024));
     assign "total_uncompressed_size_mb" (VFloat (round2 mb));;
     (if total_uncompressed >? 0 then
        stat ← call (os_stat w file_path);
        q ← call (truediv (st_size stat) total_uncompressed);
        let ratio := Qmult (Qminus (inject_Z 1) q) (inject_Z 100) in
        assign "compression_ratio_percent" (VFloat (round2 ratio))
      else mret tt);;
     let file_list := filename <$> take 50 info_list in
     assign "file_list" (VStr (join ", " file_list));;
     if len info_list >? 50 then
       assign "file_list_note"
         (VStr ("... and " +:+ str_int (len info_list - 50) +:+ " more files"))
     else mret tt)
    (fun e => assign "zip_error" (VStr (str_exn e))).

Definition extract_zip (file_path : string) : result pydict :=
  returns_or_raises (extract_zip_block file_path).

Definition tar_mode (file_path : string) : string :=
  if endswith file_path ".tar.gz" || endswith file_path ".tgz" then "r:gz"
  else if endswith file_path ".tar.bz2" then "r:bz2"
  else if endswith file_path ".tar.xz" then "r:xz"
  else "r".

Definition extract_tar_block (file_path : string) : M unit :=
  try_except
    (let mode := tar_mode file_path in
     members ← call (tarfile_getmembers w file_path mode);
     assign "num_files" (VInt (len members));;
     assign "compression_type" (VStr "TAR");;
     let total_uncompressed := sum (tarinfo_size <$> members) in
     mb ← call (truediv total_uncompressed (1024 * 1024));
     assign "total_uncompressed_size_mb" (VFloat (round2 mb));;
     let file_list := tarinfo_name <$> take 50 members in
     assign "file_list" (VStr (join ", " file_list));;
     if len members >? 50 then
       assign "file_list_note"
         (VStr ("... and " +:+ str_int (len members - 50) +:+ " more files"))
     else mret tt)
    (fun e => assign "tar_error" (VStr (str_exn e))).

Definition extract_tar (file_path : string) : result pydict :=
  returns_or_raises (extract_tar_block file_path).

Definition extract_7z_block (file_path : string) : M unit :=
  try_except
    (file_list ← call (py7zr_getnames w file_path);
     assign "num_files" (VInt (len file_list));;
     assign "compression_type" (VStr "7Z");;
     assign "file_list" (VStr (join ", " (take 50 file_list)));;
     if len file_list >? 50 then
       assign "file_list_note"
         (VStr ("... and " +:+ str_int (len file_list - 50) +:+ " more files"))
     else mret tt)
    (fun e => assign "7z_error" (VStr (str_exn e))).

Definition extract_7z (file_path : string) : result pydict :=
  returns_or_raises (extract_7z_block file_path).

Definition extract (file_path : string) : result pydict :=
  let metadata := [] in
  basic ← get_basic_info file_path;
  let metadata := PyDict.update metadata basic in
  let ext := lower (os_path_splitext w file_path).2 in
  if decide (ext = ".zip") then
    found ← extract_zip file_path; Ok (PyDict.update metadata found)
  else if bool_decide (ext ∈ [".tar"; ".gz"; ".bz2"; ".xz"]) then
    found ← extract_tar file_path; Ok (PyDict.update metadata found)
  else if bool_decide (ext = ".7z") && PY7ZR_AVAILABLE w then
    found ← extract_7z file_path; Ok (PyDict.update metadata found)
  else
    Ok (PyDict.setitem "note"
          (VStr ("No specific extractor for " +:+ ext +:+ " archives")) metadata).

End Backend.

End ArchiveExtractor.

(** ** [extractors/document_extractor.py] *)

Module DocumentExtractor.

Definition len {A} (l : list A) : Z := Z.of_nat (length l).

(** [meta.get(key, '')] *)
Fixpoint meta_get (meta : list (string * string)) (key : string) : string :=
  match meta with
  | [] => ""
  | (k, v) :: meta' => if decide (k = key) then v else meta_get meta' key
  end.

(** [key.strip('/')] *)
Fixpoint lstrip_char (a : ascii) (s : string) : string :=
  match s with
  | EmptyString => EmptyString
  | String c s' => if decide (c = a) then lstrip_char a s' else s
  end.

Definition strip_char (a : ascii) (s : string) : string :=
  String.rev (lstrip_char a (String.rev (lstrip_char a s))).

Definition known_pdf_keys : list string :=
  ["/Title"; "/Author"; "/Subject"; "/Creator"; "/Producer";
   "/CreationDate"; "/ModDate"].

(** [x or ''] *)
Definition or_empty (x : option string) : string :=
  match x with
  | Some s => s
  | None => ""
  end.

Section Backend.

Variable w : world.

Definition get_basic_info (file_path : string) : result pydict :=
  stat ← os_stat w file_path;
  mb ← truediv (st_size stat) (1024 * 1024);
  Ok [ ("file_name", VStr (os_path_basename w file_path));
       ("file_size_bytes", VInt (st_size stat));
       ("file_size_mb", VFloat (round2 mb)) ].

Definition pdf_other_field (item : string * string) : M unit :=
  let (key, value) := item in
  if bool_decide (key ∈ known_pdf_keys) then mret tt
  else
    let clean_key := replace_char "/" "_" (strip_char "/" key) in
    assign ("pdf_" +:+ clean_key) (VStr value).

Definition extract_pdf_block (file_path : string) : M unit :=
  try_except
    (reader ← call (PdfReader w file_path);
     assign "num_pages" (VInt (len (pages reader)));;
     match pdf_metadata reader with
     | Some (item :: items) =>
         let meta := item :: items in
         assign "pdf_title" (VStr (meta_get meta "/Title"));;
         assign "pdf_author" (VStr (meta_get meta "/Author"));;
         assign "pdf_subject" (VStr (meta_get meta "/Subject"));;
         assign "pdf_creator" (VStr (meta_get meta "/Creator"));;
         assign "pdf_producer" (VStr (meta_get meta "/Producer"));;
         assign "pdf_creation_date" (VStr (meta_get meta "/CreationDate"));;
         assign "pdf_modification_date" (VStr (meta_get meta "/ModDate"));;
         for_each meta pdf_other_field
     | _ => mret tt
     end;;
     assign "is_encrypted" (VBool (is_encrypted reader));;
     match pages reader with
     | page :: _ =>
         first_page_text ← call (extract_text page);
         let preview :=
           match first_page_text with
           | Some text => if truthy text then str_take 200 text else ""
           | None => ""
           end in
         assign "first_page_preview" (VStr (replace_char LF SPACE preview))
     | [] => mret tt
     end)
    (fun e => assign "pdf_error" (VStr (str_exn e))).

Definition extract_pdf (file_path : string) : result pydict :=
  returns_or_raises (extract_pdf_block file_path).

Definition extract_docx_block (file_path : string) : M unit :=
  try_except
    (doc ← call (Document w file_path);
     assign "docx_title" (VStr (or_empty (core_title doc)));;
     assign "docx_author" (VStr (or_empty (core_author doc)));;
     assign "docx_subject" (VStr (or_empty (core_subject doc)));;
     assign "docx_keywords" (VStr (or_empty (core_keywords doc)));;
     assign "docx_comments" (VStr (or_empty (core_comments doc)));;
     assign "docx_category" (VStr (or_empty (core_category doc)));;
     assign "docx_created" (VStr (or_empty (core_created doc)));;
     assign "docx_modified" (VStr (or_empty (core_modified doc)));;
     assign "docx_last_modified_by" (VStr (or_empty (core_last_modified_by doc)));;
     assign "docx_revision" (VInt (core_revision doc));;
     assign "num_paragraphs" (VInt (len (paragraphs doc)));;
     assign "num_tables" (VInt (num_tables doc));;
     assign "num_sections" (VInt (num_sections doc));;
     match paragraphs doc with
     | first_para :: _ =>
         assign "first_paragraph_preview" (VStr (str_take 200 first_para))
     | [] => mret tt
     end)
    (fun e => assign "docx_error" (VStr (str_exn e))).

Definition extract_docx (file_path : string) : result pydict :=
  returns_or_raises (extract_docx_block file_path).

Definition extract_txt_block (file_path : string) : M unit :=
  try_except
    (content ← call (open_text w file_path);
     assign "num_characters" (VInt (PyStr.len content));;
     assign "num_lines" (VInt (count_char LF content + 1));;
     assign "num_words" (VInt (count_words content));;
     let preview := if truthy content then str_take 200 content else "" in
     assign "preview" (VStr (replace_char LF SPACE preview)))
    (fun e => assign "txt_error" (VStr (str_exn e))).

Definition extract_txt (file_path : string) : result pydict :=
  returns_or_raises (extract_txt_block file_path).

Definition extract (file_path : string) : result pydict :=
  let metadata := [] in
  basic ← get_basic_info file_path;
  let metadata := PyDict.update metadata basic in
  let ext := lower (os_path_splitext w file_path).2 in
  if bool_decide (ext = ".pdf") && PYPDF2_AVAILABLE w then
    found ← extract_pdf file_path; Ok (PyDict.update metadata found)
  else if bool_decide (ext ∈ [".docx"; ".doc"]) && DOCX_AVAILABLE w then
    found ← extract_docx file_path; Ok (PyDict.update metadata found)
  else if decide (ext = ".txt") then
    found ← extract_txt file_path; Ok (PyDict.update metadata found)
  else
    Ok (PyDict.setitem "note"
          (VStr ("No specific extractor for " +:+ ext +:+ " files")) metadata).

End Backend.

End DocumentExtractor.

(** ** [utils/normalize.py] *)

Module Normalize.

Definition rule : string := repeat_char "=" 80.

Definition newline : string := String LF EmptyString.

Definition no_metadata_line : string :=
  "⚠️  No metadata found or unable to extract metadata.".

Section Render.

Variable w : world.

(** [str(v)] *)
Definition py_str (v : value) : string :=
  match v with
  | VNone => "None"
  | VBool true => "True"
  | VBool false => "False"
  | VInt z => str_int z
  | VFloat q => float_str w q
  | VStr s => s
  | VBytes _ | VList _ | VDict _ => container_str w v
  end.

(** One turn of the loop of [format_nested_dict]: the text appended for
    the item [key: value] at the given indentation. *)
Fixpoint format_nested_item (indent : nat) (key : string) (v : value) : string :=
  match v with
  | VDict d =>
      (newline +:+ repeat_char SPACE indent +:+ key +:+ ":")
      +:+ (fix items (d : list (string * value)) : string :=
             match d with
             | [] => ""
             | (k, v') :: d' => format_nested_item (indent + 2) k v' +:+ items d'
             end) d
  | _ => newline +:+ repeat_char SPACE indent +:+ key +:+ ": " +:+ py_str v
  end.

(** [format_nested_dict(d, indent)]: items in the order [d.items()] gives
    them, which is insertion order. *)
Fixpoint format_nested_dict (d : list (string * value)) (indent : nat) : string :=
  match d with
  | [] => ""
  | (key, v) :: d' => format_nested_item indent key v +:+ format_nested_dict d' indent
  end.

(** The value formatting of [normalize_metadata], tests in source order. *)
Definition format_value (v : value) : string :=
  match v with
  | VList l => join ", " (py_str <$> l)
  | VDict d => format_nested_dict d 2
  | VBytes b => "<binary data: " +:+ str_int (Z.of_nat (length b)) +:+ " bytes>"
  | _ => py_str v
  end.

(** [sorted(metadata_dict.keys())] *)
Definition sorted (l : list string) : list string := merge_sort String.le l.

(** The body of the [for key in sorted(...)] loop. *)
Definition body_line (metadata_dict : pydict) (key : string) : result string :=
  v ← PyDict.getitem metadata_dict key;
  let value_str := format_value v in
  let key_formatted := title (replace_char "_" SPACE key) in
  Ok (key_formatted +:+ ": " +:+ value_str).

Fixpoint body_lines (metadata_dict : pydict) (ks : list string) : result (list string) :=
  match ks with
  | [] => Ok []
  | key :: ks' =>
      line ← body_line metadata_dict key;
      rest ← body_lines metadata_dict ks';
      Ok (line :: rest)
  end.

(** The eight lines before the body; [now] is
    [datetime.now().strftime('%Y-%m-%d %H:%M:%S')]. *)
Definition header_lines (now file_path mime_type : string) : list string :=
  [ rule;
    "METADATA EXTRACTION REPORT";
    rule;
    "Generated: " +:+ now;
    "File: " +:+ file_path;
    "MIME Type: " +:+ mime_type;
    rule;
    "" ].

Definition footer_lines (metadata_dict : pydict) : list string :=
  [ "";
    rule;
    "Total metadata fields: " +:+ str_int (PyDict.len metadata_dict);
    rule ].

(** The list [lines] at the [return]. *)
Definition report_lines (now : string) (metadata_dict : pydict)
    (file_path mime_type : string) : result (list string) :=
  let lines := header_lines now file_path mime_type in
  match metadata_dict with
  | [] => Ok (lines ++ [no_metadata_line])
  | _ :: _ =>
      body ← body_lines metadata_dict (sorted (PyDict.keys metadata_dict));
      Ok (lines ++ body ++ footer_lines metadata_dict)
  end.

Definition normalize_metadata (now : string) (metadata_dict : pydict)
    (file_path mime_type : string) : result string :=
  lines ← report_lines now metadata_dict file_path mime_type;
  Ok (join newline lines).

End Render.

End Normalize.

(** ** Concrete worlds *)

Module Worlds.

Definition no_such_file (path : string) : exn :=
  OSError ("[Errno 2] No such file or directory: '" +:+ path +:+ "'").

Fixpoint lookup_path {A} (l : list (string * A)) (path : string) : option A :=
  match l with
  | [] => None
  | (p, a) :: l' => if decide (p = path) then Some a else lookup_path l' path
  end.

(** [mimetypes] knows a few extensions; it never looks at the file. *)
Definition guess_by_extension (path : string) : option string :=
  if endswith path ".png" then Some "image/png"
  else if endswith path ".txt" then Some "text/plain"
  else if endswith path ".zip" then Some "application/zip"
  else None.

(** What [os.stat] and [open] see at a path. *)
Record node : Type := {
  node_size : Z;
  node_open : result (list byte)
}.

Definition regular (data : list byte) : node :=
  {| node_size := Z.of_nat (length data); node_open := Ok data |}.

Definition directory (path : string) : node :=
  {| node_size := 4096;
     node_open := Raise (OSError ("[Errno 21] Is a directory: '" +:+ path +:+ "'")) |}.

(** A file of [size] bytes of which only the first bytes are spelled out;
    for files too large to be read in full. *)
Definition large_file (size : Z) (head : list byte) : node :=
  {| node_size := size; node_open := Ok head |}.

(** What a library does with a path it has no object for. *)
Definition library_open {A} (nodes : list (string * node))
    (objects : list (string * A)) (path : string) : result A :=
  match lookup_path objects path, lookup_path nodes path with
  | Some a, Some _ => Ok a
  | _, Some _ => Raise (LibraryError "unsupported file format")
  | _, None => Raise (no_such_file path)
  end.

(** A world made of the given nodes, some of which are archives or documents
    that the libraries can open.  python-docx is installed, hachoir is when
    [hachoir] says so (it then finds no parser, and fails on what it cannot
    open); [os.path] keeps paths whole. *)
Definition make (nodes : list (string * node))
    (zips : list (string * list ZipInfo))
    (tars : list (string * list TarInfo))
    (docxs : list (string * docx_document))
    (hachoir : bool) : world := {|
  os_stat := fun p =>
    match lookup_path nodes p with
    | Some n =>
        Ok {| st_size := node_size n;
              st_ctime := inject_Z 0; st_mtime := inject_Z 0;
              st_atime := inject_Z 0 |}
    | None => Raise (no_such_file p)
    end;
  os_path_exists := fun p =>
    match lookup_path nodes p with Some _ => true | None => false end;
  os_path_basename := fun p => p;
  os_path_splitext := fun p => (p, "");
  open_rb := fun p =>
    match lookup_path nodes p with
    | Some n => node_open n
    | None => Raise (no_such_file p)
    end;
  open_text := fun p =>
    match lookup_path nodes p with
    | Some n => data ← node_open n; Ok (String.string_of_list_byte data)
    | None => Raise (no_such_file p)
    end;
  float_str := fun _ => "0.0";
  container_str := fun _ => "";
  MAGIC_AVAILABLE := false;
  magic_from_file := fun p => Raise (no_such_file p);
  mimetypes_guess_type := guess_by_extension;
  md5_hexdigest := fun data => "md5:" +:+ String.string_of_list_byte data;
  sha256_hexdigest := fun data => "sha256:" +:+ String.string_of_list_byte data;
  HACHOIR_AVAILABLE := hachoir;
  createParser := fun p =>
    match lookup_path nodes p with
    | Some n => _ ← node_open n; Ok None
    | None => Raise (no_such_file p)
    end;
  zipfile_infolist := library_open nodes zips;
  tarfile_getmembers := fun p _ => library_open nodes tars p;
  PY7ZR_AVAILABLE := false;
  py7zr_getnames := fun p => Raise (no_such_file p);
  PYPDF2_AVAILABLE := false;
  PdfReader := fun p => Raise (no_such_file p);
  DOCX_AVAILABLE := true;
  Document := library_open nodes docxs
|}.

(** Nothing exists. *)
Definition empty_world : world := make [] [] [] [] false.

(** One regular file. *)
Definition file_world (path : string) (data : list byte) : world :=
  make [(path, regular data)] [] [] [] false.

(** One directory, with hachoir installed. *)
Definition directory_world (path : string) : world :=
  make [(path, directory path)] [] [] [] true.

(** One file of 200 MB that begins with a PNG signature. *)
Definition large_file_world (path : string) : world :=
  make [(path, large_file (200 * 1024 * 1024) [x89; x50; x4e; x47])] [] [] [] false.

(** [n] archive members [f0], [f1], ... of [each] bytes. *)
Definition zip_members (n : nat) (each : Z) : list ZipInfo :=
  (fun i => {| filename := "f" +:+ str_int (Z.of_nat i); file_size := each |})
    <$> seq 0 n.

Definition tar_members (n : nat) (each : Z) : list TarInfo :=
  (fun i => {| tarinfo_name := "f" +:+ str_int (Z.of_nat i); tarinfo_size := each |})
    <$> seq 0 n.

(** One ZIP archive of 22 bytes on disk with the given members. *)
Definition zip_world (path : string) (members : list ZipInfo) : world :=
  make [(path, regular (x50 :: x4b :: x05 :: x06 :: replicate 18 x00))]
       [(path, members)] [] [] false.

(** One TAR archive with the given members. *)
Definition tar_world (path : string) (members : list TarInfo) : world :=
  make [(path, regular (replicate 1024 x00))] [] [(path, members)] [] false.

(** One DOCX document. *)
Definition docx_world (path : string) (doc : docx_document) : world :=
  make [(path, regular [x50; x4b; x03; x04])] [] [] [(path, doc)] false.

(** A document whose first paragraph holds a line break, as python-docx
    reports one: a line feed inside [paragraph.text]. *)
Definition two_line_docx : docx_document := {|
  core_title := Some "Memo";
  core_author := Some "A. Writer";
  core_subject := None;
  core_keywords := None;
  core_comments := None;
  core_category := None;
  core_created := None;
  core_modified := None;
  core_last_modified_by := None;
  core_revision := 1;
  paragraphs := ["Dear team," +:+ String LF "the report is attached."];
  num_tables := 0;
  num_sections := 1
|}.

(** The bytes of [hello], a line feed, [world]. *)
Definition hello_world_bytes : list byte :=
  [x68; x65; x6c; x6c; x6f; x0a; x77; x6f; x72; x6c; x64].

End Worlds.

(** ** Vocabulary of the properties *)

Section Vocabulary.

Import PyDict.

(** The MIME string, lower-cased, has none of the three media prefixes. *)
Definition no_media_prefix (l : string) : Prop :=
  startswith l "image/" = false /\ startswith l "audio/" = false
  /\ startswith l "video/" = false.

Definition has_token (tokens : list string) (l : string) : bool :=
  existsb (fun x => contains x l) tokens.

(** Content sniffing gave no answer: python-magic is not installed, or its
    call raised. *)
Definition sniffing_failed (w : world) (file_path : string) : Prop :=
  MAGIC_AVAILABLE w = false \/ exists e, magic_from_file w file_path = Raise e.

(** Extension lookup gave no answer. *)
Definition lookup_failed (w : world) (file_path : string) : Prop :=
  mimetypes_guess_type w file_path = None
  \/ mimetypes_guess_type w file_path = Some "".

(** The fallback chain as the specification words it, for any path: the
    sniffed type, else the type of the extension, else octet-stream. *)
Definition detect_type_chain (w : world) (file_path : string) : string :=
  match (if MAGIC_AVAILABLE w then magic_attempt w file_path else None) with
  | Some mime => mime
  | None =>
      match mimetypes_guess_type w file_path with
      | Some mime => if truthy mime then mime else "application/octet-stream"
      | None => "application/octet-stream"
      end
  end.

(** Every key a block adds satisfies [P]. *)
Definition assigns_within (P : string -> Prop) {A} (m : M A) : Prop :=
  forall d k, k ∈ keys (m d).1 -> k ∈ keys d \/ P k.

(** The keys hachoir and header inspection may write. *)
Definition hachoir_key (k : string) : Prop := startswith k "hachoir_" = true.

Definition header_keys : list string :=
  ["file_header_hex"; "file_header_ascii"; "identified_format"; "header_error"].

(** What the loop over the table leaves in [identified_format]. *)
Fixpoint first_match (header : list byte) (table : list (list byte * string))
    : option string :=
  match table with
  | [] => None
  | (signature, description) :: table' =>
      if GenericExtractor.bytes_startswith header signature then Some description
      else first_match header table'
  end.

(** The note that follows a truncated list of [n] names. *)
Definition more_files_note (n : Z) : pydict :=
  if n >? 50 then
    [ ("file_list_note", VStr ("... and " +:+ str_int (n - 50) +:+ " more files")) ]
  else [].

(** What the truncation law says of a listing of [n] names, of which
    [listed] are the first 50: the joined names under [file_list], and the
    note exactly when [n > 50]. *)
Definition truncated_listing (metadata : pydict) (names : list string) : Prop :=
  get metadata "file_list" = Some (VStr (join ", " (take 50 names)))
  /\ ((length names > 50)%nat ->
      length (take 50 names) = 50%nat
      /\ get metadata "file_list_note"
         = Some (VStr ("... and " +:+ str_int (Z.of_nat (length names) - 50)
                       +:+ " more files")))
  /\ ((length names <= 50)%nat ->
      take 50 names = names /\ get metadata "file_list_note" = None).

(** A preview as the truncation law wants it: the first 200 characters of
    the text, with every line feed turned into a space. *)
Definition preview_of (text : string) : string :=
  replace_char LF SPACE (str_take 200 text).

(** The body line of key [k]: the display form of the key, then the value. *)
Definition rendered_line (w : world) (d : pydict) (k : string) : string :=
  title (replace_char "_" SPACE k) +:+ ": "
  +:+ Normalize.format_value w (default VNone (get d k)).

(** The three lines that close a report of [n] fields, as text. *)
Definition footer_text (n : nat) : string :=
  Normalize.rule +:+ Normalize.newline +:+ "Total metadata fields: " +:+ str_int (Z.of_nat n)
  +:+ Normalize.newline +:+ Normalize.rule.

End Vocabulary.

(** ** Variations of a world *)

Module Scenarios.

(** [w] with another [os.stat]. *)
Definition with_stat (w : world) (stat : string -> result stat_result) : world := {|
  os_stat := stat;
  os_path_exists := os_path_exists w;
  os_path_basename := os_path_basename w;
  os_path_splitext := os_path_splitext w;
  open_rb := open_rb w;
  open_text := open_text w;
  float_str := float_str w;
  container_str := container_str w;
  MAGIC_AVAILABLE := MAGIC_AVAILABLE w;
  magic_from_file := magic_from_file w;
  mimetypes_guess_type := mimetypes_guess_type w;
  md5_hexdigest := md5_hexdigest w;
  sha256_hexdigest := sha256_hexdigest w;
  HACHOIR_AVAILABLE := HACHOIR_AVAILABLE w;
  createParser := createParser w;
  zipfile_infolist := zipfile_infolist w;
  tarfile_getmembers := tarfile_getmembers w;
  PY7ZR_AVAILABLE := PY7ZR_AVAILABLE w;
  py7zr_getnames := py7zr_getnames w;
  PYPDF2_AVAILABLE := PYPDF2_AVAILABLE w;
  PdfReader := PdfReader w;
  DOCX_AVAILABLE := DOCX_AVAILABLE w;
  Document := Document w
|}.

(** [w] with another [os.path.splitext]. *)
Definition with_splitext (w : world) (splitext : string -> string * string) : world := {|
  os_stat := os_stat w;
  os_path_exists := os_path_exists w;
  os_path_basename := os_path_basename w;
  os_path_splitext := splitext;
  open_rb := open_rb w;
  open_text := open_text w;
  float_str := float_str w;
  container_str := container_str w;
  MAGIC_AVAILABLE := MAGIC_AVAILABLE w;
  magic_from_file := magic_from_file w;
  mimetypes_guess_type := mimetypes_guess_type w;
  md5_hexdigest := md5_hexdigest w;
  sha256_hexdigest := sha256_hexdigest w;
  HACHOIR_AVAILABLE := HACHOIR_AVAILABLE w;
  createParser := createParser w;
  zipfile_infolist := zipfile_infolist w;
  tarfile_getmembers := tarfile_getmembers w;
  PY7ZR_AVAILABLE := PY7ZR_AVAILABLE w;
  py7zr_getnames := py7zr_getnames w;
  PYPDF2_AVAILABLE := PYPDF2_AVAILABLE w;
  PdfReader := PdfReader w;
  DOCX_AVAILABLE := DOCX_AVAILABLE w;
  Document := Document w
|}.

(** [w] with py7zr installed. *)
Definition with_py7zr (w : world) (getnames : string -> result (list string)) : world := {|
  os_stat := os_stat w;
  os_path_exists := os_path_exists w;
  os_path_basename := os_path_basename w;
  os_path_splitext := os_path_splitext w;
  open_rb := open_rb w;
  open_text := open_text w;
  float_str := float_str w;
  container_str := container_str w;
  MAGIC_AVAILABLE := MAGIC_AVAILABLE w;
  magic_from_file := magic_from_file w;
  mimetypes_guess_type := mimetypes_guess_type w;
  md5_hexdigest := md5_hexdigest w;
  sha256_hexdigest := sha256_hexdigest w;
  HACHOIR_AVAILABLE := HACHOIR_AVAILABLE w;
  createParser := createParser w;
  zipfile_infolist := zipfile_infolist w;
  tarfile_getmembers := tarfile_getmembers w;
  PY7ZR_AVAILABLE := true;
  py7zr_getnames := getnames;
  PYPDF2_AVAILABLE := PYPDF2_AVAILABLE w;
  PdfReader := PdfReader w;
  DOCX_AVAILABLE := DOCX_AVAILABLE w;
  Document := Document w
|}.

(** [w] with PyPDF2 installed. *)
Definition with_pypdf2 (w : world) (reader : string -> result pdf_reader) : world := {|
  os_stat := os_stat w;
  os_path_exists := os_path_exists w;
  os_path_basename := os_path_basename w;
  os_path_splitext := os_path_splitext w;
  open_rb := open_rb w;
  open_text := open_text w;
  float_str := float_str w;
  container_str := container_str w;
  MAGIC_AVAILABLE := MAGIC_AVAILABLE w;
  magic_from_file := magic_from_file w;
  mimetypes_guess_type := mimetypes_guess_type w;
  md5_hexdigest := md5_hexdigest w;
  sha256_hexdigest := sha256_hexdigest w;
  HACHOIR_AVAILABLE := HACHOIR_AVAILABLE w;
  createParser := createParser w;
  zipfile_infolist := zipfile_infolist w;
  tarfile_getmembers := tarfile_getmembers w;
  PY7ZR_AVAILABLE := PY7ZR_AVAILABLE w;
  py7zr_getnames := py7zr_getnames w;
  PYPDF2_AVAILABLE := true;
  PdfReader := reader;
  DOCX_AVAILABLE := DOCX_AVAILABLE w;
  Document := Document w
|}.

(** The extension after the last dot, for names with one dot inside. *)
Fixpoint split_at_dot (path : string) : string * string :=
  match path with
  | EmptyString => (EmptyString, EmptyString)
  | String c rest =>
      if decide (c = "."%char) then (EmptyString, path)
      else let (root, ext) := split_at_dot rest in (String c root, ext)
  end.

(** The file vanished: [os.stat] fails for every path. *)
Definition vanished (path : string) : result stat_result :=
  Raise (Worlds.no_such_file path).

(** An archive of three names that py7zr can list. *)
Definition sevenz_world (path : string) (names : list string) : world :=
  with_py7zr (Worlds.file_world path [x37; x7a; xbc; xaf])
    (fun p => if decide (p = path) then Ok names
              else Raise (Worlds.no_such_file p)).

End Scenarios.

(** ** [extractors/image_extractor.py], [audio_extractor.py], [video_extractor.py]

    [extract_with_pil], [extract_with_mutagen] and [extract_with_ffprobe]
    walk library objects by reflection, or search the disk for a program and
    parse what it prints; they enter as fields of [media], with the
    functions of exifread and tinytag. *)

(** [tinytag.TinyTag], the fourteen attributes the code reads. *)
Record tinytag : Type := {
  tag_artist : option value;
  tag_album : option value;
  tag_title : option value;
  tag_track : option value;
  tag_year : option value;
  tag_genre : option value;
  tag_comment : option value;
  tag_albumartist : option value;
  tag_composer : option value;
  tag_disc : option value;
  tag_duration : option value;
  tag_bitrate : option value;
  tag_samplerate : option value;
  tag_channels : option value
}.

Record media : Type := {
  PIL_AVAILABLE : bool;
  extract_with_pil : string -> result pydict;
  EXIFREAD_AVAILABLE : bool;
  (** [exifread.process_file(f, details=False)] on the bytes of the file:
      the tags with [str] of their values. *)
  exifread_process_file : list byte -> result (list (string * string));
  MUTAGEN_AVAILABLE : bool;
  extract_with_mutagen : string -> result pydict;
  TINYTAG_AVAILABLE : bool;
  TinyTag_get : string -> result tinytag;
  extract_with_ffprobe : string -> result pydict
}.

Module ImageExtractor.

Section Backend.

Variable w : world.
Variable m : media.

Definition get_basic_info (file_path : string) : result pydict :=
  stat ← os_stat w file_path;
  mb ← truediv (st_size stat) (1024 * 1024);
  Ok [ ("file_name", VStr (os_path_basename w file_path));
       ("file_size_bytes", VInt (st_size stat));
       ("file_size_mb", VFloat (round2 mb)) ].

Definition exifread_tag (item : string * string) : M unit :=
  let (tag, value) := item in
  if negb (contains "thumbnail" (lower tag)) then
    assign ("exifread_" +:+ tag) (VStr value)
  else mret tt.

Definition extract_with_exifread_block (file_path : string) : M unit :=
  try_except
    (f ← call (open_rb w file_path);
     tags ← call (exifread_process_file m f);
     for_each tags exifread_tag)
    (fun e => assign "exifread_error" (VStr (str_exn e))).

Definition extract_with_exifread (file_path : string) : result pydict :=
  returns_or_raises (extract_with_exifread_block file_path).

Definition extract (file_path : string) : result pydict :=
  let metadata := [] in
  basic ← get_basic_info file_path;
  let metadata := PyDict.update metadata basic in
  found ← (if PIL_AVAILABLE m then extract_with_pil m file_path else Ok []);
  let metadata := PyDict.update metadata found in
  found ← (if EXIFREAD_AVAILABLE m then extract_with_exifread file_path else Ok []);
  let metadata := PyDict.update metadata found in
  Ok metadata.

End Backend.

End ImageExtractor.

Module AudioExtractor.

Section Backend.

Variable w : world.
Variable m : media.

Definition get_basic_info (file_path : string) : result pydict :=
  stat ← os_stat w file_path;
  mb ← truediv (st_size stat) (1024 * 1024);
  Ok [ ("file_name", VStr (os_path_basename w file_path));
       ("file_size_bytes", VInt (st_size stat));
       ("file_size_mb", VFloat (round2 mb)) ].

(** The literal [fields], in the order it is written. *)
Definition fields (tag : tinytag) : list (string * option value) :=
  [ ("artist", tag_artist tag);
    ("album", tag_album tag);
    ("title", tag_title tag);
    ("track", tag_track tag);
    ("year", tag_year tag);
    ("genre", tag_genre tag);
    ("comment", tag_comment tag);
    ("albumartist", tag_albumartist tag);
    ("composer", tag_composer tag);
    ("disc", tag_disc tag);
    ("duration", tag_duration tag);
    ("bitrate", tag_bitrate tag);
    ("samplerate", tag_samplerate tag);
    ("channels", tag_channels tag) ].

Definition tinytag_field (item : string * option value) : M unit :=
  let (key, value) := item in
  match value with
  | Some value => assign ("tinytag_" +:+ key) (VStr (Normalize.py_str w value))
  | None => mret tt
  end.

Definition extract_with_tinytag_block (file_path : string) : M unit :=
  try_except
    (tag ← call (TinyTag_get m file_path);
     for_each (fields tag) tinytag_field)
    (fun e => assign "tinytag_error" (VStr (str_exn e))).

Definition extract_with_tinytag (file_path : string) : result pydict :=
  returns_or_raises (extract_with_tinytag_block file_path).

Definition extract (file_path : string) : result pydict :=
  let metadata := [] in
  basic ← get_basic_info file_path;
  let metadata := PyDict.update metadata basic in
  found ← (if MUTAGEN_AVAILABLE m then extract_with_mutagen m file_path else Ok []);
  let metadata := PyDict.update metadata found in
  found ← (if TINYTAG_AVAILABLE m then extract_with_tinytag file_path else Ok []);
  let metadata := PyDict.update metadata found in
  Ok metadata.

End Backend.

End AudioExtractor.

Module VideoExtractor.

Section Backend.

Variable w : world.
Variable m : media.

Definition get_basic_info (file_path : string) : result pydict :=
  stat ← os_stat w file_path;
  mb ← truediv (st_size stat) (1024 * 1024);
  Ok [ ("file_name", VStr (os_path_basename w file_path));
       ("file_size_bytes", VInt (st_size stat));
       ("file_size_mb", VFloat (round2 mb)) ].

(** The video module's [extract_with_hachoir] is, line for line, the one
    of the generic module. *)
Definition extract_with_hachoir (file_path : string) : result pydict :=
  GenericExtractor.extract_with_hachoir w file_path.

Definition extract (file_path : string) : result pydict :=
  let metadata := [] in
  basic ← get_basic_info file_path;
  let metadata := PyDict.update metadata basic in
  ffprobe_data ← extract_with_ffprobe m file_path;
  let metadata :=
    match ffprobe_data with
    | [] => metadata
    | _ :: _ => PyDict.update metadata ffprobe_data
    end in
  found ← (if HACHOIR_AVAILABLE w then extract_with_hachoir file_path else Ok []);
  let metadata := PyDict.update metadata found in
  Ok metadata.

End Backend.

End VideoExtractor.

(** ** [utils/text_writer.py] *)

Module TextWriter.

(** What the writer asks of the file system. *)
Inductive fs_call : Type :=
| Makedirs (path : string)
| WriteText (path content : string).

(** [os.path.dirname], [os.makedirs(dir, exist_ok=True)], and
    [open(path, 'w', encoding='utf-8', errors='replace')] followed by
    [f.write(content)]. *)
Record filesystem : Type := {
  os_path_dirname : string -> string;
  os_makedirs : string -> result unit;
  write_text : string -> string -> result unit
}.

(** Code that writes: it extends the list of calls made so far. *)
Definition IO (A : Type) : Type := list fs_call -> list fs_call * result A.

Definition io_bind {A B} (m : IO A) (k : A -> IO B) : IO B :=
  fun log =>
    match m log with
    | (log', Ok a) => k a log'
    | (log', Raise e) => (log', Raise e)
    end.

#[global] Instance IO_ret : MRet IO := fun A a log => (log, Ok a).
#[global] Instance IO_bind : MBind IO := fun A B k m => io_bind m k.

(** A call that touches the disk. *)
Definition perform {A} (c : fs_call) (r : result A) : IO A :=
  fun log => (log ++ [c], r).

(** A call that only reads or computes. *)
Definition pure_call {A} (r : result A) : IO A := fun log => (log, r).

(** [try: body  except Exception as e: handler(e)] *)
Definition io_try {A} (body : IO A) (handler : exn -> IO A) : IO A :=
  fun log =>
    match body log with
    | (log', Ok a) => (log', Ok a)
    | (log', Raise e) => handler e log'
    end.

Section Writer.

Variable w : world.
Variable fs : filesystem.

(** The message printed on failure is not modelled. *)
Definition save_metadata (text_content output_path : string) : IO bool :=
  io_try
    (let output_dir := os_path_dirname fs output_path in
     (if truthy output_dir && negb (os_path_exists w output_dir)
      then perform (Makedirs output_dir) (os_makedirs fs output_dir)
      else mret tt);;
     perform (WriteText output_path text_content)
             (write_text fs output_path text_content);;
     mret true)
    (fun e => mret false).

Definition generate_output_filename (input_path : string) : string :=
  let base := (os_path_splitext w input_path).1 in
  base +:+ "_metadata.txt".

End Writer.

End TextWriter.

(** ** [main.py]: the extraction pipeline

    Of [MetaFinderApp.extract_metadata] the model keeps the decisions and
    what the user is finally shown; the progress bar, the button states and
    the offer to open the file are left out. *)

Module Main.

Import TextWriter.

(** What the user is shown in the end. *)
Inductive outcome : Type :=
| Rejected (message : string)
| Failed (status message : string)
| Extracted (preview status : string).

Definition truncation_note : string :=
  String LF (String LF "... (Preview truncated. Full content saved to file)").

Section App.

Variable w : world.
Variable m : media.
Variable fs : filesystem.

Definition get_metadata (file_path category : string) : result pydict :=
  if decide (category = "image") then ImageExtractor.extract w m file_path
  else if decide (category = "audio") then AudioExtractor.extract w m file_path
  else if decide (category = "video") then VideoExtractor.extract w m file_path
  else if decide (category = "document") then DocumentExtractor.extract w file_path
  else if decide (category = "archive") then ArchiveExtractor.extract w file_path
  else GenericExtractor.extract w file_path.

(** The text put in the preview pane. *)
Definition preview_text (text_content : string) : string :=
  let preview := str_take 5000 text_content in
  if PyStr.len text_content >? 5000 then preview +:+ truncation_note
  else preview.

(** [now] is the clock reading [normalize_metadata] takes. *)
Definition extract_metadata (now input_path output_path : string) : IO outcome :=
  if negb (truthy input_path) then
    mret (Rejected "Please select an input file")
  else if negb (truthy output_path) then
    mret (Rejected "Please specify an output location")
  else if negb (os_path_exists w input_path) then
    mret (Rejected "Input file does not exist")
  else
    io_try
      (mime_type ← pure_call (detect_type w input_path);
       let category := get_file_category mime_type in
       metadata ← pure_call (get_metadata input_path category);
       text_content ←
         pure_call (Normalize.normalize_metadata w now metadata input_path mime_type);
       success ← save_metadata w fs text_content output_path;
       if success : bool then
         mret (Extracted (preview_text text_content)
                 ("✅ Metadata extracted successfully! Saved to " +:+ output_path))
       else
         pure_call (Raise (LibraryError "Failed to write output file")))
      (fun e =>
         mret (Failed ("❌ Error: " +:+ str_exn e)
                 ("An error occurred:" +:+ String LF (String LF (str_exn e))))).

End App.

End Main.

(** ** A desk to run the pipeline on *)

Module Desk.

(** No optional media library is installed. *)
Definition no_media : media := {|
  PIL_AVAILABLE := false;
  extract_with_pil := fun _ => Ok [];
  EXIFREAD_AVAILABLE := false;
  exifread_process_file := fun _ => Ok [];
  MUTAGEN_AVAILABLE := false;
  extract_with_mutagen := fun _ => Ok [];
  TINYTAG_AVAILABLE := false;
  TinyTag_get := fun p => Raise (Worlds.no_such_file p);
  extract_with_ffprobe := fun _ =>
    Ok [ ("ffprobe_note",
          VStr "ffprobe not found (install FFmpeg for detailed video metadata)") ]
|}.

(** exifread is installed and finds the given tags in every file it is
    given. *)
Definition exif_media (tags : list (string * string)) : media := {|
  PIL_AVAILABLE := false;
  extract_with_pil := fun _ => Ok [];
  EXIFREAD_AVAILABLE := true;
  exifread_process_file := fun _ => Ok tags;
  MUTAGEN_AVAILABLE := false;
  extract_with_mutagen := fun _ => Ok [];
  TINYTAG_AVAILABLE := false;
  TinyTag_get := fun p => Raise (Worlds.no_such_file p);
  extract_with_ffprobe := fun _ => Ok []
|}.

(** tinytag is installed and reads the given tag from every file. *)
Definition tinytag_media (tag : tinytag) : media := {|
  PIL_AVAILABLE := false;
  extract_with_pil := fun _ => Ok [];
  EXIFREAD_AVAILABLE := false;
  exifread_process_file := fun _ => Ok [];
  MUTAGEN_AVAILABLE := false;
  extract_with_mutagen := fun _ => Ok [];
  TINYTAG_AVAILABLE := true;
  TinyTag_get := fun _ => Ok tag;
  extract_with_ffprobe := fun _ => Ok []
|}.

(** A tag with an artist, a year and a duration only. *)
Definition short_tag : tinytag := {|
  tag_artist := Some (VStr "Nina");
  tag_album := None;
  tag_title := None;
  tag_track := None;
  tag_year := Some (VInt 1965);
  tag_genre := None;
  tag_comment := None;
  tag_albumartist := None;
  tag_composer := None;
  tag_disc := None;
  tag_duration := Some (VInt 180);
  tag_bitrate := None;
  tag_samplerate := None;
  tag_channels := None
|}.

(** The directory part before the last slash, for paths with at most one. *)
Fixpoint dirname_one (path : string) : string :=
  match path with
  | EmptyString => EmptyString
  | String c rest =>
      if decide (c = "/"%char) then EmptyString
      else if contains "/" rest then String c (dirname_one rest)
      else EmptyString
  end.

(** A disk on which every directory can be made and every file written. *)
Definition writable : TextWriter.filesystem := {|
  TextWriter.os_path_dirname := dirname_one;
  TextWriter.os_makedirs := fun _ => Ok tt;
  TextWriter.write_text := fun _ _ => Ok tt
|}.

(** A disk that refuses every write. *)
Definition read_only : TextWriter.filesystem := {|
  TextWriter.os_path_dirname := dirname_one;
  TextWriter.os_makedirs := fun p =>
    Raise (OSError ("[Errno 30] Read-only file system: '" +:+ p +:+ "'"));
  TextWriter.write_text := fun p _ =>
    Raise (OSError ("[Errno 30] Read-only file system: '" +:+ p +:+ "'"))
|}.

End Desk.

(** ** Vocabulary of the further properties *)

Section FurtherVocabulary.

Import PyDict.

(** A block keeps an invariant [I] of the dictionary it fills. *)
Definition preserves (I : pydict -> Prop) {A} (m : M A) : Prop :=
  forall d, I d -> I (m d).1.

(** The identification entry header inspection adds for a header. *)
Definition identified (header : list byte) : pydict :=
  match first_match header GenericExtractor.magic_signatures with
  | Some description => [ ("identified_format", VStr description) ]
  | None => []
  end.

(** Every character of [s] satisfies [P]. *)
Fixpoint all_chars (P : ascii -> bool) (s : string) : bool :=
  match s with
  | EmptyString => true
  | String c s' => P c && all_chars P s'
  end.

(** The keys each block may write. *)
Definition hash_keys : list string :=
  ["hash_note"; "md5_hash"; "sha256_hash"; "hash_error"].

Definition basic_keys : list string :=
  ["file_name"; "file_size_bytes"; "file_size_mb"].

Definition generic_basic_keys : list string :=
  ["file_name"; "file_extension"; "file_size_bytes"; "file_size_kb";
   "file_size_mb"; "creation_time"; "modification_time"; "access_time"].

Definition archive_keys : list string :=
  ["num_files"; "compression_type"; "total_uncompressed_size_mb";
   "compression_ratio_percent"; "file_list"; "file_list_note";
   "zip_error"; "tar_error"; "7z_error"; "note"].

Definition document_fixed_keys : list string :=
  ["num_pages"; "is_encrypted"; "first_page_preview"; "pdf_error";
   "docx_title"; "docx_author"; "docx_subject"; "docx_keywords";
   "docx_comments"; "docx_category"; "docx_created"; "docx_modified";
   "docx_last_modified_by"; "docx_revision"; "num_paragraphs"; "num_tables";
   "num_sections"; "first_paragraph_preview"; "docx_error";
   "num_characters"; "num_lines"; "num_words"; "preview"; "txt_error"; "note"].

(** A key the document backend may write besides the basic ones. *)
Definition document_key (k : string) : Prop :=
  k ∈ document_fixed_keys \/ startswith k "pdf_" = true.

(** The three attributes every backend reports first. *)
Definition has_basic_attributes (w : world) (file_path : string)
    (st : stat_result) (metadata : pydict) : Prop :=
  get metadata "file_name" = Some (VStr (os_path_basename w file_path))
  /\ get metadata "file_size_bytes" = Some (VInt (st_size st))
  /\ get metadata "file_size_mb"
     = Some (VFloat (round2 (Qdiv (inject_Z (st_size st))
                                  (inject_Z (1024 * 1024))))).

(** [32 <= code c < 127] *)
Definition is_printable (c : ascii) : bool :=
  ((32 <=? code c) && (code c <? 127))%N.

(** The value of a lower-case hexadecimal digit. *)
Definition unhex_digit (c : ascii) : option N :=
  let n := code c in
  if ((48 <=? n) && (n <=? 57))%N then Some (n - 48)%N
  else if ((97 <=? n) && (n <=? 102))%N then Some (n - 87)%N
  else None.

(** Reads back a line of two-digit hexadecimal bytes separated by single
    spaces, as [file_header_hex] is written. *)
Fixpoint unhex (fuel : nat) (s : string) : option (list byte) :=
  match fuel, s with
  | _, EmptyString => Some []
  | O, _ => None
  | S fuel', String hi (String lo rest) =>
      match unhex_digit hi, unhex_digit lo with
      | Some h, Some l =>
          match Byte.of_N (16 * h + l) with
          | Some b =>
              match rest with
              | EmptyString => Some [b]
              | String sep rest' =>
                  if decide (sep = SPACE)
                  then match rest' with
                       | EmptyString => None
                       | _ => cons b <$> unhex fuel' rest'
                       end
                  else None
              end
          | None => None
          end
      | _, _ => None
      end
  | S _, String _ EmptyString => None
  end.

(** The keys [extract_pdf] writes under fixed names. *)
Definition pdf_fixed_keys : list string :=
  ["num_pages"; "pdf_title"; "pdf_author"; "pdf_subject"; "pdf_creator";
   "pdf_producer"; "pdf_creation_date"; "pdf_modification_date";
   "is_encrypted"; "first_page_preview"; "pdf_error"].

(** A key [extract_pdf] may write: a fixed one, or [pdf_] followed by a
    cleaned name without any slash. *)
Definition pdf_key (k : string) : Prop :=
  k ∈ pdf_fixed_keys
  \/ exists clean, k = "pdf_" +:+ clean /\ count_char "/" clean = 0.

(** A PDF of one page with the given text and no document information. *)
Definition one_page_pdf (text : string) : pdf_reader := {|
  pages := [ {| extract_text := Ok (Some text) |} ];
  pdf_metadata := None;
  is_encrypted := false
|}.

(** The key as the report shows it. *)
Definition display_key (key : string) : string :=
  title (replace_char "_" SPACE key).

(** The document and archive tokens without the two that another token is
    part of. *)
Definition document_tokens_needed : list string :=
  ["pdf"; "word"; "document"; "text"].

Definition archive_tokens_needed : list string :=
  ["zip"; "rar"; "7z"; "tar"; "compress"].

(** One turn of a loop that files an entry under a prefixed key when it
    has a value. *)
Definition labelled (prefix : string) (entry : string * option value) : M unit :=
  match entry.2 with
  | Some v => assign (prefix +:+ entry.1) v
  | None => mret tt
  end.

(** An exifread tag as such an entry: thumbnails have no value. *)
Definition exif_entry (item : string * string) : string * option value :=
  (item.1, if contains "thumbnail" (lower item.1) then None else Some (VStr item.2)).

(** A tinytag field as such an entry. *)
Definition tinytag_entry (w : world) (item : string * option value)
    : string * option value :=
  (item.1, (fun v => VStr (Normalize.py_str w v)) <$> item.2).

End FurtherVocabulary.

(** * Properties *)

(** ** Strings *)

Section StringFacts.

Lemma lower_char_idemp c : lower_char (lower_char c) = lower_char c.
Proof.
  destruct c as [[] [] [] [] [] [] [] []]; reflexivity.
Qed.

Lemma lower_idemp s : lower (lower s) = lower s.
Proof.
  induction s as [|c s IH]; simpl; [reflexivity|].
  by rewrite lower_char_idemp, IH.
Qed.

Lemma lower_upper_char c : lower_char (upper_char c) = lower_char c.
Proof.
  destruct c as [[] [] [] [] [] [] [] []]; reflexivity.
Qed.

Lemma lower_upper s : lower (upper s) = lower s.
Proof.
  induction s as [|c s IH]; simpl; [reflexivity|].
  by rewrite lower_upper_char, IH.
Qed.

Lemma truthy_lower s : truthy (lower s) = truthy s.
Proof. by destruct s. Qed.

Lemma truthy_of_lower_eq s t : lower s = lower t -> truthy s = truthy t.
Proof.
  intros H. by rewrite <- (truthy_lower s), <- (truthy_lower t), H.
Qed.

Lemma startswith_exclusive s p q :
  startswith s p = true -> startswith s q = true ->
  startswith p q = true \/ startswith q p = true.
Proof.
  revert p q.
  induction s as [|c s IH]; intros [|a p] [|b q]; cbn [startswith]; auto.
  - discriminate.
  - destruct (decide (a = c)) as [->|]; [|discriminate].
    destruct (decide (b = c)) as [->|]; [|discriminate].
    intros Hp Hq. rewrite decide_True by done.
    destruct (IH _ _ Hp Hq) as [H|H]; auto.
Qed.

Lemma append_cons c (s t : string) : String c s +:+ t = String c (s +:+ t).
Proof. reflexivity. Qed.

Lemma append_assoc (s t u : string) : (s +:+ t) +:+ u = s +:+ (t +:+ u).
Proof.
  induction s as [|c s IH]; [reflexivity|].
  rewrite !append_cons. by f_equal.
Qed.

Lemma join_app sep x l1 y l2 :
  join sep ((x :: l1) ++ (y :: l2))
  = join sep (x :: l1) +:+ sep +:+ join sep (y :: l2).
Proof.
  revert x. induction l1 as [|z l1 IH]; intros x; [reflexivity|].
  change (join sep ((x :: z :: l1) ++ y :: l2))
    with (x +:+ sep +:+ join sep ((z :: l1) ++ y :: l2)).
  rewrite IH.
  change (join sep (x :: z :: l1)) with (x +:+ sep +:+ join sep (z :: l1)).
  by rewrite !append_assoc.
Qed.

Lemma join_app_ne sep l1 l2 :
  l1 <> [] -> l2 <> [] ->
  join sep (l1 ++ l2) = join sep l1 +:+ sep +:+ join sep l2.
Proof.
  destruct l1 as [|x l1], l2 as [|y l2]; try done. intros _ _. apply join_app.
Qed.

Lemma str_take_length n s :
  String.length (str_take n s) = Nat.min n (String.length s).
Proof.
  revert s. induction n as [|n IH]; intros [|c s]; simpl; auto.
Qed.

Lemma replace_char_length a b s :
  String.length (replace_char a b s) = String.length s.
Proof. induction s; simpl; auto. Qed.

Lemma replace_char_gone a b s : a <> b -> count_char a (replace_char a b s) = 0.
Proof.
  intros Hab. induction s as [|c s IH]; simpl; [reflexivity|].
  rewrite IH. destruct (decide (c = a)) as [->|Hc].
  - by rewrite decide_False by congruence.
  - by rewrite decide_False.
Qed.

End StringFacts.

(** ** [get_file_category] *)

Example category_image_pdf : get_file_category "image/pdf" = "image".
Proof. reflexivity. Qed.

Example category_upper_case : get_file_category "APPLICATION/ZIP" = "archive".
Proof. reflexivity. Qed.

Example category_document_before_archive :
  get_file_category "application/x-tar+text" = "document".
Proof. reflexivity. Qed.

Example category_default : get_file_category "application/octet-stream" = "other".
Proof. reflexivity. Qed.

Lemma category_case_insensitive mime mime' :
  lower mime' = lower mime -> get_file_category mime' = get_file_category mime.
Proof.
  intros H. unfold get_file_category.
  by rewrite (truthy_of_lower_eq _ _ H), H.
Qed.

(** C2: [get_file_category] sends every MIME string to exactly one of the six
    categories, looks only at the lower-cased string, and decides in the order
    image/ prefix, audio/ prefix, video/ prefix, document token, archive
    token, other: a media prefix wins over any token, a document token over
    an archive token. *)
Theorem get_file_category_total_ordered (mime : string) :
  let l := lower mime in
  get_file_category mime ∈ categories
  /\ NoDup categories
  /\ (forall mime', lower mime' = l -> get_file_category mime' = get_file_category mime)
  /\ get_file_category (upper mime) = get_file_category mime
  /\ (startswith l "image/" = true -> get_file_category mime = "image")
  /\ (startswith l "audio/" = true -> get_file_category mime = "audio")
  /\ (startswith l "video/" = true -> get_file_category mime = "video")
  /\ (no_media_prefix l -> has_token document_tokens l = true ->
      get_file_category mime = "document")
  /\ (no_media_prefix l -> has_token document_tokens l = false ->
      has_token archive_tokens l = true -> get_file_category mime = "archive")
  /\ (no_media_prefix l -> has_token document_tokens l = false ->
      has_token archive_tokens l = false -> get_file_category mime = "other").
Proof.
  intros l.
  assert (Hempty : truthy mime = false -> mime = "") by (by destruct mime).
  assert (Hex : forall p q, startswith l p = true -> startswith l q = true ->
                 startswith p q = false -> startswith q p = false -> False).
  { intros p q Hp Hq Hpq Hqp.
    destruct (startswith_exclusive _ _ _ Hp Hq); congruence. }
  repeat split.
  - unfold get_file_category, categories. fold l.
    repeat case_match; rewrite !elem_of_cons; auto 10.
  - apply (bool_decide_unpack _). by vm_compute.
  - intros mime' H. by apply category_case_insensitive.
  - apply category_case_insensitive, lower_upper.
  - intros H. unfold get_file_category. fold l. rewrite H.
    destruct (truthy mime) eqn:Ht; [reflexivity|].
    specialize (Hempty eq_refl). subst mime l. discriminate.
  - intros H. unfold get_file_category. fold l. rewrite H.
    destruct (truthy mime) eqn:Ht; cbn [negb].
    + destruct (startswith l "image/") eqn:Hi; [|reflexivity].
      exfalso. by apply (Hex "image/" "audio/").
    + specialize (Hempty eq_refl). subst mime l. discriminate.
  - intros H. unfold get_file_category. fold l. rewrite H.
    destruct (truthy mime) eqn:Ht; cbn [negb].
    + destruct (startswith l "image/") eqn:Hi;
        [exfalso; by apply (Hex "image/" "video/")|].
      destruct (startswith l "audio/") eqn:Ha;
        [exfalso; by apply (Hex "audio/" "video/")|].
      reflexivity.
    + specialize (Hempty eq_refl). subst mime l. discriminate.
  - intros (Hi & Ha & Hv) Hd. unfold get_file_category. fold l.
    unfold has_token in Hd. rewrite Hi, Ha, Hv, Hd.
    destruct (truthy mime) eqn:Ht; [reflexivity|].
    specialize (Hempty eq_refl). subst mime l. discriminate.
  - intros (Hi & Ha & Hv) Hd Hz. unfold get_file_category. fold l.
    unfold has_token in Hd, Hz. rewrite Hi, Ha, Hv, Hd, Hz.
    destruct (truthy mime) eqn:Ht; [reflexivity|].
    specialize (Hempty eq_refl). subst mime l. discriminate.
  - intros (Hi & Ha & Hv) Hd Hz. unfold get_file_category. fold l.
    unfold has_token in Hd, Hz. rewrite Hi, Ha, Hv, Hd, Hz.
    by destruct (truthy mime).
Qed.

Lemma get_file_category_total_ordered_witness :
  get_file_category "Image/PDF" = "image"
  /\ get_file_category "application/x-tar+text" = "document"
  /\ get_file_category "application/gzip" = "archive"
  /\ get_file_category "IMAGE/pdf" = get_file_category "Image/PDF".
Proof.
  destruct (get_file_category_total_ordered "Image/PDF")
    as (_ & _ & Hcase & _ & Himage & _).
  destruct (get_file_category_total_ordered "application/x-tar+text")
    as (_ & _ & _ & _ & _ & _ & _ & Hdoc & _).
  destruct (get_file_category_total_ordered "application/gzip")
    as (_ & _ & _ & _ & _ & _ & _ & _ & Harch & _).
  split; [apply Himage; reflexivity|].
  split; [apply Hdoc; [repeat split|]; reflexivity|].
  split; [apply Harch; [repeat split| |]; reflexivity|].
  apply Hcase; reflexivity.
Defined.

(** ** Dictionaries *)

Section DictFacts.

Import PyDict.

Lemma get_setitem_eq k v d : get (setitem k v d) k = Some v.
Proof.
  induction d as [|[k' v'] d IH]; simpl.
  - by rewrite decide_True.
  - destruct (decide (k' = k)) as [->|Hne]; simpl.
    + by rewrite decide_True.
    + by rewrite decide_False.
Qed.

Lemma get_setitem_ne k k' v d : k <> k' -> get (setitem k v d) k' = get d k'.
Proof.
  intros Hne. induction d as [|[k0 v0] d IH]; simpl.
  - by rewrite decide_False.
  - destruct (decide (k0 = k)) as [->|Hk]; simpl.
    + by rewrite !decide_False.
    + by rewrite IH.
Qed.

Lemma keys_setitem k v d k' :
  k' ∈ keys (setitem k v d) <-> k' = k \/ k' ∈ keys d.
Proof.
  unfold keys. induction d as [|[k0 v0] d IH]; simpl.
  - rewrite elem_of_cons, elem_of_nil. tauto.
  - destruct (decide (k0 = k)) as [->|Hk]; simpl.
    + rewrite !elem_of_cons. tauto.
    + rewrite !elem_of_cons, IH. tauto.
Qed.

Lemma get_None d k : get d k = None <-> k ∉ keys d.
Proof.
  unfold keys. induction d as [|[k0 v0] d IH]; simpl.
  - rewrite elem_of_nil. tauto.
  - rewrite not_elem_of_cons. destruct (decide (k0 = k)) as [->|Hk].
    + split; [discriminate|]. intros [H _]. by destruct H.
    + rewrite IH. split; [|tauto]. intros H. split; [congruence|done].
Qed.

Lemma get_is_Some d k : k ∈ keys d -> is_Some (get d k).
Proof.
  intros Hin. destruct (get d k) eqn:E; [eauto|].
  apply get_None in E. contradiction.
Qed.

Lemma get_app d1 d2 k :
  get (d1 ++ d2) k = match get d1 k with Some v => Some v | None => get d2 k end.
Proof.
  induction d1 as [|[k0 v0] d1 IH]; simpl; [reflexivity|].
  by destruct (decide (k0 = k)).
Qed.

(** [update]: the last assignment to a key wins, untouched keys stay. *)
Lemma get_update d other k :
  get (update d other) k
  = match get (reverse other) k with Some v => Some v | None => get d k end.
Proof.
  unfold update. revert d.
  induction other as [|[k0 v0] other IH]; intros d; simpl; [reflexivity|].
  rewrite IH, reverse_cons, get_app. destruct (get (reverse other) k); [reflexivity|].
  simpl. destruct (decide (k0 = k)) as [->|Hk].
  - apply get_setitem_eq.
  - by apply get_setitem_ne.
Qed.

Lemma get_reverse_None d k : get d k = None -> get (reverse d) k = None.
Proof.
  rewrite !get_None. unfold keys. by rewrite fmap_reverse, elem_of_reverse.
Qed.

Lemma get_update_absent d other k :
  get other k = None -> get (update d other) k = get d k.
Proof. intros H. by rewrite get_update, (get_reverse_None _ _ H). Qed.

Lemma length_setitem_fresh k v d :
  get d k = None -> length (setitem k v d) = S (length d).
Proof.
  induction d as [|[k0 v0] d IH]; simpl; [reflexivity|].
  destruct (decide (k0 = k)); [discriminate|]. intros H. simpl. by rewrite IH.
Qed.

Lemma get_Permutation d1 d2 k :
  NoDup (keys d1) -> d1 ≡ₚ d2 -> get d1 k = get d2 k.
Proof.
  intros Hnd Hperm. revert Hnd.
  induction Hperm as [|[k0 v0] d1 d2 Hp IH|[k0 v0] [k1 v1] d|d1 d2 d3 Hp1 IH1 Hp2 IH2];
    intros Hnd.
  - reflexivity.
  - simpl. apply NoDup_cons in Hnd as [_ Hnd]. by rewrite IH.
  - simpl. apply NoDup_cons in Hnd as [Hnotin _].
    destruct (decide (k1 = k)) as [->|]; [|reflexivity].
    destruct (decide (k0 = k)) as [->|]; [|reflexivity].
    exfalso. apply Hnotin. simpl. apply elem_of_cons. by left.
  - rewrite IH1 by done. apply IH2.
    unfold keys in *. by rewrite <- Hp1.
Qed.

End DictFacts.

(** ** Blocks that fill a dictionary *)

Section BlockFacts.

Import PyDict.

(** A block handled by [except Exception as e: metadata[k] = str(e)]
    always comes back with a dictionary. *)
Lemma try_except_returns body k :
  exists d, returns_or_raises
              (try_except body (fun e => assign k (VStr (str_exn e)))) = Ok d.
Proof.
  unfold returns_or_raises, try_except, assign.
  destruct (body []) as [d [[]|e]]; eauto.
Qed.

Lemma try_except_raised body k d e :
  body [] = (d, Raise e) ->
  returns_or_raises (try_except body (fun e => assign k (VStr (str_exn e))))
  = Ok (setitem k (VStr (str_exn e)) d).
Proof.
  intros H. unfold returns_or_raises, try_except, assign. by rewrite H.
Qed.

Lemma try_except_finished body handler d :
  body [] = (d, Ok tt) ->
  returns_or_raises (try_except body handler) = Ok d.
Proof.
  intros H. unfold returns_or_raises, try_except. by rewrite H.
Qed.

Lemma assigns_within_ret P {A} (a : A) : assigns_within P (mret a).
Proof. intros d k H. by left. Qed.

Lemma assigns_within_call P {A} (r : result A) : assigns_within P (call r).
Proof. intros d k H. by left. Qed.

Lemma assigns_within_assign (P : string -> Prop) k v :
  P k -> assigns_within P (assign k v).
Proof.
  intros HP d k' H. simpl in H. apply keys_setitem in H as [->|H]; auto.
Qed.

Lemma assigns_within_bind P {A B} (m : M A) (f : A -> M B) :
  assigns_within P m -> (forall a, assigns_within P (f a)) ->
  assigns_within P (m ≫= f).
Proof.
  intros Hm Hf d k. unfold mbind, M_bind, bind.
  specialize (Hm d k). destruct (m d) as [d' [a|e]]; simpl in *; [|done].
  intros H. destruct (Hf a d' k H); auto.
Qed.

Lemma assigns_within_try P (body : M unit) handler :
  assigns_within P body -> (forall e, assigns_within P (handler e)) ->
  assigns_within P (try_except body handler).
Proof.
  intros Hm Hh d k. unfold try_except.
  specialize (Hm d k). destruct (body d) as [d' [a|e]]; simpl in *; [done|].
  intros H. destruct (Hh e d' k H); auto.
Qed.

Lemma assigns_within_for_each P {A} (l : list A) (body : A -> M unit) :
  (forall x, assigns_within P (body x)) -> assigns_within P (for_each l body).
Proof.
  intros Hb. induction l as [|x l IH]; simpl.
  - apply assigns_within_ret.
  - apply assigns_within_bind; auto.
Qed.

Lemma returned_keys P block d :
  assigns_within P block -> returns_or_raises block = Ok d ->
  forall k, k ∈ keys d -> P k.
Proof.
  intros Hb Hr k Hk. unfold returns_or_raises in Hr. specialize (Hb [] k).
  destruct (block []) as [d' [[]|e]]; [|discriminate].
  injection Hr as ->. destruct (Hb Hk) as [H|H]; [|done].
  by apply elem_of_nil in H.
Qed.

Lemma returned_absent P block d k :
  assigns_within P block -> returns_or_raises block = Ok d ->
  ~ P k -> get d k = None.
Proof.
  intros Hb Hr HP. apply get_None. intros Hk.
  apply HP. by apply (returned_keys P block d).
Qed.

End BlockFacts.

(** ** [detect_type] *)




(** ** The generic backend *)

Section GenericFacts.

Import PyDict GenericExtractor.

Variable w : world.
Variable file_path : string.

Lemma digests_update_nil h : digests_update h [] = h.
Proof. destruct h. unfold digests_update. simpl. by rewrite !app_nil_r. Qed.

Lemma digests_update_app h l1 l2 :
  digests_update (digests_update h l1) l2 = digests_update h (l1 ++ l2).
Proof. unfold digests_update. simpl. by rewrite !app_assoc. Qed.

(** The chunk loop stops, and it has then fed every byte of the file, in
    order, to both digests. *)
Lemma read_chunks_all f h : read_chunks f h = digests_update h f.
Proof.
  funelim (read_chunks f h).
  - destruct f as [|b f]; [|discriminate]. by rewrite digests_update_nil.
  - rewrite H, digests_update_app, <- E. by rewrite take_drop.
Qed.

Lemma get_basic_info_ok st :
  os_stat w file_path = Ok st ->
  exists basic, get_basic_info w file_path = Ok basic
    /\ get basic "file_size_bytes" = Some (VInt (st_size st))
    /\ keys basic = ["file_name"; "file_extension"; "file_size_bytes";
                     "file_size_kb"; "file_size_mb"; "creation_time";
                     "modification_time"; "access_time"].
Proof.
  intros Hst. unfold get_basic_info. rewrite Hst. simpl.
  eexists. split; [reflexivity|]. split; reflexivity.
Qed.

Lemma get_basic_info_raises e :
  os_stat w file_path = Raise e -> get_basic_info w file_path = Raise e.
Proof. intros Hst. unfold get_basic_info. by rewrite Hst. Qed.

Lemma calculate_hashes_small st data :
  os_stat w file_path = Ok st -> st_size st <= max_size ->
  open_rb w file_path = Ok data ->
  calculate_hashes w file_path
  = Ok [ ("md5_hash", VStr (md5_hexdigest w data));
         ("sha256_hash", VStr (sha256_hexdigest w data)) ].
Proof.
  intros Hst Hsize Hopen.
  apply try_except_finished.
  unfold mbind, M_bind, bind, call, os_path_getsize. rewrite Hst. simpl.
  destruct (Z.gtb_spec (st_size st) max_size) as [Hgt|_]; [lia|].
  rewrite Hopen, read_chunks_all. reflexivity.
Qed.

Lemma calculate_hashes_large st :
  os_stat w file_path = Ok st -> st_size st > max_size ->
  calculate_hashes w file_path
  = Ok [ ("hash_note",
          VStr ("File too large (" +:+ str_int (st_size st)
                +:+ " bytes), skipping hash calculation")) ].
Proof.
  intros Hst Hsize.
  apply try_except_finished.
  unfold mbind, M_bind, bind, call, os_path_getsize. rewrite Hst. simpl.
  destruct (Z.gtb_spec (st_size st) max_size) as [_|Hle]; [reflexivity|lia].
Qed.

Lemma calculate_hashes_unreadable st e :
  os_stat w file_path = Ok st -> st_size st <= max_size ->
  open_rb w file_path = Raise e ->
  calculate_hashes w file_path = Ok [ ("hash_error", VStr (str_exn e)) ].
Proof.
  intros Hst Hsize Hopen.
  unfold calculate_hashes, calculate_hashes_block.
  rewrite (try_except_raised _ _ [] e); [reflexivity|].
  unfold mbind, M_bind, bind, call, os_path_getsize. rewrite Hst. simpl.
  destruct (Z.gtb_spec (st_size st) max_size) as [Hgt|_]; [lia|].
  by rewrite Hopen.
Qed.

Lemma inspect_header_unreadable e :
  open_rb w file_path = Raise e ->
  inspect_header w file_path = Ok [ ("header_error", VStr (str_exn e)) ].
Proof.
  intros Hopen. unfold inspect_header, inspect_header_block.
  rewrite (try_except_raised _ _ [] e); [reflexivity|].
  unfold mbind, M_bind, bind, call. by rewrite Hopen.
Qed.

Lemma hachoir_block_keys :
  assigns_within hachoir_key (extract_with_hachoir_block w file_path).
Proof.
  apply assigns_within_try.
  - apply assigns_within_bind; [apply assigns_within_call|].
    intros [parser|]; [|apply assigns_within_ret].
    apply assigns_within_bind; [apply assigns_within_call|].
    intros meta. apply assigns_within_bind; [|intros; apply assigns_within_call].
    destruct meta as [lines|]; [|apply assigns_within_ret].
    apply assigns_within_for_each. intros line. unfold hachoir_line.
    destruct (contains ": " line); [|apply assigns_within_ret].
    destruct (split_colon line) as [[key value]|]; [|apply assigns_within_ret].
    apply assigns_within_assign. reflexivity.
  - intros e. apply assigns_within_assign. reflexivity.
Qed.

Lemma assigns_within_weaken (P Q : string -> Prop) {A} (m : M A) :
  (forall k, P k -> Q k) -> assigns_within P m -> assigns_within Q m.
Proof. intros HPQ Hm d k Hk. destruct (Hm d k Hk); auto. Qed.

Lemma identify_assigns header table :
  assigns_within (fun k => k = "identified_format") (identify header table).
Proof.
  induction table as [|[signature description] table IH]; simpl.
  - apply assigns_within_ret.
  - destruct (bytes_startswith header signature); [|done].
    by apply assigns_within_assign.
Qed.

Lemma identify_keys header table :
  assigns_within (fun k => k ∈ header_keys) (identify header table).
Proof.
  apply (assigns_within_weaken (fun k => k = "identified_format")).
  - intros k ->. unfold header_keys. rewrite !elem_of_cons. auto.
  - apply identify_assigns.
Qed.

Lemma header_block_keys :
  assigns_within (fun k => k ∈ header_keys) (inspect_header_block w file_path).
Proof.
  apply assigns_within_try.
  - apply assigns_within_bind; [apply assigns_within_call|]. intros f.
    apply assigns_within_bind;
      [apply assigns_within_assign; unfold header_keys; rewrite !elem_of_cons; auto|].
    intros _. apply assigns_within_bind;
      [apply assigns_within_assign; unfold header_keys; rewrite !elem_of_cons; auto|].
    intros _. apply identify_keys.
  - intros e. apply assigns_within_assign.
    unfold header_keys. rewrite !elem_of_cons. auto 10.
Qed.

(** What [extract] returns once [os.stat] has succeeded: the four partial
    dictionaries merged in call order. *)
Lemma extract_ok st :
  os_stat w file_path = Ok st ->
  exists basic hashes found header,
    get_basic_info w file_path = Ok basic
    /\ calculate_hashes w file_path = Ok hashes
    /\ (if HACHOIR_AVAILABLE w then extract_with_hachoir w file_path else Ok [])
       = Ok found
    /\ inspect_header w file_path = Ok header
    /\ extract w file_path
       = Ok (update (update (update (update [] basic) hashes) found) header).
Proof.
  intros Hst.
  destruct (get_basic_info_ok st Hst) as (basic & Hb & _).
  assert (Hh : exists hashes, calculate_hashes w file_path = Ok hashes)
    by apply try_except_returns.
  destruct Hh as [hashes Hh].
  assert (Hf : exists found,
             (if HACHOIR_AVAILABLE w then extract_with_hachoir w file_path else Ok [])
             = Ok found).
  { destruct (HACHOIR_AVAILABLE w); [|eauto]. apply try_except_returns. }
  destruct Hf as [found Hf].
  assert (Hi : exists header, inspect_header w file_path = Ok header)
    by apply try_except_returns.
  destruct Hi as [header Hi].
  exists basic, hashes, found, header.
  repeat split; try done.
  unfold extract, mbind, result_bind, rbind.
  by rewrite Hb, Hh, Hf, Hi.
Qed.

Lemma found_absent found k :
  (if HACHOIR_AVAILABLE w then extract_with_hachoir w file_path else Ok [])
  = Ok found ->
  ~ hachoir_key k -> get found k = None.
Proof.
  destruct (HACHOIR_AVAILABLE w).
  - intros H. by apply (returned_absent _ _ _ _ hachoir_block_keys H).
  - intros [= <-]. reflexivity.
Qed.

Lemma header_absent header k :
  inspect_header w file_path = Ok header -> k ∉ header_keys -> get header k = None.
Proof.
  intros H. by apply (returned_absent _ _ _ _ header_block_keys H).
Qed.

End GenericFacts.

(** ** How the backends treat a failing [os.stat] *)

Section BasicInfoPolicy.

Variable w : world.
Variable file_path : string.

Lemma truediv_megabyte a :
  truediv a (1024 * 1024) = Ok (Qdiv (inject_Z a) (inject_Z (1024 * 1024))).
Proof. reflexivity. Qed.

(** The archive backend: [get_basic_info] is outside every [try]. *)
Lemma archive_extract_policy :
  (forall e, os_stat w file_path = Raise e ->
             ArchiveExtractor.extract w file_path = Raise e)
  /\ (forall st, os_stat w file_path = Ok st ->
                 exists metadata, ArchiveExtractor.extract w file_path = Ok metadata).
Proof.
  unfold ArchiveExtractor.extract, ArchiveExtractor.get_basic_info.
  split.
  - intros e Hst. by rewrite Hst.
  - intros st Hst. rewrite Hst. cbn [mbind result_bind rbind].
    rewrite truediv_megabyte.
    assert (H1 : exists d, ArchiveExtractor.extract_zip w file_path = Ok d)
      by apply try_except_returns.
    assert (H2 : exists d, ArchiveExtractor.extract_tar w file_path = Ok d)
      by apply try_except_returns.
    assert (H3 : exists d, ArchiveExtractor.extract_7z w file_path = Ok d)
      by apply try_except_returns.
    destruct H1 as [d1 ->], H2 as [d2 ->], H3 as [d3 ->].
    repeat case_match; eauto.
Qed.

(** The document backend: the same. *)
Lemma document_extract_policy :
  (forall e, os_stat w file_path = Raise e ->
             DocumentExtractor.extract w file_path = Raise e)
  /\ (forall st, os_stat w file_path = Ok st ->
                 exists metadata, DocumentExtractor.extract w file_path = Ok metadata).
Proof.
  unfold DocumentExtractor.extract, DocumentExtractor.get_basic_info.
  split.
  - intros e Hst. by rewrite Hst.
  - intros st Hst. rewrite Hst. cbn [mbind result_bind rbind].
    rewrite truediv_megabyte.
    assert (H1 : exists d, DocumentExtractor.extract_pdf w file_path = Ok d)
      by apply try_except_returns.
    assert (H2 : exists d, DocumentExtractor.extract_docx w file_path = Ok d)
      by apply try_except_returns.
    assert (H3 : exists d, DocumentExtractor.extract_txt w file_path = Ok d)
      by apply try_except_returns.
    destruct H1 as [d1 ->], H2 as [d2 ->], H3 as [d3 ->].
    repeat case_match; eauto.
Qed.

End BasicInfoPolicy.

Section GenericClaims.

Import PyDict GenericExtractor.

Lemma extract_with_hachoir_failed w file_path e :
  createParser w file_path = Raise e ->
  extract_with_hachoir w file_path = Ok [ ("hachoir_error", VStr (str_exn e)) ].
Proof.
  intros Hp. unfold extract_with_hachoir, extract_with_hachoir_block.
  rewrite (try_except_raised _ _ [] e); [reflexivity|].
  unfold mbind, M_bind, bind, call. by rewrite Hp.
Qed.




End GenericClaims.

Section GenericHashing.

Import PyDict GenericExtractor.

Example max_size_is_100_MB : max_size = 104857600.
Proof. reflexivity. Qed.

(** C5: once [os.stat] has succeeded, the generic backend returns a map; for
    a readable file of at most 100 MB it holds [md5_hash] and [sha256_hash],
    the hex digests of the whole content, and no [hash_note]; for a file of
    more than 100 MB it holds neither digest key and a [hash_note] that
    records the skip. *)
Theorem hashing_law (w : world) (file_path : string) (st : stat_result) :
  os_stat w file_path = Ok st ->
  exists metadata,
    extract w file_path = Ok metadata
    /\ (forall data, st_size st <= 100 * 1024 * 1024 ->
                    open_rb w file_path = Ok data ->
                    get metadata "md5_hash" = Some (VStr (md5_hexdigest w data))
                    /\ get metadata "sha256_hash" = Some (VStr (sha256_hexdigest w data))
                    /\ get metadata "hash_note" = None)
    /\ (st_size st > 100 * 1024 * 1024 ->
        get metadata "md5_hash" = None
        /\ get metadata "sha256_hash" = None
        /\ get metadata "hash_note"
           = Some (VStr ("File too large (" +:+ str_int (st_size st)
                         +:+ " bytes), skipping hash calculation"))).
Proof.
  intros Hst.
  destruct (extract_ok w file_path st Hst)
    as (basic & hashes & found & header & Hb & Hh & Hf & Hi & Hex).
  destruct (get_basic_info_ok w file_path st Hst) as (basic' & Hb' & _ & Hkeys).
  assert (basic' = basic) as -> by congruence.
  assert (Hbasic : forall k,
             k ∉ ["file_name"; "file_extension"; "file_size_bytes";
                  "file_size_kb"; "file_size_mb"; "creation_time";
                  "modification_time"; "access_time"] ->
             get (update [] basic) k = None).
  { intros k Hk. rewrite get_update_absent; [reflexivity|].
    apply get_None. by rewrite Hkeys. }
  assert (Hthrough : forall k,
             k ∉ header_keys -> ~ hachoir_key k ->
             get (update (update (update (update [] basic) hashes) found) header) k
             = get (update (update [] basic) hashes) k).
  { intros k Hk1 Hk2.
    rewrite get_update_absent by (by apply (header_absent _ _ _ _ Hi)).
    by rewrite get_update_absent by (by apply (found_absent _ _ _ _ Hf)). }
  eexists. split; [exact Hex|]. split.
  - intros data Hsize Hopen.
    rewrite (calculate_hashes_small _ _ _ _ Hst Hsize Hopen) in Hh.
    injection Hh as <-.
    rewrite !Hthrough
      by (try discriminate; by apply (bool_decide_unpack _)).
    repeat split; rewrite get_update; simpl; try reflexivity.
    apply Hbasic. by apply (bool_decide_unpack _).
  - intros Hsize.
    rewrite (calculate_hashes_large _ _ _ Hst Hsize) in Hh.
    injection Hh as <-.
    rewrite !Hthrough
      by (try discriminate; by apply (bool_decide_unpack _)).
    repeat split; rewrite get_update; simpl; try reflexivity;
      apply Hbasic; by apply (bool_decide_unpack _).
Qed.

Lemma hashing_law_witness :
  (exists metadata,
      extract (Worlds.file_world "note.bin" [x68; x69]) "note.bin" = Ok metadata
      /\ get metadata "md5_hash" = Some (VStr "md5:hi")
      /\ get metadata "sha256_hash" = Some (VStr "sha256:hi")
      /\ get metadata "hash_note" = None)
  /\ (exists metadata,
         extract (Worlds.large_file_world "film.raw") "film.raw" = Ok metadata
         /\ get metadata "md5_hash" = None
         /\ get metadata "sha256_hash" = None
         /\ get metadata "hash_note"
            = Some (VStr "File too large (209715200 bytes), skipping hash calculation")).
Proof.
  split.
  - destruct (hashing_law (Worlds.file_world "note.bin" [x68; x69]) "note.bin" _ eq_refl)
      as (metadata & Hex & Hsmall & _).
    exists metadata. split; [exact Hex|].
    apply (Hsmall [x68; x69]); [vm_compute; discriminate|reflexivity].
  - destruct (hashing_law (Worlds.large_file_world "film.raw") "film.raw" _ eq_refl)
      as (metadata & Hex & _ & Hlarge).
    exists metadata. split; [exact Hex|].
    apply Hlarge. reflexivity.
Defined.

End GenericHashing.

Section GenericHeader.

Import PyDict GenericExtractor.

Lemma bytes_startswith_take n header signature :
  (length signature <= n)%nat ->
  bytes_startswith (take n header) signature = bytes_startswith header signature.
Proof.
  revert n header. induction signature as [|a signature IH]; intros n header Hn.
  - reflexivity.
  - destruct n as [|n]; [simpl in Hn; lia|].
    destruct header as [|b header]; simpl; [reflexivity|].
    destruct (Byte.eqb a b); [|reflexivity]. apply IH. simpl in Hn. lia.
Qed.

Lemma identify_first_match header table d :
  get d "identified_format" = None ->
  exists d', identify header table d = (d', Ok tt)
    /\ get d' "identified_format" = VStr <$> first_match header table.
Proof.
  intros Hd. induction table as [|[signature description] table IH]; simpl.
  - exists d. by rewrite Hd.
  - destruct (bytes_startswith header signature); [|exact IH].
    eexists. split; [reflexivity|]. apply get_setitem_eq.
Qed.

Lemma inspect_header_readable w file_path data :
  open_rb w file_path = Ok data ->
  exists header,
    inspect_header w file_path = Ok header
    /\ get header "identified_format"
       = VStr <$> first_match (take header_size data) magic_signatures
    /\ get header "header_error" = None.
Proof.
  intros Hopen. unfold inspect_header, inspect_header_block.
  set (d0 := setitem "file_header_ascii"
               (VStr (string_of_chars (map printable (take header_size data))))
               (setitem "file_header_hex"
                  (VStr (join " " (map hex02 (take header_size data)))) [])).
  destruct (identify_first_match (take header_size data) magic_signatures d0 eq_refl)
    as (d' & Hid & Hget).
  exists d'. split; [|split; [exact Hget|]].
  - apply try_except_finished.
    unfold mbind, M_bind, bind, call. rewrite Hopen. simpl. exact Hid.
  - apply get_None. intros Hin.
    pose proof (identify_assigns (take header_size data) magic_signatures
                  d0 "header_error") as H.
    rewrite Hid in H. destruct (H Hin) as [H'|H']; [|discriminate].
    revert H'. apply (bool_decide_unpack _). by vm_compute.
Qed.

(** C9: for a readable file, header inspection leaves in
    [identified_format] the label of the first entry of the signature table
    that is a prefix of the 16-byte header, and no such key when no entry is;
    a file that begins with 50 4B 03 04 is labelled ["ZIP archive"]. *)
Theorem magic_byte_law (w : world) (file_path : string) (data : list byte) :
  open_rb w file_path = Ok data ->
  exists header,
    inspect_header w file_path = Ok header
    /\ (bytes_startswith data [x50; x4b; x03; x04] = true ->
        get header "identified_format" = Some (VStr "ZIP archive"))
    /\ ((forall signature description,
            (signature, description) ∈ magic_signatures ->
            bytes_startswith (take 16 data) signature = false) ->
        get header "identified_format" = None)
    /\ (forall i signature description,
           magic_signatures !! i = Some (signature, description) ->
           bytes_startswith (take 16 data) signature = true ->
           (forall j earlier description', (j < i)%nat ->
              magic_signatures !! j = Some (earlier, description') ->
              bytes_startswith (take 16 data) earlier = false) ->
           get header "identified_format" = Some (VStr description)).
Proof.
  intros Hopen.
  destruct (inspect_header_readable w file_path data Hopen) as (header & Hin & Hget & _).
  exists header. split; [exact Hin|]. rewrite Hget. unfold header_size.
  split; [|split].
  - intros Hzip.
    rewrite <- (bytes_startswith_take 16) in Hzip by (simpl; lia).
    destruct (take 16 data) as [|b0 [|b1 [|b2 [|b3 rest]]]]; simpl in Hzip;
      repeat match type of Hzip with
             | (if Byte.eqb ?a ?b then _ else _) = true =>
                 destruct (Byte.eqb a b) eqn:?; [|discriminate]
             end; try discriminate.
    repeat match goal with
           | H : Byte.eqb _ _ = true |- _ => apply Byte.byte_dec_bl in H; subst
           end.
    reflexivity.
  - intros Hnone. generalize magic_signatures Hnone. clear.
    intros table. induction table as [|[signature description] table IH];
      intros Hnone; simpl; [reflexivity|].
    rewrite (Hnone signature description) by (apply elem_of_cons; by left).
    apply IH. intros s d Hs. apply (Hnone s d). apply elem_of_cons. by right.
  - generalize magic_signatures. clear.
    intros table i. revert table.
    induction i as [|i IH]; intros [|[s d] table] signature description Hi Hmatch Hearlier;
      try discriminate; simpl in *.
    + injection Hi as -> ->. by rewrite Hmatch.
    + rewrite (Hearlier 0%nat s d) by (lia || reflexivity).
      apply (IH table signature description Hi Hmatch).
      intros j earlier description' Hj Hlook.
      apply (Hearlier (S j) earlier description'); [lia|exact Hlook].
Qed.

Lemma magic_byte_law_witness :
  (exists header,
      inspect_header (Worlds.file_world "a.zip" [x50; x4b; x03; x04; x14; x00]) "a.zip"
      = Ok header
      /\ get header "identified_format" = Some (VStr "ZIP archive"))
  /\ (exists header,
         inspect_header (Worlds.file_world "b.bin" [x00; x01; x02]) "b.bin" = Ok header
         /\ get header "identified_format" = None)
  /\ (exists header,
         inspect_header (Worlds.file_world "c.gz" [x1f; x8b; x08]) "c.gz" = Ok header
         /\ get header "identified_format" = Some (VStr "GZIP compressed")).
Proof.
  split; [|split].
  - destruct (magic_byte_law (Worlds.file_world "a.zip" [x50; x4b; x03; x04; x14; x00])
                "a.zip" _ eq_refl) as (header & Hin & Hzip & _).
    exists header. split; [exact Hin|]. apply Hzip. reflexivity.
  - destruct (magic_byte_law (Worlds.file_world "b.bin" [x00; x01; x02])
                "b.bin" _ eq_refl) as (header & Hin & _ & Hnone & _).
    exists header. split; [exact Hin|]. apply Hnone.
    intros signature description Hs. unfold magic_signatures in Hs.
    repeat (apply elem_of_cons in Hs as [[= -> ->]|Hs]; [reflexivity|]).
    by apply elem_of_nil in Hs.
  - destruct (magic_byte_law (Worlds.file_world "c.gz" [x1f; x8b; x08])
                "c.gz" _ eq_refl) as (header & Hin & _ & _ & Hfirst).
    exists header. split; [exact Hin|].
    apply (Hfirst 5%nat [x1f; x8b] "GZIP compressed"); [reflexivity|reflexivity|].
    intros j earlier description' Hj Hlook.
    do 5 (destruct j as [|j]; [injection Hlook as <- <-; reflexivity|]).
    lia.
Defined.

End GenericHeader.

(** ** The archive backend *)

Section ArchiveFacts.

Import PyDict ArchiveExtractor.

#[local] Arguments round2 : simpl never.
#[local] Arguments str_int : simpl never.
#[local] Arguments join : simpl never.
#[local] Arguments Z.mul : simpl never.

Variable w : world.
Variable file_path : string.

Lemma truediv_nonzero a b : b <> 0 -> truediv a b = Ok (Qdiv (inject_Z a) (inject_Z b)).
Proof. intros Hb. unfold truediv. by destruct (Z.eqb_spec b 0). Qed.

(** The dictionary [extract_zip] builds when the archive opens and, if it is
    needed, [os.stat] succeeds. *)
Lemma extract_zip_opened info_list :
  zipfile_infolist w file_path = Ok info_list ->
  let total := sum (file_size <$> info_list) in
  (total > 0 -> exists st, os_stat w file_path = Ok st) ->
  extract_zip w file_path
  = Ok ([ ("num_files", VInt (len info_list));
          ("compression_type", VStr "ZIP");
          ("total_uncompressed_size_mb",
           VFloat (round2 (Qdiv (inject_Z total) (inject_Z (1024 * 1024))))) ]
        ++ (if total >? 0 then
              match os_stat w file_path with
              | Ok st =>
                  [ ("compression_ratio_percent",
                     VFloat (round2 (Qmult (Qminus (inject_Z 1)
                                              (Qdiv (inject_Z (st_size st))
                                                    (inject_Z total)))
                                           (inject_Z 100)))) ]
              | Raise _ => []
              end
            else [])
        ++ [ ("file_list", VStr (join ", " (filename <$> take 50 info_list))) ]
        ++ more_files_note (len info_list)).
Proof.
  intros Hopen total Hstat.
  apply try_except_finished.
  unfold mbind, M_bind, bind, call, more_files_note. rewrite Hopen.
  fold total. simpl.
  destruct (Z.gtb_spec total 0) as [Hpos|Hnonpos].
  - destruct Hstat as [st Hst]; [lia|]. rewrite Hst. simpl.
    rewrite truediv_nonzero by lia. simpl.
    by destruct (len info_list >? 50).
  - simpl. by destruct (len info_list >? 50).
Qed.

Lemma extract_zip_stat_failed info_list e :
  zipfile_infolist w file_path = Ok info_list ->
  sum (file_size <$> info_list) > 0 ->
  os_stat w file_path = Raise e ->
  exists metadata,
    extract_zip w file_path = Ok metadata
    /\ get metadata "zip_error" = Some (VStr (str_exn e)).
Proof.
  intros Hopen Hpos Hst. unfold extract_zip, extract_zip_block.
  eexists. split.
  - apply try_except_raised.
    unfold mbind, M_bind, bind, call. rewrite Hopen. simpl.
    destruct (Z.gtb_spec (sum (file_size <$> info_list)) 0) as [_|?]; [|lia].
    rewrite Hst. reflexivity.
  - apply get_setitem_eq.
Qed.

Lemma extract_tar_opened members :
  tarfile_getmembers w file_path (tar_mode file_path) = Ok members ->
  extract_tar w file_path
  = Ok ([ ("num_files", VInt (len members));
          ("compression_type", VStr "TAR");
          ("total_uncompressed_size_mb",
           VFloat (round2 (Qdiv (inject_Z (sum (tarinfo_size <$> members)))
                                (inject_Z (1024 * 1024))))) ]
        ++ [ ("file_list", VStr (join ", " (tarinfo_name <$> take 50 members))) ]
        ++ more_files_note (len members)).
Proof.
  intros Hopen.
  apply try_except_finished.
  unfold mbind, M_bind, bind, call, more_files_note. rewrite Hopen. simpl.
  by destruct (len members >? 50).
Qed.

Lemma more_files_note_long n :
  n > 50 ->
  more_files_note n
  = [ ("file_list_note", VStr ("... and " +:+ str_int (n - 50) +:+ " more files")) ].
Proof. intros H. unfold more_files_note. by destruct (Z.gtb_spec n 50); [|lia]. Qed.

Lemma more_files_note_short n : n <= 50 -> more_files_note n = [].
Proof. intros H. unfold more_files_note. by destruct (Z.gtb_spec n 50); [lia|]. Qed.

End ArchiveFacts.

Section ArchiveClaims.

Import PyDict ArchiveExtractor.

#[local] Arguments str_int : simpl never.
#[local] Arguments join : simpl never.
#[local] Arguments round2 : simpl never.

Lemma truncated_listing_intro (front : pydict) (names : list string) :
  get front "file_list" = None -> get front "file_list_note" = None ->
  truncated_listing
    (front ++ [ ("file_list", VStr (join ", " (take 50 names))) ]
           ++ more_files_note (len names))
    names.
Proof.
  intros Hfl Hnote. unfold truncated_listing, len.
  rewrite !get_app, Hfl, Hnote. simpl. split; [reflexivity|]. split.
  - intros Hlong. split; [rewrite length_take; lia|].
    rewrite more_files_note_long by lia. reflexivity.
  - intros Hshort. split; [by apply take_ge|].
    rewrite more_files_note_short by lia. reflexivity.
Qed.

(** C6: a ZIP archive that opens (and can be stat'ed), and a TAR archive that
    opens, list under [file_list] the names of their first 50 members joined
    by [", "]; with more than 50 members exactly 50 are listed and
    [file_list_note] reads ["... and N more files"] with [N] the number of
    members minus 50; with at most 50 members all are listed and there is no
    such note. *)
Theorem list_truncation_law (w : world) (file_path : string) :
  (forall info_list st,
      zipfile_infolist w file_path = Ok info_list ->
      os_stat w file_path = Ok st ->
      exists metadata,
        extract_zip w file_path = Ok metadata
        /\ truncated_listing metadata (filename <$> info_list))
  /\ (forall members,
        tarfile_getmembers w file_path (tar_mode file_path) = Ok members ->
        exists metadata,
          extract_tar w file_path = Ok metadata
          /\ truncated_listing metadata (tarinfo_name <$> members)).
Proof.
  split.
  - intros info_list st Hopen Hst.
    rewrite (extract_zip_opened w file_path info_list Hopen) by eauto.
    eexists. split; [reflexivity|]. rewrite Hst.
    replace (len info_list) with (len (filename <$> info_list))
      by (unfold len; by rewrite length_fmap).
    rewrite fmap_take, !app_assoc, <- (app_assoc _ [_] (more_files_note _)).
    apply truncated_listing_intro;
      destruct (sum (file_size <$> info_list) >? 0); reflexivity.
  - intros members Hopen.
    rewrite (extract_tar_opened w file_path members Hopen).
    eexists. split; [reflexivity|].
    replace (len members) with (len (tarinfo_name <$> members))
      by (unfold len; by rewrite length_fmap).
    rewrite fmap_take.
    by apply truncated_listing_intro.
Qed.

Lemma list_truncation_law_witness :
  (exists metadata,
      extract_zip (Worlds.zip_world "big.zip" (Worlds.zip_members 52 10)) "big.zip"
      = Ok metadata
      /\ get metadata "file_list_note" = Some (VStr "... and 2 more files"))
  /\ (exists metadata,
         extract_tar (Worlds.tar_world "small.tar" (Worlds.tar_members 3 10)) "small.tar"
         = Ok metadata
         /\ get metadata "file_list" = Some (VStr "f0, f1, f2")
         /\ get metadata "file_list_note" = None).
Proof.
  split.
  - destruct (list_truncation_law
                (Worlds.zip_world "big.zip" (Worlds.zip_members 52 10)) "big.zip")
      as [Hzip _].
    destruct (Hzip _ _ eq_refl eq_refl) as (metadata & Hex & _ & Hlong & _).
    exists metadata. split; [exact Hex|].
    apply Hlong. vm_compute. lia.
  - destruct (list_truncation_law
                (Worlds.tar_world "small.tar" (Worlds.tar_members 3 10)) "small.tar")
      as [_ Htar].
    destruct (Htar _ eq_refl) as (metadata & Hex & Hlist & _ & Hshort).
    exists metadata. split; [exact Hex|]. split; [exact Hlist|].
    apply Hshort. vm_compute. lia.
Defined.

(** C10: after the archive has opened, the ratio is computed only when the
    members' total uncompressed size is positive, where the division is
    defined; with a total of zero [compression_ratio_percent] is absent, no
    error is recorded, and [num_files], [compression_type] and
    [total_uncompressed_size_mb] are present; when [os.stat] succeeds no
    error is recorded for any total, and the ratio key is there exactly for
    a positive total. *)
Theorem zip_ratio_guarded (w : world) (file_path : string) (info_list : list ZipInfo) :
  zipfile_infolist w file_path = Ok info_list ->
  let total := sum (file_size <$> info_list) in
  (forall a, total > 0 -> exists q, truediv a total = Ok q)
  /\ (total <= 0 ->
      exists metadata,
        extract_zip w file_path = Ok metadata
        /\ get metadata "compression_ratio_percent" = None
        /\ get metadata "zip_error" = None
        /\ get metadata "num_files" = Some (VInt (len info_list))
        /\ get metadata "compression_type" = Some (VStr "ZIP")
        /\ get metadata "total_uncompressed_size_mb"
           = Some (VFloat (round2 (Qdiv (inject_Z total) (inject_Z (1024 * 1024))))))
  /\ (forall st, os_stat w file_path = Ok st ->
      exists metadata,
        extract_zip w file_path = Ok metadata
        /\ get metadata "zip_error" = None
        /\ (total > 0 <-> is_Some (get metadata "compression_ratio_percent"))).
Proof.
  intros Hopen total. split; [|split].
  - intros a Hpos. rewrite truediv_nonzero by lia. eauto.
  - intros Hzero.
    rewrite (extract_zip_opened w file_path info_list Hopen) by (fold total; lia).
    fold total. eexists. split; [reflexivity|].
    destruct (Z.gtb_spec total 0) as [?|_]; [lia|].
    unfold more_files_note. destruct (len info_list >? 50); repeat split.
  - intros st Hst.
    rewrite (extract_zip_opened w file_path info_list Hopen) by eauto.
    fold total. rewrite Hst. eexists. split; [reflexivity|].
    unfold more_files_note.
    destruct (Z.gtb_spec total 0) as [Hpos|Hnonpos];
      destruct (len info_list >? 50); simpl;
      (split; [reflexivity|]); split; intros H;
      try lia; try eauto; try (by destruct H).
Qed.

Lemma zip_ratio_guarded_witness :
  (exists metadata,
      extract_zip (Worlds.zip_world "empty.zip" (Worlds.zip_members 2 0)) "empty.zip"
      = Ok metadata
      /\ get metadata "compression_ratio_percent" = None
      /\ get metadata "zip_error" = None
      /\ get metadata "num_files" = Some (VInt 2)
      /\ get metadata "compression_type" = Some (VStr "ZIP"))
  /\ (exists metadata,
         extract_zip (Worlds.zip_world "big.zip" (Worlds.zip_members 52 10)) "big.zip"
         = Ok metadata
         /\ get metadata "zip_error" = None
         /\ is_Some (get metadata "compression_ratio_percent")).
Proof.
  split.
  - destruct (zip_ratio_guarded
                (Worlds.zip_world "empty.zip" (Worlds.zip_members 2 0)) "empty.zip"
                _ eq_refl) as (_ & Hzero & _).
    destruct Hzero as (metadata & Hex & Hratio & Herr & Hnum & Htype & _);
      [vm_compute; discriminate|].
    exists metadata. repeat split; assumption.
  - destruct (zip_ratio_guarded
                (Worlds.zip_world "big.zip" (Worlds.zip_members 52 10)) "big.zip"
                _ eq_refl) as (_ & _ & Hstat).
    destruct (Hstat _ eq_refl) as (metadata & Hex & Herr & Hratio).
    exists metadata. split; [exact Hex|]. split; [exact Herr|].
    apply Hratio. reflexivity.
Defined.

End ArchiveClaims.

(** ** The document backend *)

Section DocumentFacts.

Import PyDict DocumentExtractor.

#[local] Arguments str_take : simpl never.
#[local] Arguments replace_char : simpl never.
#[local] Arguments count_char : simpl never.
#[local] Arguments count_words : simpl never.

Lemma preview_of_bounded text :
  String.length (preview_of text) = Nat.min 200 (String.length text)
  /\ count_char LF (preview_of text) = 0.
Proof.
  unfold preview_of. split.
  - by rewrite replace_char_length, str_take_length.
  - apply replace_char_gone. by vm_compute.
Qed.

Lemma take_empty n : str_take n "" = "".
Proof. by destruct n. Qed.

(** The text preview obeys the law. *)
Lemma extract_txt_preview (w : world) (file_path content : string) :
  open_text w file_path = Ok content ->
  exists metadata,
    extract_txt w file_path = Ok metadata
    /\ get metadata "preview" = Some (VStr (preview_of content)).
Proof.
  intros Hopen. eexists. split.
  - apply try_except_finished.
    unfold mbind, M_bind, bind, call. rewrite Hopen. reflexivity.
  - simpl. unfold preview_of. destruct content; [|reflexivity].
    by rewrite take_empty.
Qed.

Lemma for_each_finishes {A} (l : list A) (body : A -> M unit) d :
  (forall x d, exists d', body x d = (d', Ok tt)) ->
  exists d', for_each l body d = (d', Ok tt).
Proof.
  intros Hbody. revert d. induction l as [|x l IH]; intros d; simpl.
  - by exists d.
  - unfold mbind, M_bind, bind. destruct (Hbody x d) as [d1 ->]. apply IH.
Qed.

Lemma pdf_other_field_finishes item d :
  exists d', pdf_other_field item d = (d', Ok tt).
Proof.
  destruct item as [key value]. unfold pdf_other_field.
  destruct (bool_decide (key ∈ known_pdf_keys)); eexists; reflexivity.
Qed.

(** The PDF first-page preview obeys the law. *)
Lemma extract_pdf_preview (w : world) (file_path : string) reader page rest text :
  PdfReader w file_path = Ok reader ->
  pages reader = page :: rest ->
  extract_text page = Ok (Some text) ->
  exists metadata,
    extract_pdf w file_path = Ok metadata
    /\ get metadata "first_page_preview" = Some (VStr (preview_of text)).
Proof.
  intros Hopen Hpages Htext.
  assert (Hpre : (if truthy text then str_take 200 text else "") = str_take 200 text).
  { destruct text; [|reflexivity]. by rewrite take_empty. }
  unfold extract_pdf, extract_pdf_block.
  unfold mbind, M_bind, bind, call, returns_or_raises, try_except, assign.
  rewrite Hopen, Hpages. cbn [fst snd].
  destruct (pdf_metadata reader) as [[|item items]|].
  - rewrite Htext, Hpre. eexists. split; [reflexivity|]. apply get_setitem_eq.
  - match goal with
    | |- context [for_each ?l ?b ?d] =>
        destruct (for_each_finishes l b d pdf_other_field_finishes) as [d' ->]
    end.
    rewrite Htext, Hpre. eexists. split; [reflexivity|]. apply get_setitem_eq.
  - rewrite Htext, Hpre. eexists. split; [reflexivity|]. apply get_setitem_eq.
Qed.

(** The DOCX preview is cut to 200 characters and otherwise left as it is. *)
Lemma extract_docx_preview (w : world) (file_path : string) doc first_para rest :
  Document w file_path = Ok doc ->
  paragraphs doc = first_para :: rest ->
  exists metadata,
    extract_docx w file_path = Ok metadata
    /\ get metadata "first_paragraph_preview" = Some (VStr (str_take 200 first_para)).
Proof.
  intros Hopen Hpar. eexists. split.
  - apply try_except_finished.
    unfold mbind, M_bind, bind, call, assign. rewrite Hopen, Hpar. reflexivity.
  - apply get_setitem_eq.
Qed.

(** The text file of the end-to-end scenario. *)
Example extract_txt_hello_world :
  extract_txt (Worlds.file_world "hello.txt" Worlds.hello_world_bytes) "hello.txt"
  = Ok [ ("num_characters", VInt 11); ("num_lines", VInt 2);
         ("num_words", VInt 2); ("preview", VStr "hello world") ].
Proof. reflexivity. Qed.

(** C7, where the code departs from it: the DOCX preview is cut to 200
    characters but its line feeds are left in.  For a document whose first
    paragraph has a line break, [first_paragraph_preview] still contains the
    line feed, and differs from the preview the law asks for. *)
Theorem docx_preview_keeps_newline :
  exists metadata s,
    extract_docx (Worlds.docx_world "memo.docx" Worlds.two_line_docx) "memo.docx"
    = Ok metadata
    /\ get metadata "first_paragraph_preview" = Some (VStr s)
    /\ s = "Dear team," +:+ String LF "the report is attached."
    /\ count_char LF s = 1
    /\ s <> preview_of s.
Proof.
  eexists. eexists. split; [reflexivity|]. split; [reflexivity|].
  split; [reflexivity|]. split; [reflexivity|]. by vm_compute.
Qed.

End DocumentFacts.

(** ** The normalizer *)

Section NormalizeFacts.

Import PyDict Normalize.

#[local] Arguments str_int : simpl never.
#[local] Arguments title : simpl never.
#[local] Arguments replace_char : simpl never.
#[local] Arguments format_value : simpl never.
#[local] Arguments rule : simpl never.

Variable w : world.

Lemma sorted_Sorted l : Sorted String.le (sorted l).
Proof. apply Sorted_merge_sort; apply _. Qed.

Lemma sorted_Permutation l : sorted l ≡ₚ l.
Proof. apply merge_sort_Permutation. Qed.

(** Sorting forgets the order the keys came in. *)
Lemma sorted_order_independent l1 l2 : l1 ≡ₚ l2 -> sorted l1 = sorted l2.
Proof.
  intros Hperm. apply (Sorted_unique String.le); try apply sorted_Sorted.
  by rewrite !sorted_Permutation.
Qed.

Lemma body_lines_ok d ks :
  (forall k, k ∈ ks -> k ∈ keys d) ->
  body_lines w d ks = Ok (rendered_line w d <$> ks).
Proof.
  induction ks as [|k ks IH]; intros Hin; simpl; [reflexivity|].
  rewrite IH by (intros k' Hk'; apply Hin, elem_of_cons; by right).
  destruct (get_is_Some d k) as [v Hv]; [apply Hin, elem_of_cons; by left|].
  unfold body_line, getitem, rendered_line. rewrite Hv. reflexivity.
Qed.

Lemma body_lines_sorted d :
  body_lines w d (sorted (keys d)) = Ok (rendered_line w d <$> sorted (keys d)).
Proof.
  apply body_lines_ok. intros k Hk. by rewrite sorted_Permutation in Hk.
Qed.

Lemma report_lines_nonempty now d file_path mime_type :
  d <> [] ->
  report_lines w now d file_path mime_type
  = Ok (header_lines now file_path mime_type
        ++ (rendered_line w d <$> sorted (keys d)) ++ footer_lines d).
Proof.
  intros Hd. unfold report_lines. destruct d as [|kv d]; [done|].
  by rewrite body_lines_sorted.
Qed.

Lemma rendered_line_Permutation d1 d2 k :
  NoDup (keys d1) -> d1 ≡ₚ d2 -> rendered_line w d2 k = rendered_line w d1 k.
Proof.
  intros Hnd Hperm. unfold rendered_line.
  by rewrite (get_Permutation d1 d2 k Hnd Hperm).
Qed.

Lemma header_lines_timestamp_only now now' file_path mime_type i :
  i <> 3%nat ->
  header_lines now file_path mime_type !! i
  = header_lines now' file_path mime_type !! i.
Proof.
  intros Hi. unfold header_lines.
  do 8 (destruct i as [|i]; [done|]). reflexivity.
Qed.


(** C8, as the code has it: for a dictionary that is not empty the report
    ends with the rule, the line [Total metadata fields: n] with [n] the
    number of top-level keys, and the rule; for the empty dictionary the
    report is the header followed by the single no-metadata line, with no
    footer. *)
Theorem normalize_footer (now file_path mime_type : string) (d : pydict) :
  (d <> [] ->
   exists body front,
     report_lines w now d file_path mime_type
     = Ok (header_lines now file_path mime_type ++ body ++ footer_lines d)
     /\ length body = length d
     /\ footer_lines d
        = [ ""; rule; "Total metadata fields: " +:+ str_int (Z.of_nat (length d)); rule ]
     /\ normalize_metadata w now d file_path mime_type
        = Ok (front +:+ newline +:+ footer_text (length d)))
  /\ (d = [] ->
      report_lines w now d file_path mime_type
      = Ok (header_lines now file_path mime_type ++ [no_metadata_line])
      /\ normalize_metadata w now d file_path mime_type
         = Ok (join newline (header_lines now file_path mime_type)
               +:+ newline +:+ no_metadata_line)).
Proof.
  split.
  - intros Hd.
    exists (rendered_line w d <$> sorted (keys d)).
    exists (join newline (header_lines now file_path mime_type
                          ++ (rendered_line w d <$> sorted (keys d)) ++ [""])).
    split; [by apply report_lines_nonempty|].
    split; [unfold keys; by rewrite length_fmap, sorted_Permutation, length_fmap|].
    split; [reflexivity|].
    unfold normalize_metadata. rewrite report_lines_nonempty by done.
    cbn [mbind result_bind rbind]. f_equal.
    replace (header_lines now file_path mime_type
             ++ (rendered_line w d <$> sorted (keys d)) ++ footer_lines d)
      with ((header_lines now file_path mime_type
             ++ (rendered_line w d <$> sorted (keys d)) ++ [""])
            ++ [ rule; "Total metadata fields: " +:+ str_int (len d); rule ])
      by (unfold footer_lines; by rewrite <- !app_assoc).
    by rewrite join_app_ne.
  - intros ->. split; [reflexivity|].
    unfold normalize_metadata, report_lines. cbn [mbind result_bind rbind].
    f_equal. by rewrite join_app_ne.
Qed.

End NormalizeFacts.

Section NormalizeClaims.

Import PyDict Normalize.

(** The keys are sorted raw, not in display form: [aBc] comes before [a_c]
    although [A C] would come before [Abc]. *)
Example sorted_uses_raw_keys :
  sorted ["a_c"; "aBc"] = ["aBc"; "a_c"]
  /\ title (replace_char "_" SPACE "aBc") = "Abc"
  /\ title (replace_char "_" SPACE "a_c") = "A C"
  /\ String.leb "A C" "Abc" = true.
Proof. repeat split. Qed.


Lemma normalize_footer_witness :
  (exists front,
      normalize_metadata Worlds.empty_world "2024-05-01 10:00:00"
        [ ("file_name", VStr "a.bin"); ("file_size_bytes", VInt 3) ]
        "a.bin" "application/octet-stream"
      = Ok (front +:+ newline +:+ footer_text 2))
  /\ normalize_metadata Worlds.empty_world "2024-05-01 10:00:00" []
       "a.bin" "application/octet-stream"
     = Ok (join newline (header_lines "2024-05-01 10:00:00" "a.bin"
                           "application/octet-stream")
           +:+ newline +:+ no_metadata_line).
Proof.
  split.
  - destruct (normalize_footer Worlds.empty_world "2024-05-01 10:00:00"
                "a.bin" "application/octet-stream"
                [ ("file_name", VStr "a.bin"); ("file_size_bytes", VInt 3) ])
      as [Hfooter _].
    destruct Hfooter as (body & front & _ & _ & _ & Htext); [discriminate|].
    exists front. exact Htext.
  - destruct (normalize_footer Worlds.empty_world "2024-05-01 10:00:00"
                "a.bin" "application/octet-stream" []) as [_ Hempty].
    apply Hempty. reflexivity.
Defined.

(** C8 as stated fails for the empty dictionary: its report stops at the
    no-metadata line; no field count follows. *)
Lemma normalize_empty_counterexample :
  exists text,
    normalize_metadata Worlds.empty_world "2024-05-01 10:00:00" []
      "a.bin" "application/octet-stream" = Ok text
    /\ endswith text no_metadata_line = true
    /\ endswith text (footer_text 0) = false
    /\ contains "Total metadata fields" text = false.
Proof.
  eexists. split; [reflexivity|]. repeat split; by vm_compute.
Qed.

End NormalizeClaims.

(** * Further properties *)

(** ** Dictionaries built by the backends *)

Section MergeFacts.

Import PyDict.

Lemma setitem_fresh k v d : get d k = None -> setitem k v d = d ++ [(k, v)].
Proof.
  induction d as [|[k0 v0] d IH]; simpl; [reflexivity|].
  destruct (decide (k0 = k)); [discriminate|]. intros H. by rewrite IH.
Qed.

Lemma NoDup_setitem k v d : NoDup (keys d) -> NoDup (keys (setitem k v d)).
Proof.
  unfold keys. induction d as [|[k0 v0] d IH]; simpl; intros Hnd.
  - apply NoDup_singleton.
  - apply NoDup_cons in Hnd as [Hnotin Hnd].
    destruct (decide (k0 = k)) as [->|Hne]; simpl.
    + by apply NoDup_cons.
    + apply NoDup_cons. split; [|by apply IH].
      intros Hin. apply (keys_setitem k v d k0) in Hin as [->|Hin]; done.
Qed.

Lemma NoDup_update d other : NoDup (keys d) -> NoDup (keys (update d other)).
Proof.
  unfold update. revert d.
  induction other as [|[k v] other IH]; intros d Hnd; simpl; [done|].
  apply IH. by apply NoDup_setitem.
Qed.

(** Merging a dictionary whose keys are new appends it: nothing is
    overwritten and the call order is kept. *)
Lemma update_disjoint d other :
  NoDup (keys other) -> (forall k, k ∈ keys other -> get d k = None) ->
  update d other = d ++ other.
Proof.
  unfold update. revert d.
  induction other as [|[k v] other IH]; intros d Hnd Hnew; simpl.
  - by rewrite app_nil_r.
  - unfold keys in Hnd. simpl in Hnd. apply NoDup_cons in Hnd as [Hk Hnd].
    rewrite setitem_fresh by (apply Hnew; simpl; apply elem_of_cons; by left).
    rewrite IH; [by rewrite <- app_assoc|done|].
    intros k' Hk'. rewrite get_app.
    rewrite Hnew by (simpl; apply elem_of_cons; by right).
    simpl. destruct (decide (k = k')) as [->|]; [contradiction|reflexivity].
Qed.

Lemma preserves_ret I {A} (a : A) : preserves I (mret a).
Proof. by intros d H. Qed.

Lemma preserves_call I {A} (r : result A) : preserves I (call r).
Proof. by intros d H. Qed.

Lemma preserves_assign (I : pydict -> Prop) k v :
  (forall d, I d -> I (setitem k v d)) -> preserves I (assign k v).
Proof. intros HI d H. by apply HI. Qed.

Lemma preserves_bind I {A B} (m : M A) (f : A -> M B) :
  preserves I m -> (forall a, preserves I (f a)) -> preserves I (m ≫= f).
Proof.
  intros Hm Hf d Hd. unfold mbind, M_bind, bind.
  specialize (Hm d Hd). destruct (m d) as [d' [a|e]]; simpl in *; [|done].
  by apply Hf.
Qed.

Lemma preserves_try I (body : M unit) handler :
  preserves I body -> (forall e, preserves I (handler e)) ->
  preserves I (try_except body handler).
Proof.
  intros Hm Hh d Hd. unfold try_except.
  specialize (Hm d Hd). destruct (body d) as [d' [a|e]]; simpl in *; [done|].
  by apply Hh.
Qed.

Lemma preserves_for_each I {A} (l : list A) (body : A -> M unit) :
  (forall x, preserves I (body x)) -> preserves I (for_each l body).
Proof.
  intros Hb. induction l as [|x l IH]; simpl.
  - apply preserves_ret.
  - apply preserves_bind; auto.
Qed.

Lemma returned_invariant (I : pydict -> Prop) block d :
  I [] -> preserves I block -> returns_or_raises block = Ok d -> I d.
Proof.
  intros H0 Hb Hr. unfold returns_or_raises in Hr. specialize (Hb [] H0).
  destruct (block []) as [d' [[]|e]]; [|discriminate]. by injection Hr as ->.
Qed.

End MergeFacts.

(** Breaks a block into its statements, for [assigns_within] and
    [preserves] goals whose leaves are assignments. *)
Ltac block_steps leaf :=
  repeat first
    [ apply assigns_within_try | apply preserves_try
    | apply assigns_within_bind | apply preserves_bind
    | apply assigns_within_for_each | apply preserves_for_each
    | apply assigns_within_call | apply preserves_call
    | apply assigns_within_ret | apply preserves_ret
    | apply assigns_within_assign; leaf
    | apply preserves_assign; leaf
    | match goal with |- forall _, _ => intro end
    | case_match ].

(** ** Merging in the generic backend *)

Section GenericMerge.

Import PyDict GenericExtractor.

Variable w : world.
Variable file_path : string.

Ltac in_list := by apply (bool_decide_unpack _).
Ltac unique_leaf := intros; by apply NoDup_setitem.

Lemma hash_block_keys :
  assigns_within (fun k => k ∈ hash_keys) (calculate_hashes_block w file_path).
Proof. unfold calculate_hashes_block. block_steps in_list. Qed.

Lemma hash_block_unique :
  preserves (fun d => NoDup (keys d)) (calculate_hashes_block w file_path).
Proof. unfold calculate_hashes_block. block_steps unique_leaf. Qed.

Lemma hachoir_block_unique :
  preserves (fun d => NoDup (keys d)) (extract_with_hachoir_block w file_path).
Proof.
  unfold extract_with_hachoir_block, hachoir_line. block_steps unique_leaf.
Qed.

Lemma identify_unique header table :
  preserves (fun d => NoDup (keys d)) (identify header table).
Proof.
  induction table as [|[signature description] table IH]; simpl.
  - apply preserves_ret.
  - destruct (bytes_startswith header signature); [|done].
    apply preserves_assign. unique_leaf.
Qed.

Lemma header_block_unique :
  preserves (fun d => NoDup (keys d)) (inspect_header_block w file_path).
Proof.
  apply preserves_try.
  - apply preserves_bind; [apply preserves_call|]. intros f.
    apply preserves_bind; [apply preserves_assign; unique_leaf|]. intros _.
    apply preserves_bind; [apply preserves_assign; unique_leaf|]. intros _.
    apply identify_unique.
  - intros e. apply preserves_assign. unique_leaf.
Qed.

Lemma found_unique found :
  (if HACHOIR_AVAILABLE w then extract_with_hachoir w file_path else Ok [])
  = Ok found ->
  NoDup (keys found) /\ forall k, k ∈ keys found -> hachoir_key k.
Proof.
  destruct (HACHOIR_AVAILABLE w).
  - intros H. split.
    + apply (returned_invariant (fun d => NoDup (keys d)) _ _ (NoDup_nil_2)
               hachoir_block_unique H).
    + apply (returned_keys _ _ _ (hachoir_block_keys w file_path) H).
  - intros [= <-]. split; [apply NoDup_nil_2|]. intros k Hk.
    by apply elem_of_nil in Hk.
Qed.

Lemma generic_extract_merged (st : stat_result) :
  os_stat w file_path = Ok st ->
  exists basic hashes found header,
    get_basic_info w file_path = Ok basic
    /\ calculate_hashes w file_path = Ok hashes
    /\ (if HACHOIR_AVAILABLE w then extract_with_hachoir w file_path else Ok [])
       = Ok found
    /\ inspect_header w file_path = Ok header
    /\ extract w file_path = Ok (basic ++ hashes ++ found ++ header)
    /\ NoDup (keys (basic ++ hashes ++ found ++ header))
    /\ keys basic = generic_basic_keys.
Proof.
  intros Hst.
  destruct (extract_ok w file_path st Hst)
    as (basic & hashes & found & header & Hb & Hh & Hf & Hi & Hex).
  destruct (get_basic_info_ok w file_path st Hst) as (basic' & Hb' & _ & Hkeys).
  assert (basic' = basic) as -> by congruence.
  exists basic, hashes, found, header. repeat (split; [done|]).
  assert (Hbu : NoDup (keys basic)).
  { rewrite Hkeys. in_list. }
  assert (Hhu : NoDup (keys hashes)).
  { apply (returned_invariant (fun d => NoDup (keys d)) _ _ (NoDup_nil_2)
             hash_block_unique Hh). }
  assert (Hhk : forall k, k ∈ keys hashes -> k ∈ hash_keys)
    by apply (returned_keys _ _ _ hash_block_keys Hh).
  destruct (found_unique found Hf) as [Hfu Hfk].
  assert (Hiu : NoDup (keys header)).
  { apply (returned_invariant (fun d => NoDup (keys d)) _ _ (NoDup_nil_2)
             header_block_unique Hi). }
  assert (Hik : forall k, k ∈ keys header -> k ∈ header_keys)
    by apply (returned_keys _ _ _ (header_block_keys w file_path) Hi).
  assert (Hbasic_none : forall k, k ∉ generic_basic_keys -> get basic k = None).
  { intros k Hk. apply get_None. by rewrite Hkeys. }
  assert (Hhash_none : forall k, k ∉ hash_keys -> get hashes k = None).
  { intros k Hk. apply get_None. intros Hin. by apply Hk, Hhk. }
  assert (Hfound_none : forall k, ~ hachoir_key k -> get found k = None).
  { intros k Hk. apply get_None. intros Hin. by apply Hk, Hfk. }
  assert (Hnot_hachoir : forall k l, k ∈ l ->
             forallb (fun n => negb (startswith n "hachoir_")) l = true ->
             ~ hachoir_key k).
  { intros k l Hin Hall Hk. rewrite forallb_forall in Hall.
    apply list_elem_of_In in Hin. specialize (Hall k Hin).
    unfold hachoir_key in Hk. by rewrite Hk in Hall. }
  assert (Hsplit : forall k (l avoid : list string), k ∈ l ->
             forallb (fun n => bool_decide (n ∉ avoid)) l = true -> k ∉ avoid).
  { intros k l avoid Hin Hall. rewrite forallb_forall in Hall.
    apply list_elem_of_In in Hin. specialize (Hall k Hin).
    by apply bool_decide_eq_true in Hall. }
  assert (E1 : update [] basic = basic).
  { by rewrite update_disjoint. }
  assert (E2 : update basic hashes = basic ++ hashes).
  { apply update_disjoint; [done|]. intros k Hk. apply Hbasic_none.
    by apply (Hsplit k hash_keys); [apply Hhk|]. }
  assert (E3 : update (basic ++ hashes) found = (basic ++ hashes) ++ found).
  { apply update_disjoint; [done|]. intros k Hk. specialize (Hfk k Hk).
    rewrite get_app, Hbasic_none, Hhash_none; [done| |];
      intros Hin; by apply (Hnot_hachoir k _ Hin). }
  assert (E4 : update ((basic ++ hashes) ++ found) header
               = ((basic ++ hashes) ++ found) ++ header).
  { apply update_disjoint; [done|]. intros k Hk. specialize (Hik k Hk).
    rewrite !get_app, Hbasic_none, Hhash_none, Hfound_none; [done| | |].
    - by apply (Hnot_hachoir k header_keys).
    - by apply (Hsplit k header_keys).
    - by apply (Hsplit k header_keys). }
  rewrite E1, E2, E3, E4, <- !app_assoc in Hex. split; [exact Hex|].
  split; [|exact Hkeys].
  assert (Hnd : NoDup (keys (update (update (update (update [] basic) hashes)
                                       found) header))).
  { do 4 apply NoDup_update. apply NoDup_nil_2. }
  by rewrite E1, E2, E3, E4, <- !app_assoc in Hnd.
Qed.

(** In the generic backend no step overwrites a key of an earlier one: what
    [extract] returns is the four partial dictionaries one after the other,
    in call order, and its keys are pairwise distinct. *)
Theorem generic_extract_concatenates (st : stat_result) :
  os_stat w file_path = Ok st ->
  exists basic hashes found header,
    get_basic_info w file_path = Ok basic
    /\ calculate_hashes w file_path = Ok hashes
    /\ (if HACHOIR_AVAILABLE w then extract_with_hachoir w file_path else Ok [])
       = Ok found
    /\ inspect_header w file_path = Ok header
    /\ extract w file_path = Ok (basic ++ hashes ++ found ++ header)
    /\ NoDup (keys (basic ++ hashes ++ found ++ header))
    /\ keys basic = generic_basic_keys.
Proof. apply generic_extract_merged. Qed.

End GenericMerge.

Lemma generic_extract_concatenates_witness :
  GenericExtractor.extract (Worlds.file_world "a.zip" [x50; x4b; x03; x04]) "a.zip"
  = Ok [ ("file_name", VStr "a.zip");
         ("file_extension", VStr "");
         ("file_size_bytes", VInt 4);
         ("file_size_kb", VFloat (round2 (Qdiv (inject_Z 4) (inject_Z 1024))));
         ("file_size_mb", VFloat (round2 (Qdiv (inject_Z 4) (inject_Z (1024 * 1024)))));
         ("creation_time", VStr "0.0");
         ("modification_time", VStr "0.0");
         ("access_time", VStr "0.0");
         ("md5_hash", VStr ("md5:" +:+ String.string_of_list_byte [x50; x4b; x03; x04]));
         ("sha256_hash", VStr ("sha256:" +:+ String.string_of_list_byte [x50; x4b; x03; x04]));
         ("file_header_hex", VStr "50 4b 03 04");
         ("file_header_ascii", VStr "PK..");
         ("identified_format", VStr "ZIP archive") ].
Proof.
  destruct (generic_extract_concatenates
              (Worlds.file_world "a.zip" [x50; x4b; x03; x04]) "a.zip" _ eq_refl)
    as (basic & hashes & found & header & Hb & Hh & Hf & Hi & Hex & _).
  rewrite Hex.
  injection Hb as <-. injection Hf as <-.
  vm_compute in Hh. injection Hh as <-.
  vm_compute in Hi. injection Hi as <-.
  reflexivity.
Defined.

(** ** The basic attributes in the three backends *)

Section BasicAttributes.

Import PyDict.

Variable w : world.
Variable file_path : string.

Ltac in_list := by apply (bool_decide_unpack _).

Lemma zip_block_keys :
  assigns_within (fun k => k ∈ archive_keys)
    (ArchiveExtractor.extract_zip_block w file_path).
Proof. unfold ArchiveExtractor.extract_zip_block. block_steps in_list. Qed.

Lemma tar_block_keys :
  assigns_within (fun k => k ∈ archive_keys)
    (ArchiveExtractor.extract_tar_block w file_path).
Proof. unfold ArchiveExtractor.extract_tar_block. block_steps in_list. Qed.

Lemma sevenz_block_keys :
  assigns_within (fun k => k ∈ archive_keys)
    (ArchiveExtractor.extract_7z_block w file_path).
Proof. unfold ArchiveExtractor.extract_7z_block. block_steps in_list. Qed.

Lemma pdf_block_keys :
  assigns_within document_key (DocumentExtractor.extract_pdf_block w file_path).
Proof.
  unfold DocumentExtractor.extract_pdf_block, DocumentExtractor.pdf_other_field.
  block_steps ltac:(first [ left; in_list | right; reflexivity ]).
Qed.

Lemma docx_block_keys :
  assigns_within document_key (DocumentExtractor.extract_docx_block w file_path).
Proof.
  unfold DocumentExtractor.extract_docx_block.
  block_steps ltac:(left; in_list).
Qed.

Lemma txt_block_keys :
  assigns_within document_key (DocumentExtractor.extract_txt_block w file_path).
Proof.
  unfold DocumentExtractor.extract_txt_block.
  block_steps ltac:(left; in_list).
Qed.

Lemma basic_not_archive k : k ∈ basic_keys -> k ∉ archive_keys.
Proof.
  unfold basic_keys. rewrite !elem_of_cons, elem_of_nil.
  intros [->|[->|[->|[]]]]; in_list.
Qed.

Lemma basic_not_document k : k ∈ basic_keys -> ~ document_key k.
Proof.
  unfold basic_keys, document_key. rewrite !elem_of_cons, elem_of_nil.
  intros [->|[->|[->|[]]]] [Hin|Hpdf]; try discriminate;
    revert Hin; in_list.
Qed.

Lemma has_basic_attributes_get (st : stat_result) metadata :
  (forall k, k ∈ basic_keys ->
     get metadata k
     = get [ ("file_name", VStr (os_path_basename w file_path));
             ("file_size_bytes", VInt (st_size st));
             ("file_size_mb",
              VFloat (round2 (Qdiv (inject_Z (st_size st))
                                   (inject_Z (1024 * 1024))))) ] k) ->
  has_basic_attributes w file_path st metadata.
Proof.
  intros H. unfold has_basic_attributes.
  rewrite !H by in_list. repeat split.
Qed.

Lemma basic_attributes_hold (st : stat_result) :
  os_stat w file_path = Ok st ->
  (exists metadata, GenericExtractor.extract w file_path = Ok metadata
                    /\ has_basic_attributes w file_path st metadata)
  /\ (exists metadata, ArchiveExtractor.extract w file_path = Ok metadata
                       /\ has_basic_attributes w file_path st metadata)
  /\ (exists metadata, DocumentExtractor.extract w file_path = Ok metadata
                       /\ has_basic_attributes w file_path st metadata).
Proof.
  intros Hst. split; [|split].
  - destruct (generic_extract_merged w file_path st Hst)
      as (basic & hashes & found & header & Hb & _ & _ & _ & Hex & Hnd & _).
    exists (basic ++ hashes ++ found ++ header). split; [exact Hex|].
    unfold GenericExtractor.get_basic_info in Hb. rewrite Hst in Hb.
    injection Hb as <-.
    unfold has_basic_attributes. repeat split.
  - unfold ArchiveExtractor.extract, ArchiveExtractor.get_basic_info.
    rewrite Hst. cbn [mbind result_bind rbind]. rewrite truediv_megabyte.
    assert (H1 : exists d, ArchiveExtractor.extract_zip w file_path = Ok d)
      by apply try_except_returns.
    assert (H2 : exists d, ArchiveExtractor.extract_tar w file_path = Ok d)
      by apply try_except_returns.
    assert (H3 : exists d, ArchiveExtractor.extract_7z w file_path = Ok d)
      by apply try_except_returns.
    destruct H1 as [d1 H1], H2 as [d2 H2], H3 as [d3 H3].
    pose proof (fun k => returned_absent _ _ _ k zip_block_keys H1) as A1.
    pose proof (fun k => returned_absent _ _ _ k tar_block_keys H2) as A2.
    pose proof (fun k => returned_absent _ _ _ k sevenz_block_keys H3) as A3.
    rewrite H1, H2, H3.
    repeat case_match; eexists; (split; [reflexivity|]);
      apply has_basic_attributes_get; intros k Hk;
      rewrite ?get_update_absent by (first [apply A1|apply A2|apply A3];
                                     by apply basic_not_archive);
      try reflexivity.
    rewrite get_setitem_ne; [reflexivity|].
    intros <-. revert Hk. in_list.
  - unfold DocumentExtractor.extract, DocumentExtractor.get_basic_info.
    rewrite Hst. cbn [mbind result_bind rbind]. rewrite truediv_megabyte.
    assert (H1 : exists d, DocumentExtractor.extract_pdf w file_path = Ok d)
      by apply try_except_returns.
    assert (H2 : exists d, DocumentExtractor.extract_docx w file_path = Ok d)
      by apply try_except_returns.
    assert (H3 : exists d, DocumentExtractor.extract_txt w file_path = Ok d)
      by apply try_except_returns.
    destruct H1 as [d1 H1], H2 as [d2 H2], H3 as [d3 H3].
    pose proof (fun k => returned_absent _ _ _ k pdf_block_keys H1) as A1.
    pose proof (fun k => returned_absent _ _ _ k docx_block_keys H2) as A2.
    pose proof (fun k => returned_absent _ _ _ k txt_block_keys H3) as A3.
    rewrite H1, H2, H3.
    repeat case_match; eexists; (split; [reflexivity|]);
      apply has_basic_attributes_get; intros k Hk;
      rewrite ?get_update_absent by (first [apply A1|apply A2|apply A3];
                                     by apply basic_not_document);
      try reflexivity.
    rewrite get_setitem_ne; [reflexivity|].
    intros <-. revert Hk. in_list.
Qed.

(** Whenever [os.stat] succeeds, each of the generic, archive and document
    backends returns a map in which [file_name], [file_size_bytes] and
    [file_size_mb] hold the name and the size [os.stat] gave: no later step
    of the backend overwrites them. *)
Theorem basic_attributes_present (st : stat_result) :
  os_stat w file_path = Ok st ->
  (exists metadata, GenericExtractor.extract w file_path = Ok metadata
                    /\ has_basic_attributes w file_path st metadata)
  /\ (exists metadata, ArchiveExtractor.extract w file_path = Ok metadata
                       /\ has_basic_attributes w file_path st metadata)
  /\ (exists metadata, DocumentExtractor.extract w file_path = Ok metadata
                       /\ has_basic_attributes w file_path st metadata).
Proof. apply basic_attributes_hold. Qed.

End BasicAttributes.

Lemma basic_attributes_present_witness :
  exists metadata,
    ArchiveExtractor.extract (Worlds.zip_world "big.zip" (Worlds.zip_members 52 10)) "big.zip"
    = Ok metadata
    /\ get_file_category "application/zip" = "archive"
    /\ PyDict.get metadata "file_name" = Some (VStr "big.zip")
    /\ PyDict.get metadata "file_size_bytes" = Some (VInt 22).
Proof.
  destruct (basic_attributes_present
              (Worlds.zip_world "big.zip" (Worlds.zip_members 52 10)) "big.zip"
              _ eq_refl) as (_ & (metadata & Hex & Hname & Hsize & _) & _).
  exists metadata. split; [exact Hex|]. split; [reflexivity|].
  split; [exact Hname|exact Hsize].
Defined.

(** ** Header inspection *)

Section HeaderFacts.

Import PyDict GenericExtractor.

Lemma first_match_Some header table description :
  first_match header table = Some description ->
  exists signature,
    (signature, description) ∈ table /\ bytes_startswith header signature = true.
Proof.
  induction table as [|[s d] table IH]; simpl; [discriminate|].
  destruct (bytes_startswith header s) eqn:E.
  - intros [= <-]. exists s. split; [apply elem_of_cons; by left|done].
  - intros H. destruct (IH H) as (sig & Hin & Hm).
    exists sig. split; [apply elem_of_cons; by right|done].
Qed.

Lemma first_match_None header table :
  first_match header table = None ->
  forall signature description,
    (signature, description) ∈ table -> bytes_startswith header signature = false.
Proof.
  induction table as [|[s d] table IH]; simpl.
  - intros _ sig desc Hin. by apply elem_of_nil in Hin.
  - destruct (bytes_startswith header s) eqn:E; [discriminate|].
    intros H sig desc Hin. apply elem_of_cons in Hin as [[= -> ->]|Hin]; [done|].
    by apply (IH H sig desc).
Qed.

Lemma bytes_startswith_head header signature :
  bytes_startswith header signature = true ->
  signature = [] \/ head signature = head header.
Proof.
  destruct signature as [|a signature]; [by left|]. right.
  destruct header as [|b header]; simpl in *; [discriminate|].
  destruct (Byte.eqb a b) eqn:E; [|discriminate].
  by apply Byte.byte_dec_bl in E as ->.
Qed.

(** No two entries of the signature table begin with the same byte. *)
Lemma magic_signatures_heads :
  forall e1 e2, e1 ∈ magic_signatures -> e2 ∈ magic_signatures ->
                e1.1 <> [] /\ (head e1.1 = head e2.1 -> e1 = e2).
Proof.
  intros e1 e2 H1 H2. unfold magic_signatures in *.
  repeat (apply elem_of_cons in H1 as [->|H1]);
    try (by apply elem_of_nil in H1);
    (split; [discriminate|]);
    repeat (apply elem_of_cons in H2 as [->|H2]);
    try (by apply elem_of_nil in H2);
    simpl; intros; first [reflexivity|discriminate].
Qed.

(** A header is matched by at most one entry of the signature table, so the
    order of the table never decides: any rearrangement of the table
    identifies every header the same way. *)
Theorem magic_signatures_unambiguous (header : list byte)
    (table : list (list byte * string)) :
  table ≡ₚ magic_signatures ->
  first_match header table = first_match header magic_signatures.
Proof.
  intros Hperm.
  assert (Huniq : forall s1 d1 s2 d2,
             (s1, d1) ∈ magic_signatures -> (s2, d2) ∈ magic_signatures ->
             bytes_startswith header s1 = true ->
             bytes_startswith header s2 = true -> d1 = d2).
  { intros s1 d1 s2 d2 H1 H2 M1 M2.
    destruct (magic_signatures_heads _ _ H1 H2) as [Hne Heq].
    destruct (magic_signatures_heads _ _ H2 H1) as [Hne' _].
    simpl in *.
    destruct (bytes_startswith_head _ _ M1) as [?|E1]; [done|].
    destruct (bytes_startswith_head _ _ M2) as [?|E2]; [done|].
    assert (E : (s1, d1) = (s2, d2)) by (apply Heq; congruence).
    by injection E. }
  destruct (first_match header table) as [d|] eqn:Ht,
           (first_match header magic_signatures) as [d'|] eqn:Hm;
    try reflexivity.
  - destruct (first_match_Some _ _ _ Ht) as (s1 & Hin1 & M1).
    destruct (first_match_Some _ _ _ Hm) as (s2 & Hin2 & M2).
    rewrite Hperm in Hin1. f_equal. by apply (Huniq s1 d s2 d').
  - destruct (first_match_Some _ _ _ Ht) as (s1 & Hin1 & M1).
    rewrite Hperm in Hin1.
    by rewrite (first_match_None _ _ Hm s1 d Hin1) in M1.
  - destruct (first_match_Some _ _ _ Hm) as (s2 & Hin2 & M2).
    rewrite <- Hperm in Hin2.
    by rewrite (first_match_None _ _ Ht s2 d' Hin2) in M2.
Qed.

Lemma magic_signatures_unambiguous_witness :
  first_match [x1f; x8b; x08] (reverse magic_signatures) = Some "GZIP compressed".
Proof.
  rewrite (magic_signatures_unambiguous [x1f; x8b; x08] (reverse magic_signatures)).
  - reflexivity.
  - apply reverse_Permutation.
Defined.

Lemma string_of_chars_length l : String.length (string_of_chars l) = length l.
Proof. induction l as [|c l IH]; simpl; [reflexivity|]. by rewrite IH. Qed.

Lemma printable_is_printable b : is_printable (printable b) = true.
Proof. by destruct b. Qed.

Lemma all_chars_printable l :
  all_chars is_printable (string_of_chars (map printable l)) = true.
Proof.
  induction l as [|b l IH]; simpl; [reflexivity|].
  by rewrite printable_is_printable, IH.
Qed.

Lemma unhex_last fuel b : unhex (S fuel) (hex02 b) = Some [b].
Proof. by destruct b. Qed.

Lemma unhex_step fuel b c rest :
  unhex (S fuel) (hex02 b +:+ " " +:+ String c rest)
  = cons b <$> unhex fuel (String c rest).
Proof. by destruct b. Qed.

Lemma unhex_join fuel (l : list byte) :
  (length l <= fuel)%nat -> unhex fuel (join " " (map hex02 l)) = Some l.
Proof.
  revert fuel. induction l as [|b l IH]; intros fuel Hfuel.
  - by destruct fuel.
  - destruct fuel as [|fuel]; [simpl in Hfuel; lia|].
    destruct l as [|b' l]; [apply unhex_last|].
    change (join " " (map hex02 (b :: b' :: l)))
      with (hex02 b +:+ " " +:+ join " " (map hex02 (b' :: l))).
    specialize (IH fuel ltac:(simpl in *; lia)).
    destruct (join " " (map hex02 (b' :: l))) as [|c rest] eqn:E.
    + exfalso. destruct l; discriminate E.
    + by rewrite unhex_step, IH.
Qed.

(** For a readable file, [file_header_ascii] has one character per header
    byte (at most 16) and every one of them is printable ASCII, and
    [file_header_hex] spells the same bytes losslessly: reading the hex text
    back gives the first 16 bytes of the file. *)
Theorem header_rendering (w : world) (file_path : string) (data : list byte) :
  open_rb w file_path = Ok data ->
  exists header hex_text ascii_text,
    inspect_header w file_path = Ok header
    /\ get header "file_header_hex" = Some (VStr hex_text)
    /\ get header "file_header_ascii" = Some (VStr ascii_text)
    /\ unhex 16 hex_text = Some (take 16 data)
    /\ String.length ascii_text = Nat.min 16 (length data)
    /\ all_chars is_printable ascii_text = true.
Proof.
  intros Hopen. unfold inspect_header, inspect_header_block.
  set (d0 := setitem "file_header_ascii"
               (VStr (string_of_chars (map printable (take header_size data))))
               (setitem "file_header_hex"
                  (VStr (join " " (map hex02 (take header_size data)))) [])).
  destruct (identify_first_match (take header_size data) magic_signatures d0 eq_refl)
    as (d' & Hid & Hget).
  assert (Hsame : forall k, k <> "identified_format" -> get d' k = get d0 k).
  { intros k Hk.
    assert (Hd' : d' = d0 \/ exists v, d' = setitem "identified_format" v d0).
    { revert Hid. generalize magic_signatures. intros table.
      induction table as [|[s d] table IH]; simpl.
      - intros [= <-]. by left.
      - destruct (bytes_startswith (take header_size data) s); [|exact IH].
        intros [= <-]. right. eauto. }
    destruct Hd' as [->|[v ->]]; [reflexivity|]. by rewrite get_setitem_ne. }
  exists d', (join " " (map hex02 (take header_size data))),
    (string_of_chars (map printable (take header_size data))).
  split.
  { apply try_except_finished.
    unfold mbind, M_bind, bind, call. rewrite Hopen. simpl. exact Hid. }
  rewrite !Hsame by discriminate.
  split; [reflexivity|]. split; [reflexivity|]. split.
  - apply unhex_join. unfold header_size. rewrite length_take. lia.
  - split; [|apply all_chars_printable].
    rewrite string_of_chars_length, length_map, length_take.
    unfold header_size. lia.
Qed.

Lemma header_rendering_witness :
  exists header,
    inspect_header (Worlds.file_world "a.zip" [x50; x4b; x03; x04; x14; x00]) "a.zip"
    = Ok header
    /\ get header "file_header_hex" = Some (VStr "50 4b 03 04 14 00")
    /\ get header "file_header_ascii" = Some (VStr "PK....").
Proof.
  destruct (header_rendering (Worlds.file_world "a.zip" [x50; x4b; x03; x04; x14; x00])
              "a.zip" _ eq_refl)
    as (header & hex_text & ascii_text & Hin & Hhex & Hascii & _).
  exists header. split; [exact Hin|].
  vm_compute in Hin. injection Hin as <-.
  split; reflexivity.
Defined.

End HeaderFacts.

(** ** Lines of hachoir *)

Section HachoirFacts.

Import PyDict GenericExtractor.

Lemma startswith_app s t p : startswith s p = true -> startswith (s +:+ t) p = true.
Proof.
  revert s. induction p as [|a p IH]; intros [|b s]; try done.
  rewrite append_cons. cbn [startswith].
  destruct (decide (a = b)); [apply IH|done].
Qed.

(** [line.split(': ', 1)] cuts at the first [': ']: the two parts put back
    around [': '] give the line, the key holds no [': '], and the cut exists
    exactly for the lines that contain [': '], so no line that passes the
    test of [hachoir_line] is dropped. *)
Theorem split_colon_first (line : string) :
  (contains ": " line = true <-> is_Some (split_colon line))
  /\ (forall key value,
        split_colon line = Some (key, value) ->
        line = key +:+ ": " +:+ value /\ contains ": " key = false).
Proof.
  induction line as [|c line [IHiff IHcut]].
  - split; [|discriminate]. split; [discriminate|]. by intros [? ?].
  - change (contains ": " (String c line))
      with (startswith (String c line) ": " || contains ": " line).
    change (split_colon (String c line))
      with (if startswith (String c line) ": " then
              Some (EmptyString,
                    match line with String _ r => r | EmptyString => EmptyString end)
            else match split_colon line with
                 | Some (key, value) => Some (String c key, value)
                 | None => None
                 end).
    destruct (startswith (String c line) ": ") eqn:Hsw.
    + split; [split; eauto|].
      intros key value [= <- <-]. split; [|reflexivity].
      simpl in Hsw. destruct (decide (":"%char = c)) as [<-|]; [|discriminate].
      destruct line as [|c' r]; [discriminate|].
      destruct (decide (" "%char = c')) as [<-|]; [|discriminate]. reflexivity.
    + simpl orb. split.
      * rewrite IHiff. destruct (split_colon line) as [[k v]|]; split;
          intros [? H]; try discriminate; eauto.
      * intros key value Hcut.
        destruct (split_colon line) as [[k v]|] eqn:E; [|discriminate].
        injection Hcut as <- <-.
        destruct (IHcut k v eq_refl) as [Hline Hkey].
        split; [by rewrite append_cons, <- Hline|].
        change (contains ": " (String c k))
          with (startswith (String c k) ": " || contains ": " k).
        rewrite Hkey, orb_false_r.
        destruct (startswith (String c k) ": ") eqn:Hk; [|reflexivity].
        pose proof (startswith_app (String c k) (": " +:+ v) ": " Hk) as H.
        rewrite append_cons, <- Hline in H. congruence.
Qed.

Lemma split_colon_first_witness :
  split_colon "Comment: ratio 4: 3" = Some ("Comment", "ratio 4: 3")
  /\ "Comment: ratio 4: 3" = "Comment" +:+ ": " +:+ "ratio 4: 3".
Proof.
  destruct (split_colon_first "Comment: ratio 4: 3") as [_ Hcut].
  split; [reflexivity|]. apply (Hcut "Comment" "ratio 4: 3"). reflexivity.
Defined.

(** [extract_with_hachoir] always returns a dictionary; its keys are
    pairwise distinct and all begin with [hachoir_] (the diagnostic key
    included), and when hachoir finds no parser for the file the dictionary
    is empty: no note and no error is recorded. *)
Theorem hachoir_namespaced (w : world) (file_path : string) :
  exists found,
    extract_with_hachoir w file_path = Ok found
    /\ NoDup (keys found)
    /\ (forall k, k ∈ keys found -> startswith k "hachoir_" = true)
    /\ (createParser w file_path = Ok None -> found = []).
Proof.
  destruct (try_except_returns
              (parser ← call (createParser w file_path);
               match parser with
               | Some parser =>
                   meta ← call (hachoir_extractMetadata parser);
                   match meta with
                   | Some lines => for_each lines hachoir_line
                   | None => mret tt
                   end;;
                   call (hachoir_close parser)
               | None => mret tt
               end) "hachoir_error") as [found Hfound].
  exists found. split; [exact Hfound|]. split; [|split].
  - apply (returned_invariant (fun d => NoDup (keys d)) _ _ (NoDup_nil_2)
             (hachoir_block_unique w file_path) Hfound).
  - apply (returned_keys _ _ _ (hachoir_block_keys w file_path) Hfound).
  - intros Hnone. unfold returns_or_raises, try_except, mbind, M_bind, bind, call in Hfound.
    rewrite Hnone in Hfound. simpl in Hfound. by injection Hfound as <-.
Qed.

End HachoirFacts.

(** ** More of the archive backend *)

Section ArchiveMore.

Import PyDict ArchiveExtractor.

#[local] Arguments str_int : simpl never.
#[local] Arguments join : simpl never.
#[local] Arguments round2 : simpl never.

(** A 7Z archive that py7zr can list obeys the same truncation law as ZIP
    and TAR, and reports the member count and the type ["7Z"] but, unlike
    them, no uncompressed size. *)
Theorem sevenz_listing (w : world) (file_path : string) (names : list string) :
  py7zr_getnames w file_path = Ok names ->
  exists metadata,
    extract_7z w file_path = Ok metadata
    /\ get metadata "num_files" = Some (VInt (Z.of_nat (length names)))
    /\ get metadata "compression_type" = Some (VStr "7Z")
    /\ get metadata "total_uncompressed_size_mb" = None
    /\ get metadata "7z_error" = None
    /\ truncated_listing metadata names.
Proof.
  intros Hopen.
  assert (Hex : extract_7z w file_path
                = Ok ([ ("num_files", VInt (len names));
                        ("compression_type", VStr "7Z") ]
                      ++ [ ("file_list", VStr (join ", " (take 50 names))) ]
                      ++ more_files_note (len names))).
  { apply try_except_finished.
    unfold mbind, M_bind, bind, call, more_files_note. rewrite Hopen. simpl.
    by destruct (len names >? 50). }
  rewrite Hex. eexists. split; [reflexivity|].
  split; [reflexivity|]. split; [reflexivity|].
  split; [|split].
  - unfold more_files_note. by destruct (len names >? 50).
  - unfold more_files_note. by destruct (len names >? 50).
  - by apply truncated_listing_intro.
Qed.

Lemma sevenz_listing_witness :
  exists metadata,
    extract_7z (Scenarios.sevenz_world "c.7z" ["a.txt"; "b.txt"; "c/d.txt"]) "c.7z"
    = Ok metadata
    /\ get metadata "num_files" = Some (VInt 3)
    /\ get metadata "file_list" = Some (VStr "a.txt, b.txt, c/d.txt").
Proof.
  destruct (sevenz_listing (Scenarios.sevenz_world "c.7z" ["a.txt"; "b.txt"; "c/d.txt"])
              "c.7z" _ eq_refl)
    as (metadata & Hex & Hnum & _ & _ & _ & Hlist & _).
  exists metadata. split; [exact Hex|]. split; [exact Hnum|exact Hlist].
Defined.

(** An archive that the library cannot open yields a dictionary with the
    single key [zip_error], [tar_error] or [7z_error]; a ZIP archive that
    opened but whose [os.stat] then fails keeps the three entries written
    before the failure, gains [zip_error], and has no [file_list]. *)
Theorem archive_failure_modes (w : world) (file_path : string) :
  (forall e, zipfile_infolist w file_path = Raise e ->
             extract_zip w file_path = Ok [ ("zip_error", VStr (str_exn e)) ])
  /\ (forall e, tarfile_getmembers w file_path (tar_mode file_path) = Raise e ->
                extract_tar w file_path = Ok [ ("tar_error", VStr (str_exn e)) ])
  /\ (forall e, py7zr_getnames w file_path = Raise e ->
                extract_7z w file_path = Ok [ ("7z_error", VStr (str_exn e)) ])
  /\ (forall info_list e,
         zipfile_infolist w file_path = Ok info_list ->
         sum (file_size <$> info_list) > 0 ->
         os_stat w file_path = Raise e ->
         extract_zip w file_path
         = Ok [ ("num_files", VInt (len info_list));
                ("compression_type", VStr "ZIP");
                ("total_uncompressed_size_mb",
                 VFloat (round2 (Qdiv (inject_Z (sum (file_size <$> info_list)))
                                      (inject_Z (1024 * 1024)))));
                ("zip_error", VStr (str_exn e)) ]).
Proof.
  split; [|split; [|split]].
  - intros e Hopen. unfold extract_zip, extract_zip_block.
    rewrite (try_except_raised _ _ [] e); [reflexivity|].
    unfold mbind, M_bind, bind, call. by rewrite Hopen.
  - intros e Hopen. unfold extract_tar, extract_tar_block.
    rewrite (try_except_raised _ _ [] e); [reflexivity|].
    unfold mbind, M_bind, bind, call. by rewrite Hopen.
  - intros e Hopen. unfold extract_7z, extract_7z_block.
    rewrite (try_except_raised _ _ [] e); [reflexivity|].
    unfold mbind, M_bind, bind, call. by rewrite Hopen.
  - intros info_list e Hopen Hpos Hst. unfold extract_zip, extract_zip_block.
    rewrite (try_except_raised _ _
               [ ("num_files", VInt (len info_list));
                 ("compression_type", VStr "ZIP");
                 ("total_uncompressed_size_mb",
                  VFloat (round2 (Qdiv (inject_Z (sum (file_size <$> info_list)))
                                       (inject_Z (1024 * 1024))))) ] e);
      [reflexivity|].
    unfold mbind, M_bind, bind, call. rewrite Hopen. simpl.
    destruct (Z.gtb_spec (sum (file_size <$> info_list)) 0) as [_|?]; [|lia].
    by rewrite Hst.
Qed.

Lemma archive_failure_modes_witness :
  extract_zip (Worlds.file_world "notes.zip" [x68; x69]) "notes.zip"
  = Ok [ ("zip_error", VStr "unsupported file format") ]
  /\ exists metadata,
      extract_zip (Scenarios.with_stat
                     (Worlds.zip_world "big.zip" (Worlds.zip_members 52 10))
                     Scenarios.vanished) "big.zip" = Ok metadata
      /\ get metadata "num_files" = Some (VInt 52)
      /\ get metadata "file_list" = None
      /\ get metadata "zip_error"
         = Some (VStr "[Errno 2] No such file or directory: 'big.zip'").
Proof.
  split.
  - destruct (archive_failure_modes (Worlds.file_world "notes.zip" [x68; x69])
                "notes.zip") as [Hzip _].
    apply (Hzip (LibraryError "unsupported file format")). reflexivity.
  - destruct (archive_failure_modes
                (Scenarios.with_stat
                   (Worlds.zip_world "big.zip" (Worlds.zip_members 52 10))
                   Scenarios.vanished) "big.zip") as (_ & _ & _ & Hstat).
    eexists. split.
    + apply (Hstat _ (Worlds.no_such_file "big.zip") eq_refl);
        [vm_compute; reflexivity|reflexivity].
    + repeat split.
Defined.

(** An archive whose extension, lower-cased, is none of [.zip], [.tar],
    [.gz], [.bz2], [.xz], and is not [.7z] with py7zr installed, gets the
    three basic attributes and one [note] naming the lower-cased extension;
    no archive library is consulted.  This is the case of [.tgz] and [.rar]
    files, and of [.7z] files when py7zr is missing. *)
Theorem archive_unsupported_extension (w : world) (file_path : string)
    (st : stat_result) :
  os_stat w file_path = Ok st ->
  let ext := lower (os_path_splitext w file_path).2 in
  ext ∉ [".zip"; ".tar"; ".gz"; ".bz2"; ".xz"] ->
  ext <> ".7z" \/ PY7ZR_AVAILABLE w = false ->
  extract w file_path
  = Ok [ ("file_name", VStr (os_path_basename w file_path));
         ("file_size_bytes", VInt (st_size st));
         ("file_size_mb",
          VFloat (round2 (Qdiv (inject_Z (st_size st)) (inject_Z (1024 * 1024)))));
         ("note", VStr ("No specific extractor for " +:+ ext +:+ " archives")) ].
Proof.
  intros Hst ext Hext H7z.
  unfold extract, get_basic_info. rewrite Hst.
  cbn [mbind result_bind rbind]. rewrite truediv_megabyte.
  cbn [mbind result_bind rbind]. fold ext.
  rewrite decide_False
    by (intros E; apply Hext; rewrite E; apply elem_of_cons; by left).
  rewrite bool_decide_false
    by (intros Hin; apply Hext; apply elem_of_cons; by right).
  assert (H7 : bool_decide (ext = ".7z") && PY7ZR_AVAILABLE w = false).
  { destruct H7z as [Hne| ->]; [by rewrite bool_decide_false|apply andb_false_r]. }
  rewrite H7. reflexivity.
Qed.

Lemma archive_unsupported_extension_witness :
  extract (Scenarios.with_splitext (Worlds.file_world "backup.TGZ" [x1f; x8b])
             Scenarios.split_at_dot) "backup.TGZ"
  = Ok [ ("file_name", VStr "backup.TGZ");
         ("file_size_bytes", VInt 2);
         ("file_size_mb",
          VFloat (round2 (Qdiv (inject_Z 2) (inject_Z (1024 * 1024)))));
         ("note", VStr "No specific extractor for .tgz archives") ].
Proof.
  apply (archive_unsupported_extension
           (Scenarios.with_splitext (Worlds.file_world "backup.TGZ" [x1f; x8b])
              Scenarios.split_at_dot) "backup.TGZ" _ eq_refl).
  - apply (bool_decide_unpack _). by vm_compute.
  - left. by vm_compute.
Defined.

End ArchiveMore.

(** ** More of the document backend *)

Section Counting.

Lemma count_char_bounds a s : 0 <= count_char a s <= PyStr.len s.
Proof.
  unfold PyStr.len. induction s as [|c s IH]; cbn [count_char String.length].
  - lia.
  - destruct (decide (c = a)); lia.
Qed.

Lemma count_words_from_bounds b s : 0 <= count_words_from b s <= PyStr.len s.
Proof.
  unfold PyStr.len. revert b.
  induction s as [|c s IH]; intros b; cbn [count_words_from String.length].
  - lia.
  - destruct (is_space c); [specialize (IH false); lia|].
    specialize (IH true). destruct b; lia.
Qed.

Lemma count_words_zero s :
  count_words s = 0 <-> all_chars is_space s = true.
Proof.
  unfold count_words. induction s as [|c s IH]; cbn [count_words_from all_chars].
  - done.
  - destruct (is_space c); [exact IH|].
    pose proof (count_words_from_bounds true s). simpl. split; [lia|done].
Qed.

End Counting.

Section DocumentMore.

Import PyDict DocumentExtractor.

#[local] Arguments str_take : simpl never.
#[local] Arguments replace_char : simpl never.
#[local] Arguments count_char : simpl never.
#[local] Arguments count_words : simpl never.
#[local] Arguments round2 : simpl never.





Lemma pdf_block_pdf_keys (w : world) (file_path : string) :
  assigns_within pdf_key (extract_pdf_block w file_path).
Proof.
  unfold extract_pdf_block, pdf_other_field.
  block_steps ltac:(first
    [ left; by apply (bool_decide_unpack _)
    | right; eexists; split; [reflexivity|]; apply replace_char_gone; by vm_compute ]).
Qed.

(** [extract_pdf] always returns a dictionary, and every key in it is one
    of its eleven fixed names or [pdf_] followed by a cleaned document
    information name in which every slash has been removed or replaced. *)
Theorem pdf_keys_clean (w : world) (file_path : string) :
  exists metadata,
    extract_pdf w file_path = Ok metadata
    /\ forall k, k ∈ keys metadata ->
         k ∈ pdf_fixed_keys
         \/ exists clean, k = "pdf_" +:+ clean /\ count_char "/" clean = 0.
Proof.
  assert (H : exists d, extract_pdf w file_path = Ok d) by apply try_except_returns.
  destruct H as [d Hd]. exists d. split; [exact Hd|].
  apply (returned_keys pdf_key _ _ (pdf_block_pdf_keys w file_path) Hd).
Qed.

(** A document whose extension, lower-cased, is not [.txt], and is not
    [.pdf] with PyPDF2 installed nor [.docx] or [.doc] with python-docx
    installed, gets the three basic attributes and one [note] naming the
    lower-cased extension: a missing library gives a note, not an error. *)
Theorem document_unsupported_extension (w : world) (file_path : string)
    (st : stat_result) :
  os_stat w file_path = Ok st ->
  let ext := lower (os_path_splitext w file_path).2 in
  ext <> ".pdf" \/ PYPDF2_AVAILABLE w = false ->
  ext ∉ [".docx"; ".doc"] \/ DOCX_AVAILABLE w = false ->
  ext <> ".txt" ->
  extract w file_path
  = Ok [ ("file_name", VStr (os_path_basename w file_path));
         ("file_size_bytes", VInt (st_size st));
         ("file_size_mb",
          VFloat (round2 (Qdiv (inject_Z (st_size st)) (inject_Z (1024 * 1024)))));
         ("note", VStr ("No specific extractor for " +:+ ext +:+ " files")) ].
Proof.
  intros Hst ext Hpdf Hdocx Htxt.
  unfold extract, get_basic_info. rewrite Hst.
  cbn [mbind result_bind rbind]. rewrite truediv_megabyte.
  cbn [mbind result_bind rbind]. fold ext.
  assert (H1 : bool_decide (ext = ".pdf") && PYPDF2_AVAILABLE w = false).
  { destruct Hpdf as [Hne| ->]; [by rewrite bool_decide_false|apply andb_false_r]. }
  assert (H2 : bool_decide (ext ∈ [".docx"; ".doc"]) && DOCX_AVAILABLE w = false).
  { destruct Hdocx as [Hne| ->]; [by rewrite bool_decide_false|apply andb_false_r]. }
  rewrite H1, H2, decide_False by done. reflexivity.
Qed.

Lemma document_unsupported_extension_witness :
  extract (Scenarios.with_splitext (Worlds.file_world "paper.PDF" [x25; x50; x44; x46])
             Scenarios.split_at_dot) "paper.PDF"
  = Ok [ ("file_name", VStr "paper.PDF");
         ("file_size_bytes", VInt 4);
         ("file_size_mb",
          VFloat (round2 (Qdiv (inject_Z 4) (inject_Z (1024 * 1024)))));
         ("note", VStr "No specific extractor for .pdf files") ].
Proof.
  apply (document_unsupported_extension
           (Scenarios.with_splitext
              (Worlds.file_world "paper.PDF" [x25; x50; x44; x46])
              Scenarios.split_at_dot) "paper.PDF" _ eq_refl).
  - by right.
  - left. apply (bool_decide_unpack _). by vm_compute.
  - by vm_compute.
Defined.

End DocumentMore.

(** ** More of the normalizer *)

Section NormalizeMore.

Import PyDict Normalize.

Variable w : world.

Lemma report_lines_shape (now file_path mime_type : string) (d : pydict) :
  exists lines,
    report_lines w now d file_path mime_type = Ok lines
    /\ normalize_metadata w now d file_path mime_type = Ok (join newline lines)
    /\ length lines = match d with [] => 9%nat | _ => (length d + 12)%nat end
    /\ take 8 lines = header_lines now file_path mime_type.
Proof.
  destruct d as [|kv d].
  - eexists. split; [reflexivity|]. repeat split.
  - eexists. split; [by apply report_lines_nonempty|].
    unfold normalize_metadata. rewrite report_lines_nonempty by done.
    split; [reflexivity|]. split; [|reflexivity].
    rewrite !length_app, length_fmap.
    unfold sorted. rewrite merge_sort_Permutation. unfold keys.
    rewrite length_fmap. simpl. lia.
Qed.


Lemma underscore_test c :
  (if decide (lower_char c = "_"%char) then 1 else 0)
  = (if decide (c = "_"%char) then 1 else 0)
  /\ (if decide (upper_char c = "_"%char) then 1 else 0)
     = (if decide (c = "_"%char) then 1 else 0).
Proof. destruct c as [[] [] [] [] [] [] [] []]; split; reflexivity. Qed.

Lemma title_from_length b s : String.length (title_from b s) = String.length s.
Proof.
  revert b. induction s as [|c s IH]; intros b; simpl; [reflexivity|].
  by rewrite IH.
Qed.

Lemma title_from_underscores b s :
  count_char "_" (title_from b s) = count_char "_" s.
Proof.
  revert b. induction s as [|c s IH]; intros b; simpl; [reflexivity|].
  rewrite IH. f_equal.
  destruct (underscore_test c) as [Hl Hu]. by destruct b.
Qed.

Lemma title_char_facts c :
  lower_char (lower_char c) = lower_char c
  /\ upper_char (upper_char c) = upper_char c
  /\ is_cased (lower_char c) = is_cased c
  /\ is_cased (upper_char c) = is_cased c.
Proof. destruct c as [[] [] [] [] [] [] [] []]; by vm_compute. Qed.

Lemma title_from_idemp b s : title_from b (title_from b s) = title_from b s.
Proof.
  revert b. induction s as [|c s IH]; intros b; simpl; [reflexivity|].
  destruct (title_char_facts c) as (Hl & Hu & Hcl & Hcu).
  destruct b; [rewrite Hl, Hcl|rewrite Hu, Hcu]; by rewrite IH.
Qed.


Lemma format_nested_item_dict indent key d :
  format_nested_item w indent key (VDict d)
  = (newline +:+ repeat_char SPACE indent +:+ key +:+ ":")
    +:+ format_nested_dict w d (indent + 2).
Proof.
  cbn [format_nested_item]. f_equal.
  induction d as [|[k v] d IH]; [reflexivity|].
  cbn [format_nested_dict]. by rewrite <- IH.
Qed.

(** A nested dictionary is rendered entry by entry in insertion order, so
    the text of two dictionaries put one after the other is the two texts
    put one after the other; an entry that is itself a dictionary opens a
    line [key:] and renders its entries two columns further in. *)
Theorem nested_rendering (d1 d2 : list (string * value)) (indent : nat) :
  format_nested_dict w (d1 ++ d2) indent
  = format_nested_dict w d1 indent +:+ format_nested_dict w d2 indent
  /\ (forall key d,
        format_nested_dict w [(key, VDict d)] indent
        = newline +:+ repeat_char SPACE indent +:+ key +:+ ":"
          +:+ format_nested_dict w d (indent + 2))
  /\ format_value w (VDict (d1 ++ d2))
     = format_value w (VDict d1) +:+ format_value w (VDict d2).
Proof.
  assert (Happ : forall n,
             format_nested_dict w (d1 ++ d2) n
             = format_nested_dict w d1 n +:+ format_nested_dict w d2 n).
  { intros n. induction d1 as [|[k v] d IH]; [reflexivity|].
    cbn [app format_nested_dict]. by rewrite IH, append_assoc. }
  split; [apply Happ|]. split; [|apply Happ].
  intros key d. cbn [format_nested_dict].
  rewrite format_nested_item_dict.
  assert (Hnil : forall s : string, s +:+ "" = s).
  { induction s as [|c s IH]; [reflexivity|]. by rewrite append_cons, IH. }
  by rewrite Hnil, !append_assoc.
Qed.

End NormalizeMore.

(** ** More of the classifier *)

Section ClassifierMore.

(** When nothing tells the type of a file (the path does not exist, or both
    content sniffing and extension lookup fail), the MIME type that
    [detect_type] returns is categorised as ["other"], the category of the
    generic backend. *)
Theorem undetected_is_other (w : world) (file_path : string) :
  os_path_exists w file_path = false
  \/ (sniffing_failed w file_path /\ lookup_failed w file_path) ->
  exists mime,
    detect_type w file_path = Ok mime /\ get_file_category mime = "other".
Proof.
  intros H. unfold detect_type, mimetypes_fallback, magic_attempt.
  destruct (os_path_exists w file_path); simpl; [|by eexists].
  destruct H as [H|[Hsniff Hlookup]]; [discriminate|].
  assert (Hfb : match mimetypes_guess_type w file_path with
                | Some mime_type =>
                    if truthy mime_type then Ok mime_type
                    else Ok "application/octet-stream"
                | None => Ok "application/octet-stream"
                end = Ok "application/octet-stream").
  { by destruct Hlookup as [-> | ->]. }
  rewrite Hfb.
  destruct Hsniff as [-> |[e ->]]; [by eexists|].
  destruct (MAGIC_AVAILABLE w); by eexists.
Qed.

Lemma undetected_is_other_witness :
  exists mime,
    detect_type Worlds.empty_world "missing.png" = Ok mime
    /\ get_file_category mime = "other".
Proof.
  apply undetected_is_other. by left.
Defined.

Lemma contains_after_prefix a x y :
  startswith y x = true -> contains x (a +:+ y) = true.
Proof.
  intros H. induction a as [|c a IH].
  - change ("" +:+ y) with y. destruct y; simpl; by rewrite H.
  - rewrite append_cons. simpl. rewrite IH. apply orb_true_r.
Qed.

Lemma startswith_split s a x :
  startswith s (a +:+ x) = true -> exists y, s = a +:+ y /\ startswith y x = true.
Proof.
  revert s. induction a as [|c a IH]; intros s H.
  - exists s. by split.
  - rewrite append_cons in H. destruct s as [|b s]; [discriminate|].
    cbn [startswith] in H. destruct (decide (c = b)) as [->|]; [|discriminate].
    destruct (IH s H) as (y & -> & Hy). exists y. by rewrite append_cons.
Qed.

(** A string that contains [a ++ x] contains [x]. *)
Lemma contains_suffix_token a x s :
  contains (a +:+ x) s = true -> contains x s = true.
Proof.
  induction s as [|c s IH].
  - simpl. rewrite orb_false_r. intros H.
    destruct (startswith_split _ _ _ H) as (y & Hy & Hx).
    destruct a; [|rewrite append_cons in Hy; discriminate].
    change ("" +:+ y) with y in Hy. subst y.
    simpl. by rewrite Hx.
  - change (contains (a +:+ x) (String c s))
      with (startswith (String c s) (a +:+ x) || contains (a +:+ x) s).
    change (contains x (String c s))
      with (startswith (String c s) x || contains x s).
    intros H. apply orb_true_iff in H as [H|H].
    + destruct (startswith_split _ _ _ H) as (y & Hy & Hx).
      pose proof (contains_after_prefix a x y Hx) as Hc.
      rewrite <- Hy in Hc.
      change (contains x (String c s))
        with (startswith (String c s) x || contains x s) in Hc.
      exact Hc.
    + rewrite (IH H). apply orb_true_r.
Qed.

(** Two tokens of [get_file_category] never decide: every string that
    contains [officedocument] contains [document], and every string that
    contains [gzip] contains [zip], so the two token tests give the same
    answer without them. *)
Theorem redundant_tokens (l : string) :
  has_token document_tokens l = has_token document_tokens_needed l
  /\ has_token archive_tokens l = has_token archive_tokens_needed l.
Proof.
  unfold has_token, document_tokens, archive_tokens,
    document_tokens_needed, archive_tokens_needed.
  cbn [existsb]. split.
  - destruct (contains "officedocument" l) eqn:E; [|by rewrite !orb_false_r].
    rewrite (contains_suffix_token "office" "document" l E).
    by rewrite !orb_true_r.
  - destruct (contains "gzip" l) eqn:E; [|reflexivity].
    rewrite (contains_suffix_token "g" "zip" l E). by rewrite !orb_true_r.
Qed.

End ClassifierMore.

(** ** Writing the report *)

Section WriterFacts.

Import TextWriter.

Variable w : world.
Variable fs : filesystem.

Lemma save_metadata_run (text_content output_path : string)
    (log : list fs_call) :
  let output_dir := os_path_dirname fs output_path in
  let needed := truthy output_dir && negb (os_path_exists w output_dir) in
  exists calls ok,
    save_metadata w fs text_content output_path log = (log ++ calls, Ok ok)
    /\ (forall e, needed = true -> os_makedirs fs output_dir = Raise e ->
                  calls = [Makedirs output_dir] /\ ok = false)
    /\ (needed = false \/ os_makedirs fs output_dir = Ok tt ->
        calls = (if needed then [Makedirs output_dir] else [])
                ++ [WriteText output_path text_content]
        /\ (ok = true <-> write_text fs output_path text_content = Ok tt)).
Proof.
  intros output_dir needed.
  unfold save_metadata, io_try, mbind, IO_bind, io_bind, perform, mret, IO_ret.
  fold output_dir. fold needed.
  destruct needed eqn:Hneeded.
  - destruct (os_makedirs fs output_dir) as [[]|e] eqn:Hmk.
    + destruct (write_text fs output_path text_content) as [[]|e'] eqn:Hwr;
        eexists; eexists; (split; [by rewrite <- app_assoc|]);
        (split; [discriminate|]); intros _; (split; [reflexivity|]);
        split; congruence.
    + eexists; eexists. split; [reflexivity|]. split.
      * intros e' _ _. by split.
      * intros [?|?]; discriminate.
  - destruct (write_text fs output_path text_content) as [[]|e'] eqn:Hwr;
      eexists; eexists; (split; [reflexivity|]);
      (split; [discriminate|]); intros _; (split; [reflexivity|]);
      split; congruence.
Qed.


(** Given what [os.path.splitext] promises (root and extension put together
    give the path, and the extension is empty or begins with a dot), the
    output path [generate_output_filename] proposes is the root followed by
    [_metadata.txt], and it is never the input path itself: the report
    cannot overwrite the file it describes. *)
Theorem output_never_input (input_path root ext : string) :
  os_path_splitext w input_path = (root, ext) ->
  root +:+ ext = input_path ->
  ext = "" \/ startswith ext "." = true ->
  generate_output_filename w input_path = root +:+ "_metadata.txt"
  /\ generate_output_filename w input_path <> input_path.
Proof.
  intros Hsplit Hjoin Hext. unfold generate_output_filename. rewrite Hsplit.
  split; [reflexivity|]. cbn [fst]. rewrite <- Hjoin. intros Heq.
  apply (inj (String.app root)) in Heq. subst ext.
  destruct Hext; discriminate.
Qed.

End WriterFacts.


Lemma output_never_input_witness :
  TextWriter.generate_output_filename
    (Scenarios.with_splitext Worlds.empty_world Scenarios.split_at_dot) "photo.png"
  = "photo_metadata.txt"
  /\ TextWriter.generate_output_filename
       (Scenarios.with_splitext Worlds.empty_world Scenarios.split_at_dot) "photo.png"
     <> "photo.png".
Proof.
  apply (output_never_input
           (Scenarios.with_splitext Worlds.empty_world Scenarios.split_at_dot)
           "photo.png" "photo" ".png"); [reflexivity|reflexivity|by right].
Defined.

(** ** The pipeline of [main.py] *)

Lemma get_None_not d k : PyDict.get d k <> None -> k ∈ PyDict.keys d.
Proof.
  intros H. destruct (decide (k ∈ PyDict.keys d)) as [Hin|Hout]; [done|].
  by apply get_None in Hout.
Qed.

Section PipelineFacts.

Import TextWriter Main.

Variable w : world.
Variable m : media.
Variable fs : filesystem.

Lemma keys_update_subset d other k :
  k ∈ PyDict.keys d -> k ∈ PyDict.keys (PyDict.update d other).
Proof.
  unfold PyDict.update. revert d.
  induction other as [|[k0 v0] other IH]; intros d Hk; simpl; [done|].
  apply IH. apply keys_setitem. by right.
Qed.

(** Whatever the category, [get_metadata] passes on the exception of a
    failing [os.stat]: each of the six backends gathers the basic attributes
    outside any [try]. *)
Theorem get_metadata_stat_failure (file_path category : string) (e : exn) :
  os_stat w file_path = Raise e ->
  get_metadata w m file_path category = Raise e.
Proof.
  intros Hst. unfold get_metadata.
  repeat case_decide.
  - unfold ImageExtractor.extract, ImageExtractor.get_basic_info. by rewrite Hst.
  - unfold AudioExtractor.extract, AudioExtractor.get_basic_info. by rewrite Hst.
  - unfold VideoExtractor.extract, VideoExtractor.get_basic_info. by rewrite Hst.
  - by apply document_extract_policy.
  - by apply archive_extract_policy.
  - unfold GenericExtractor.extract. by rewrite (get_basic_info_raises _ _ _ Hst).
Qed.

(** When [os.stat] succeeds and the three extractors that are not embedded
    return, [get_metadata] returns a map for every category, and the map has
    the keys [file_name], [file_size_bytes] and [file_size_mb]. *)
Theorem get_metadata_basic_keys (file_path category : string) (st : stat_result) :
  os_stat w file_path = Ok st ->
  (exists d, extract_with_pil m file_path = Ok d) ->
  (exists d, extract_with_mutagen m file_path = Ok d) ->
  (exists d, extract_with_ffprobe m file_path = Ok d) ->
  exists metadata,
    get_metadata w m file_path category = Ok metadata
    /\ forall k, k ∈ basic_keys -> k ∈ PyDict.keys metadata.
Proof.
  intros Hst [dp Hp] [dm Hm] [df Hf].
  assert (Hbasic : forall k (other : pydict),
             k ∈ basic_keys ->
             k ∈ PyDict.keys
                   (PyDict.update []
                      [ ("file_name", VStr (os_path_basename w file_path));
                        ("file_size_bytes", VInt (st_size st));
                        ("file_size_mb",
                         VFloat (round2 (Qdiv (inject_Z (st_size st))
                                              (inject_Z (1024 * 1024))))) ])).
  { intros k other Hk. exact Hk. }
  unfold get_metadata. repeat case_decide.
  - unfold ImageExtractor.extract, ImageExtractor.get_basic_info.
    rewrite Hst. cbn [mbind result_bind rbind]. rewrite truediv_megabyte.
    cbn [mbind result_bind rbind].
    assert (Hx : exists d, ImageExtractor.extract_with_exifread w m file_path = Ok d)
      by apply try_except_returns.
    destruct Hx as [dx Hx]. rewrite Hp, Hx.
    destruct (PIL_AVAILABLE m), (EXIFREAD_AVAILABLE m);
      cbn [mbind result_bind rbind]; eexists; (split; [reflexivity|]);
      intros k Hk;
      repeat first [ by apply (Hbasic k []) | apply keys_update_subset ].
  - unfold AudioExtractor.extract, AudioExtractor.get_basic_info.
    rewrite Hst. cbn [mbind result_bind rbind]. rewrite truediv_megabyte.
    cbn [mbind result_bind rbind].
    assert (Hx : exists d, AudioExtractor.extract_with_tinytag w m file_path = Ok d)
      by apply try_except_returns.
    destruct Hx as [dx Hx]. rewrite Hm, Hx.
    destruct (MUTAGEN_AVAILABLE m), (TINYTAG_AVAILABLE m);
      cbn [mbind result_bind rbind]; eexists; (split; [reflexivity|]);
      intros k Hk;
      repeat first [ by apply (Hbasic k []) | apply keys_update_subset ].
  - unfold VideoExtractor.extract, VideoExtractor.get_basic_info.
    rewrite Hst. cbn [mbind result_bind rbind]. rewrite truediv_megabyte.
    cbn [mbind result_bind rbind].
    assert (Hx : exists d, VideoExtractor.extract_with_hachoir w file_path = Ok d)
      by apply try_except_returns.
    destruct Hx as [dx Hx]. rewrite Hf, Hx.
    destruct (HACHOIR_AVAILABLE w), df;
      cbn [mbind result_bind rbind]; eexists; (split; [reflexivity|]);
      intros k Hk;
      repeat first [ by apply (Hbasic k []) | apply keys_update_subset ].
  - destruct (basic_attributes_hold w file_path st Hst)
      as (_ & _ & (metadata & Hex & Ha & Hb & Hc)).
    exists metadata. split; [exact Hex|].
    intros k Hk. apply get_None_not. unfold basic_keys in Hk.
    rewrite !elem_of_cons, elem_of_nil in Hk.
    destruct Hk as [->|[->|[->|[]]]]; congruence.
  - destruct (basic_attributes_hold w file_path st Hst)
      as (_ & (metadata & Hex & Ha & Hb & Hc) & _).
    exists metadata. split; [exact Hex|].
    intros k Hk. apply get_None_not. unfold basic_keys in Hk.
    rewrite !elem_of_cons, elem_of_nil in Hk.
    destruct Hk as [->|[->|[->|[]]]]; congruence.
  - destruct (basic_attributes_hold w file_path st Hst)
      as ((metadata & Hex & Ha & Hb & Hc) & _).
    exists metadata. split; [exact Hex|].
    intros k Hk. apply get_None_not. unfold basic_keys in Hk.
    rewrite !elem_of_cons, elem_of_nil in Hk.
    destruct Hk as [->|[->|[->|[]]]]; congruence.
Qed.

End PipelineFacts.

Lemma get_metadata_stat_failure_witness :
  Main.get_metadata Worlds.empty_world Desk.no_media "missing.mp3" "audio"
  = Raise (Worlds.no_such_file "missing.mp3").
Proof.
  apply get_metadata_stat_failure. reflexivity.
Defined.

Lemma get_metadata_basic_keys_witness :
  exists metadata,
    Main.get_metadata (Worlds.file_world "clip.mp4" [x00; x00; x00; x18])
      Desk.no_media "clip.mp4" "video" = Ok metadata
    /\ "file_size_bytes" ∈ PyDict.keys metadata.
Proof.
  destruct (get_metadata_basic_keys (Worlds.file_world "clip.mp4" [x00; x00; x00; x18])
              Desk.no_media "clip.mp4" "video" _ eq_refl)
    as (metadata & Hex & Hkeys); [by eexists|by eexists|by eexists|].
  exists metadata. split; [exact Hex|].
  apply Hkeys. apply (bool_decide_unpack _). by vm_compute.
Defined.

(** [detect_type] returns for every path. *)
Lemma detect_type_total_fallback_always (w : world) (file_path : string) :
  exists mime, detect_type w file_path = Ok mime.
Proof.
  unfold detect_type, mimetypes_fallback, magic_attempt.
  repeat case_match; eauto.
Qed.

Section PipelineOutcome.

Import TextWriter Main.

Variable w : world.
Variable m : media.
Variable fs : filesystem.

Lemma str_take_bound n s : (String.length (str_take n s) <= n)%nat.
Proof. rewrite str_take_length. lia. Qed.

Lemma append_length (s t : string) :
  String.length (s +:+ t) = (String.length s + String.length t)%nat.
Proof.
  induction s as [|c s IH]; [reflexivity|].
  rewrite append_cons. simpl. by rewrite IH.
Qed.


End PipelineOutcome.


(** ** Tags of exifread and tinytag *)

Section TagFacts.

Import PyDict.

Lemma for_each_fmap {A B} (f : A -> B) (l : list A) (body : B -> M unit) :
  for_each (f <$> l) body = for_each l (fun x => body (f x)).
Proof.
  induction l as [|x l IH]; [reflexivity|].
  change ((body (f x) ;; for_each (f <$> l) body)
          = (body (f x) ;; for_each l (fun x => body (f x)))).
  by rewrite IH.
Qed.

Lemma for_each_ext {A} (l : list A) (body body' : A -> M unit) :
  (forall x, body x = body' x) -> for_each l body = for_each l body'.
Proof.
  intros H. induction l as [|x l IH]; simpl; [reflexivity|]. by rewrite H, IH.
Qed.

Lemma for_each_labelled prefix (entries : list (string * option value)) d0 :
  exists d,
    for_each entries (labelled prefix) d0 = (d, Ok tt)
    /\ (forall k, (forall key v, (key, Some v) ∈ entries -> k <> prefix +:+ key) ->
                  get d k = get d0 k)
    /\ (NoDup entries.*1 ->
        forall key v, (key, Some v) ∈ entries -> get d (prefix +:+ key) = Some v).
Proof.
  revert d0. induction entries as [|[key0 ov] entries IH]; intros d0.
  - exists d0. split; [reflexivity|]. split; [done|].
    intros _ key v H. by apply elem_of_nil in H.
  - cbn [for_each]. unfold mbind at 1, M_bind at 1, bind at 1.
    unfold labelled at 1. cbn [fst snd].
    destruct ov as [v0|].
    + unfold assign at 1.
      destruct (IH (setitem (prefix +:+ key0) v0 d0)) as (d & Hrun & Hother & Hset).
      exists d. split; [exact Hrun|]. split.
      * intros k Hk. rewrite Hother.
        -- apply get_setitem_ne. intros E. symmetry in E. revert E.
           apply (Hk key0 v0). apply elem_of_cons. by left.
        -- intros key v Hin. apply (Hk key v). apply elem_of_cons. by right.
      * intros Hnd key v Hin. cbn [fmap list_fmap fst] in Hnd.
        apply NoDup_cons in Hnd as [Hfresh Hnd].
        apply elem_of_cons in Hin as [[= -> ->]|Hin]; [|by apply Hset].
        rewrite Hother; [apply get_setitem_eq|].
        intros key v Hin E. apply (inj (String.app prefix)) in E. subst key.
        apply Hfresh. apply list_elem_of_fmap. by exists (key0, Some v).
    + unfold mret at 1, M_ret at 1, ret at 1.
      destruct (IH d0) as (d & Hrun & Hother & Hset).
      exists d. split; [exact Hrun|]. split.
      * intros k Hk. apply Hother.
        intros key v Hin. apply (Hk key v). apply elem_of_cons. by right.
      * intros Hnd key v Hin. cbn [fmap list_fmap fst] in Hnd.
        apply NoDup_cons in Hnd as [_ Hnd].
        apply elem_of_cons in Hin as [[=]|Hin]. by apply Hset.
Qed.

Variable w : world.
Variable m : media.

(** When exifread reads the file, every tag whose name does not contain
    [thumbnail] in any letter case is reported under [exifread_] followed by
    its name, with its value, and no thumbnail tag is reported; when the
    file cannot be opened or exifread fails, [exifread_error] is the only
    key. *)
Theorem exifread_drops_thumbnails (file_path : string) :
  (forall f tags,
      open_rb w file_path = Ok f ->
      exifread_process_file m f = Ok tags ->
      NoDup tags.*1 ->
      exists found,
        ImageExtractor.extract_with_exifread w m file_path = Ok found
        /\ forall tag value,
             (tag, value) ∈ tags ->
             get found ("exifread_" +:+ tag)
             = if contains "thumbnail" (lower tag) then None
               else Some (VStr value))
  /\ (forall e,
        open_rb w file_path = Raise e ->
        ImageExtractor.extract_with_exifread w m file_path
        = Ok [ ("exifread_error", VStr (str_exn e)) ])
  /\ (forall f e,
        open_rb w file_path = Ok f ->
        exifread_process_file m f = Raise e ->
        ImageExtractor.extract_with_exifread w m file_path
        = Ok [ ("exifread_error", VStr (str_exn e)) ]).
Proof.
  split; [|split].
  - intros f tags Hopen Htags Hnd.
    assert (Hloop : for_each tags ImageExtractor.exifread_tag
                    = for_each (exif_entry <$> tags) (labelled "exifread_")).
    { rewrite for_each_fmap. apply for_each_ext. intros [tag value].
      unfold ImageExtractor.exifread_tag, labelled, exif_entry. cbn [fst snd].
      by destruct (contains "thumbnail" (lower tag)). }
    destruct (for_each_labelled "exifread_" (exif_entry <$> tags) [])
      as (d & Hrun & Hother & Hset).
    exists d. split.
    + apply try_except_finished.
      unfold mbind, M_bind, bind, call. by rewrite Hopen, Htags, Hloop.
    + assert (Hnd' : NoDup (exif_entry <$> tags).*1).
      { rewrite <- list_fmap_compose.
        by rewrite (list_fmap_ext _ fst tags) by (by intros ? []). }
      intros tag value Hin.
      destruct (contains "thumbnail" (lower tag)) eqn:Hthumb.
      * rewrite Hother; [reflexivity|].
        intros key v Hkey E. apply (inj (String.app "exifread_")) in E. subst key.
        apply list_elem_of_fmap in Hkey as ([tag' value'] & Heq & Hin').
        unfold exif_entry in Heq. cbn [fst snd] in Heq.
        injection Heq as <- Hv.
        by rewrite Hthumb in Hv.
      * apply (Hset Hnd'). apply list_elem_of_fmap. exists (tag, value).
        split; [|done]. unfold exif_entry. cbn [fst snd]. by rewrite Hthumb.
  - intros e Hopen. unfold ImageExtractor.extract_with_exifread,
      ImageExtractor.extract_with_exifread_block.
    rewrite (try_except_raised _ _ [] e); [reflexivity|].
    unfold mbind, M_bind, bind, call. by rewrite Hopen.
  - intros f e Hopen Htags. unfold ImageExtractor.extract_with_exifread,
      ImageExtractor.extract_with_exifread_block.
    rewrite (try_except_raised _ _ [] e); [reflexivity|].
    unfold mbind, M_bind, bind, call. by rewrite Hopen, Htags.
Qed.

(** When tinytag reads the file, each of its fourteen fields that is not
    [None] is reported as text under [tinytag_] followed by the field name,
    and a field that is [None] leaves no key; when tinytag fails,
    [tinytag_error] is the only key. *)
Theorem tinytag_fields (file_path : string) :
  (forall tag,
      TinyTag_get m file_path = Ok tag ->
      exists found,
        AudioExtractor.extract_with_tinytag w m file_path = Ok found
        /\ (forall key value,
               (key, Some value) ∈ AudioExtractor.fields tag ->
               get found ("tinytag_" +:+ key)
               = Some (VStr (Normalize.py_str w value)))
        /\ (forall key,
               (key, None) ∈ AudioExtractor.fields tag ->
               get found ("tinytag_" +:+ key) = None))
  /\ (forall e,
        TinyTag_get m file_path = Raise e ->
        AudioExtractor.extract_with_tinytag w m file_path
        = Ok [ ("tinytag_error", VStr (str_exn e)) ]).
Proof.
  split.
  - intros tag Hget.
    assert (Hloop : for_each (AudioExtractor.fields tag) (AudioExtractor.tinytag_field w)
                    = for_each (tinytag_entry w <$> AudioExtractor.fields tag)
                        (labelled "tinytag_")).
    { rewrite for_each_fmap. apply for_each_ext. intros [key [value|]]; reflexivity. }
    destruct (for_each_labelled "tinytag_"
                (tinytag_entry w <$> AudioExtractor.fields tag) [])
      as (d & Hrun & Hother & Hset).
    assert (Hnd : NoDup (AudioExtractor.fields tag).*1).
    { apply (bool_decide_unpack _). by vm_compute. }
    assert (Hnd' : NoDup (tinytag_entry w <$> AudioExtractor.fields tag).*1).
    { rewrite <- list_fmap_compose.
      by rewrite (list_fmap_ext _ fst (AudioExtractor.fields tag))
        by (by intros ? []). }
    exists d. split; [|split].
    + apply try_except_finished.
      unfold mbind, M_bind, bind, call. by rewrite Hget, Hloop.
    + intros key value Hin. apply (Hset Hnd').
      apply list_elem_of_fmap. by exists (key, Some value).
    + intros key Hin. rewrite Hother; [reflexivity|].
      intros key' v Hkey E. apply (inj (String.app "tinytag_")) in E. subst key'.
      apply list_elem_of_fmap in Hkey as ([key' ov] & Heq & Hin').
      unfold tinytag_entry in Heq. cbn [fst snd] in Heq.
      injection Heq as <- Hv. destruct ov as [v'|]; [|discriminate].
      assert (Hsame : Some v' = None).
      { clear -Hnd Hin Hin'.
        revert Hnd Hin Hin'. generalize (AudioExtractor.fields tag).
        intros l. induction l as [|[k0 o0] l IH]; intros Hnd H1 H2.
        - by apply elem_of_nil in H1.
        - cbn [fmap list_fmap fst] in Hnd. apply NoDup_cons in Hnd as [Hfresh Hnd].
          apply elem_of_cons in H1 as [[= <- <-]|H1];
            apply elem_of_cons in H2 as [[= ? ?]|H2]; try done.
          + exfalso. apply Hfresh. apply list_elem_of_fmap. by exists (key, Some v').
          + exfalso. apply Hfresh. subst. apply list_elem_of_fmap.
            by exists (k0, None).
          + by apply IH. }
      discriminate.
  - intros e Hget. unfold AudioExtractor.extract_with_tinytag,
      AudioExtractor.extract_with_tinytag_block.
    rewrite (try_except_raised _ _ [] e); [reflexivity|].
    unfold mbind, M_bind, bind, call. by rewrite Hget.
Qed.

End TagFacts.

Lemma exifread_drops_thumbnails_witness :
  exists found,
    ImageExtractor.extract_with_exifread
      (Worlds.file_world "p.jpg" [xff; xd8; xff])
      (Desk.exif_media [ ("Image Make", "Acme"); ("JPEGThumbnail", "...") ])
      "p.jpg" = Ok found
    /\ PyDict.get found "exifread_Image Make" = Some (VStr "Acme")
    /\ PyDict.get found "exifread_JPEGThumbnail" = None.
Proof.
  destruct (exifread_drops_thumbnails
              (Worlds.file_world "p.jpg" [xff; xd8; xff])
              (Desk.exif_media [ ("Image Make", "Acme"); ("JPEGThumbnail", "...") ])
              "p.jpg") as [Hread _].
  destruct (Hread _ _ eq_refl eq_refl) as (found & Hex & Htags).
  { apply (bool_decide_unpack _). by vm_compute. }
  exists found. split; [exact Hex|]. split.
  - apply (Htags "Image Make" "Acme"). apply elem_of_cons. by left.
  - apply (Htags "JPEGThumbnail" "..."). apply elem_of_cons. right.
    apply elem_of_cons. by left.
Defined.

Lemma tinytag_fields_witness :
  exists found,
    AudioExtractor.extract_with_tinytag Worlds.empty_world
      (Desk.tinytag_media Desk.short_tag) "song.mp3" = Ok found
    /\ PyDict.get found "tinytag_year" = Some (VStr "1965")
    /\ PyDict.get found "tinytag_album" = None.
Proof.
  destruct (tinytag_fields Worlds.empty_world (Desk.tinytag_media Desk.short_tag)
              "song.mp3") as [Hread _].
  destruct (Hread _ eq_refl) as (found & Hex & Hsome & Hnone).
  exists found. split; [exact Hex|]. split.
  - apply (Hsome "year" (VInt 1965)).
    by apply (list_elem_of_lookup_2 _ 4%nat).
  - apply (Hnone "album").
    by apply (list_elem_of_lookup_2 _ 1%nat).
Defined.
